(** * SIPI-ETL: detection and region monitoring, verified against the source

    Shallow embedding of
      - src/modules/portals/idealista/transform/overpass_queries.py
      - src/modules/portals/idealista/transform/scorer.py
      - src/modules/portals/idealista/transform/osm_matcher.py
      - src/core/geo/models.py
      - src/core/geo/region_builder.py
      - src/core/geo/region_monitor.py

    Conventions.
    - Python numbers (int and float) are exact rationals [Q]; comparisons are
      the boolean tests of QArith.  The functions of Python's [math] module
      are not rational and are taken as a record [libm] of total functions:
      float rounding is outside the model, and with it the [ValueError] that
      [sqrt] raises in the two haversine formulas when rounding takes its
      argument below zero (points near the antipode of the centre).
    - A Python call either returns or raises: [result].
    - Python [str] is a UTF-8 byte string; [lower] maps the ASCII and the
      Latin-1 capital letters (the alphabet of the Spanish keyword lists),
      and leaves the capitals of the rest of Unicode, which [str.lower]
      maps too.
    - The statements sent to the database and the awaits are taken to
      complete: a failing connection or a task cancelled at an await is
      outside the model.
    - A free name of a function body is looked up in the globals of its
      module when the body runs.  Where a body uses a name that its module
      does not bind, the binding is part of the model's input, and the
      module as shipped is the input with the name unbound. *)

From Stdlib Require Import ZArith QArith Qround Qminmax Qabs.
From Stdlib Require Import String Ascii List Lia Lqa.
From Stdlib Require Import Sorted Permutation DecimalString.
From stdpp Require Import gmap strings list.

Import ListNotations.
Local Open Scope string_scope.
Local Open Scope Q_scope.

(** ** Python runtime *)

Module Py.

Inductive exn : Type :=
| NameError (name : string)
| AttributeError (attr : string)
| TypeError
| ValueError (msg : string)
| IndexError
| ZeroDivisionError
| OtherException (class : string).

Inductive result (A : Type) : Type :=
| Ok (a : A)
| Raise (e : exn).
Arguments Ok {A} a.
Arguments Raise {A} e.

Definition bind {A B} (r : result A) (k : A -> result B) : result B :=
  match r with
  | Ok a => k a
  | Raise e => Raise e
  end.

Definition returns {A} (r : result A) : Prop := exists a, r = Ok a.

(** [x or d] on an optional value whose falsy inhabitant is [None]. *)
Definition get_default {A} (o : option A) (d : A) : A :=
  match o with Some a => a | None => d end.

(** Truth value of a number: zero is falsy. *)
Definition truthy (q : Q) : bool := negb (Qeq_bool q 0).

(** Truth value of an optional number: [None] and zero are falsy. *)
Definition truthy_opt (o : option Q) : bool :=
  match o with Some q => truthy q | None => false end.

(** *** Strings *)

Definition lower_byte (after_c3 : bool) (c : ascii) : ascii :=
  let n := N_of_ascii c in
  if after_c3
  then if (N.leb 128 n && N.leb n 158 && negb (N.eqb n 151))%bool
       then ascii_of_N (n + 32) else c
  else if (N.leb 65 n && N.leb n 90)%bool
       then ascii_of_N (n + 32) else c.

Fixpoint lower_from (after_c3 : bool) (s : string) : string :=
  match s with
  | EmptyString => EmptyString
  | String c s' =>
      String (lower_byte after_c3 c) (lower_from (N.eqb (N_of_ascii c) 195) s')
  end.

(** [s.lower()] *)
Definition lower (s : string) : string := lower_from false s.

(** [sub in s] for two strings. *)
Fixpoint str_in (sub s : string) : bool :=
  if String.prefix sub s then true
  else match s with
       | EmptyString => false
       | String _ s' => str_in sub s'
       end.

(** [sep.join(l)] *)
Definition join (sep : string) (l : list string) : string :=
  String.concat sep l.

(** [any(t in s for t in ts)] *)
Definition any_in (ts : list string) (s : string) : bool :=
  existsb (fun t => str_in t s) ts.

Definition str_of_Z (z : Z) : string := NilZero.string_of_int (Z.to_int z).

(** Nearest integer, ties to even: the rounding of the [.0f] format. *)
Definition round_half_even (q : Q) : Z :=
  let f := Qfloor q in
  match Qcompare (q - inject_Z f) (1 # 2) with
  | Lt => f
  | Gt => (f + 1)%Z
  | Eq => if Z.even f then f else (f + 1)%Z
  end.

(** [f"{q:.0f}"] *)
Definition format_0f (q : Q) : string :=
  let z := round_half_even q in
  if (Z.eqb z 0 && negb (Qle_bool 0 q))%bool then "-0" else str_of_Z z.

(** [sorted(l, key=key)]: stable, ascending. *)
Fixpoint insert_by {A} (key : A -> Q) (x : A) (l : list A) : list A :=
  match l with
  | [] => [x]
  | y :: l' =>
      if Qle_bool (key x) (key y) then x :: y :: l'
      else y :: insert_by key x l'
  end.

Definition sorted {A} (key : A -> Q) (l : list A) : list A :=
  foldr (insert_by key) [] l.

(** Ascending order of the keys. *)
Definition key_le {A} (key : A -> Q) (a b : A) : Prop := key a <= key b.

End Py.

Import Py.

(** The functions of Python's [math] module that the sources use. *)
Record libm : Type := {
  radians : Q -> Q;
  sin : Q -> Q;
  cos : Q -> Q;
  asin : Q -> Q;
  sqrt : Q -> Q;
  atan2 : Q -> Q -> Q
}.

(** ** overpass_queries.py *)

Module Overpass.

(** [class OSMChurch] *)
Record OSMChurch : Type := {
  osm_id : option Z;
  osm_type : option string;
  name : string;
  lat : Q;
  lon : Q;
  distance : Q
}.

(** One object of the [elements] array of an Overpass JSON answer.  A field
    is [None] when the key is absent.  Tag values are strings. *)
Record center_obj : Type := { c_lat : option Q; c_lon : option Q }.

Record element : Type := {
  e_type : option string;
  e_id : option Z;
  e_tags : option (gmap string string);
  e_lat : option Q;
  e_lon : option Q;
  e_center : option center_obj
}.

(** What happens to the POST of [find_churches_nearby]. *)
Inductive http_outcome : Type :=
| RequestFails              (* requests.post raises *)
| BadStatus (code : Z)      (* response.raise_for_status() raises *)
| BodyNotJson               (* response.json() raises *)
| JsonNotObject             (* the body decodes to a non-object *)
| JsonObject (elements : option (list element)).

(** The Overpass server as seen by the client: the outcome of the
    around-query for a radius and a point. *)
Definition network : Type := Q -> Q -> Q -> http_outcome.

(** [class OverpassClient]; the fields come from [config.osm]. *)
Record OverpassClient : Type := {
  overpass_url : string;
  timeout : Z;
  default_search_radius_m : Q
}.

Definition R_earth : Q := 6371000.

(** [OverpassClient._haversine_distance] *)
Definition _haversine_distance (M : libm) (lat1 lon1 lat2 lon2 : Q) : Q :=
  let lat1 := radians M lat1 in
  let lon1 := radians M lon1 in
  let lat2 := radians M lat2 in
  let lon2 := radians M lon2 in
  let dlat := lat2 - lat1 in
  let dlon := lon2 - lon1 in
  let a := sin M (dlat / 2) * sin M (dlat / 2)
           + cos M lat1 * cos M lat2
             * (sin M (dlon / 2) * sin M (dlon / 2)) in
  let c := 2 * asin M (sqrt M a) in
  R_earth * c.

(** The name given to an element: [tags.get('name', 'Sin nombre')]. *)
Definition element_name (e : element) : string :=
  get_default (get_default (e_tags e) ∅ !! "name") "Sin nombre".

(** Coordinates of an element, [None] for the [continue] branch. *)
Definition element_coords (e : element) : option (option Q * option Q) :=
  if decide (e_type e = Some "node") then Some (e_lat e, e_lon e)
  else match e_center e with
       | Some c => Some (c_lat c, c_lon c)
       | None => None
       end.

(** The [for element in ...] loop, accumulating [churches]. *)
Fixpoint elements_loop (M : libm) (lat lon : Q) (els : list element)
    (churches : list OSMChurch) : result (list OSMChurch) :=
  match els with
  | [] => Ok churches
  | e :: els' =>
      match element_coords e with
      | None => elements_loop M lat lon els' churches
      | Some (Some elem_lat, Some elem_lon) =>
          let distance := _haversine_distance M lat lon elem_lat elem_lon in
          elements_loop M lat lon els'
            (churches ++
             [{| osm_id := e_id e; osm_type := e_type e;
                 name := element_name e;
                 lat := elem_lat; lon := elem_lon;
                 distance := distance |}])
      | Some _ => Raise TypeError   (* radians(None) *)
      end
  end.

(** The body of the [try] block. *)
Definition try_body (M : libm) (out : http_outcome) (lat lon : Q)
    : result (list OSMChurch) :=
  match out with
  | RequestFails => Raise (OtherException "requests.RequestException")
  | BadStatus _ => Raise (OtherException "requests.HTTPError")
  | BodyNotJson => Raise (OtherException "json.JSONDecodeError")
  | JsonNotObject => Raise (AttributeError "get")
  | JsonObject els =>
      bind (elements_loop M lat lon (get_default els []) [])
           (fun churches => Ok (sorted distance churches))
  end.

(** [OverpassClient.find_churches_nearby]: [except Exception] returns []. *)
Definition find_churches_nearby (M : libm) (net : network)
    (self : OverpassClient) (lat lon : Q) (radius_m : option Q)
    : list OSMChurch :=
  let radius_m := get_default radius_m (default_search_radius_m self) in
  match try_body M (net radius_m lat lon) lat lon with
  | Ok churches => churches
  | Raise _ => []
  end.

(** What the loop guarantees of every church it appends: its distance is
    the haversine distance to the query point, and it comes from an element
    of the answer. *)
Definition from_element (M : libm) (lat0 lon0 : Q) (els : list element)
    (c : OSMChurch) : Prop :=
  distance c = _haversine_distance M lat0 lon0 (lat c) (lon c)
  /\ exists e, In e els /\ osm_id c = e_id e /\ name c = element_name e.

End Overpass.

(** ** config/scoring.py and the keyword lists *)

Module Config.

(** [WEIGHTS], [PROXIMITY] and [SURFACE] of idealista/config/scoring.py. *)
Definition WEIGHTS_keywords : Z := 70.
Definition PROXIMITY_radius_meters : Z := 200.
Definition PROXIMITY_max_score : Q := 20.
Definition SURFACE_min_size_m2 : Z := 300.
Definition SURFACE_max_score : Q := 10.
Definition SURFACE_bonus_high_ceilings : Q := 3.
Definition SURFACE_bonus_multiple_floors : Q := 3.

(** The module [config/keywords.py] that scorer.py imports [POSITIVE],
    [NEGATIVE] and [EXPLICIT] from is not among the sources: the three
    lists are parameters of the scorer. *)
Record keywords : Type := {
  POSITIVE : list string;
  NEGATIVE : list string;
  EXPLICIT : list string
}.

(** Modelled from the spec: the explicit keyword list of section 4.2, the
    tier whose match gives score 100 ([EXPLICIT] of the missing
    config/keywords.py; the same list is [keywords_high] of core/config.py). *)
Definition spec_EXPLICIT : list string :=
  [ "iglesia"; "convento"; "monasterio"; "capilla"; "ermita"; "basílica";
    "catedral"; "templo"; "parroquia"; "santuario"; "claustro"; "abadía";
    "colegiata"; "priorato"; "cartuja" ].

(** The object [common_config] that region_monitor.py imports is not among
    the sources either; the monitor reads from it the detection threshold
    and the table of status names. *)
Record common_config : Type := {
  detection_threshold : Q;
  statuses_confirmed : string;
  statuses_detected : string;
  statuses_monitoring : string
}.

(** Modelled from the spec: the status names of the status mapping of
    section 4.5 ([scoring['statuses']] of the missing [common_config]); the
    threshold is left to the caller (core/config.py defaults it to 50). *)
Definition spec_config (threshold : Q) : common_config :=
  {| detection_threshold := threshold;
     statuses_confirmed := "confirmed";
     statuses_detected := "detected";
     statuses_monitoring := "monitoring" |}.

End Config.

(** ** scorer.py *)

Module Scorer.
Import Config Overpass.

(** The dict passed to [score]: one field per key that the scorer reads or
    that its callers write; [None] is an absent key.  [d_lat] and [d_lon]
    are the keys 'lat' and 'lon'. *)
Record inmueble_dict : Type := {
  titulo_completo : option string;
  caracteristicas_extras : option (list string);
  latitud : option Q;
  longitud : option Q;
  m2_construidos : option Q;
  titulo : option string;
  descripcion : option string;
  caracteristicas_basicas : option (list string);
  d_lat : option Q;
  d_lon : option Q;
  geo_type : option string
}.

(** [class ReligiousPropertyScorer]: [__init__] is [pass], so an instance
    has the attribute [overpass] only if a caller sets it. *)
Record ReligiousPropertyScorer : Type := {
  overpass : option OverpassClient
}.

Definition ReligiousPropertyScorer_init : ReligiousPropertyScorer :=
  {| overpass := None |}.

(** The global [evidencias] of module scorer.py: [None] when the name is
    unbound, else the contents of the list object it is bound to. *)
Definition globals : Type := option (list string).

(** scorer.py as shipped binds no [evidencias]. *)
Definition shipped : globals := None.

(** Computations of [score]: they read and update the global list. *)
Definition M (A : Type) : Type := globals -> result A * globals.

Definition ret {A} (a : A) : M A := fun g => (Ok a, g).

Definition raise {A} (e : exn) : M A := fun g => (Raise e, g).

Definition mbind {A B} (m : M A) (k : A -> M B) : M B :=
  fun g => match m g with
           | (Ok a, g') => k a g'
           | (Raise e, g') => (Raise e, g')
           end.

Local Notation "x <- m ;; k" := (mbind m (fun x => k))
  (at level 100, m at next level, right associativity).

(** [evidencias.append(note)] *)
Definition evidencias_append (note : string) : M unit :=
  fun g => match g with
           | Some l => (Ok tt, Some (l ++ [note])%list)
           | None => (Raise (NameError "evidencias"), None)
           end.

(** The expression [evidencias]. *)
Definition evidencias_load : M (list string) :=
  fun g => match g with
           | Some l => (Ok l, g)
           | None => (Raise (NameError "evidencias"), None)
           end.

(** [WEIGHTS["keywords"] // len(pool)], evaluated inside a loop over
    [pool], hence with [pool] non-empty. *)
Definition per_keyword (pool : list string) : Q :=
  inject_Z (WEIGHTS_keywords / Z.of_nat (length pool)).

(** [for kw in POSITIVE: ...] *)
Fixpoint positive_loop (per : Q) (text_lower : string) (kws : list string)
    (score : Q) : M Q :=
  match kws with
  | [] => ret score
  | kw :: kws' =>
      if str_in (lower kw) text_lower
      then _ <- evidencias_append ("Keyword positiva '" ++ kw ++ "'") ;;
           positive_loop per text_lower kws' (score + per)
      else positive_loop per text_lower kws' score
  end.

(** [for kw in NEGATIVE: ...] *)
Fixpoint negative_loop (per : Q) (text_lower : string) (kws : list string)
    (score : Q) : M Q :=
  match kws with
  | [] => ret score
  | kw :: kws' =>
      if str_in (lower kw) text_lower
      then _ <- evidencias_append ("Keyword negativa '" ++ kw ++ "'") ;;
           negative_loop per text_lower kws' (score - per)
      else negative_loop per text_lower kws' score
  end.

(** The text searched for keywords: title and extra features, lowered. *)
Definition text_lower (inmueble : inmueble_dict) : string :=
  let text :=
    get_default (titulo_completo inmueble) "" ++ " " ++
    join " " (get_default (caracteristicas_extras inmueble) []) in
  lower text.

(** [any(k in text_lower for k in EXPLICIT)] *)
Definition has_explicit (K : keywords) (inmueble : inmueble_dict) : bool :=
  existsb (fun k => str_in k (text_lower inmueble)) (EXPLICIT K).

(** Part 1 of [score]: keywords. *)
Definition keywords_part (K : keywords) (inmueble : inmueble_dict) : M Q :=
  let text_lower := text_lower inmueble in
  if has_explicit K inmueble
  then _ <- evidencias_append "Keyword explícita (100 %)" ;;
       ret 100
  else
    score <- positive_loop (per_keyword (POSITIVE K)) text_lower
               (POSITIVE K) 0 ;;
    negative_loop (per_keyword (NEGATIVE K)) text_lower (NEGATIVE K) score.

(** The bonus for the closest church. *)
Definition proximity_bonus (d : Q) : Q :=
  PROXIMITY_max_score * (1 - Qmin (d / 300) 1).

(** Part 2 of [score]: OSM proximity. *)
Definition proximity_part (L : libm) (net : network)
    (self : ReligiousPropertyScorer) (inmueble : inmueble_dict) (score : Q)
    : M Q :=
  match latitud inmueble, longitud inmueble with
  | Some lat, Some lon =>
      match overpass self with
      | None => raise (AttributeError "overpass")
      | Some client =>
          let churches :=
            find_churches_nearby L net client lat lon
              (Some (inject_Z PROXIMITY_radius_meters)) in
          match churches with
          | [] => ret score
          | closest :: _ =>
              _ <- evidencias_append
                     (str_of_Z (Z.of_nat (length churches))
                      ++ " iglesia(s) OSM en "
                      ++ str_of_Z PROXIMITY_radius_meters
                      ++ "m, más cercana a "
                      ++ format_0f (distance closest) ++ "m") ;;
              ret (score + proximity_bonus (distance closest))
          end
      end
  | _, _ => ret score
  end.

(** Part 3 of [score]: surface and features. *)
Definition surface_part (inmueble : inmueble_dict) (score : Q) : M Q :=
  let m2 := m2_construidos inmueble in
  score <-
    (if (truthy_opt m2
         && Qle_bool (inject_Z SURFACE_min_size_m2) (get_default m2 0))%bool
     then _ <- evidencias_append
                 ("Superficie ≥ " ++ str_of_Z SURFACE_min_size_m2 ++ "m²") ;;
          ret (score + SURFACE_max_score)
     else ret score) ;;
  let extras :=
    lower (join " " (get_default (caracteristicas_extras inmueble) [])) in
  score <-
    (if any_in ["techos altos"; "doble altura"] extras
     then _ <- evidencias_append "Techos altos/doble altura" ;;
          ret (score + SURFACE_bonus_high_ceilings)
     else ret score) ;;
  if any_in ["varias plantas"; "múltiples niveles"] extras
  then _ <- evidencias_append "Múltiples niveles" ;;
       ret (score + SURFACE_bonus_multiple_floors)
  else ret score.

(** [ReligiousPropertyScorer.score].  The list created by the first
    statement is bound to the local [evidences], which nothing reads; every
    later statement names [evidencias]. *)
Definition score (K : keywords) (L : libm) (net : network)
    (self : ReligiousPropertyScorer) (inmueble : inmueble_dict)
    : M (Q * list string) :=
  score <- keywords_part K inmueble ;;
  score <- proximity_part L net self inmueble score ;;
  score <- surface_part inmueble score ;;
  evidencias <- evidencias_load ;;
  ret (Qmin score 100, evidencias).


(** A computation that, started with [evidencias] unbound, leaves it
    unbound. *)
Definition keeps_unbound {A} (m : M A) : Prop :=
  forall r g', m None = (r, g') -> g' = None.

End Scorer.

(** ** osm_matcher.py *)

Module Matcher.
Import Overpass Scorer.

(** [class OSMMatchResult] *)
Record OSMMatchResult : Type := {
  osm_church : OSMChurch;
  confidence : Q
}.

(** The test of the [for church in osm_churches] loop. *)
Definition name_matches (titulo : string) (church : OSMChurch) : bool :=
  let church_name := lower (name church) in
  (str_in church_name titulo || str_in titulo church_name)%bool.

(** [IdealistaOSMMatcher.find_match] *)
Definition find_match (inmueble : inmueble_dict)
    (osm_churches : list OSMChurch) : option OSMMatchResult :=
  match osm_churches with
  | [] => None
  | closest :: _ =>
      let titulo := lower (get_default (titulo inmueble) "") in
      match List.find (name_matches titulo) osm_churches with
      | Some church => Some {| osm_church := church; confidence := 95 |}
      | None =>
          if negb (Qle_bool 50 (distance closest))
          then Some {| osm_church := closest; confidence := 80 |}
          else if negb (Qle_bool 150 (distance closest))
          then Some {| osm_church := closest; confidence := 60 |}
          else None
      end
  end.

End Matcher.

(** ** core/geo/models.py *)

Module Geo.

(** [class RegionShape(Enum)] *)
Inductive RegionShape : Type := CIRCLE | POLYGON | BOUNDING_BOX | ADMINISTRATIVE.

Definition RegionShape_value (s : RegionShape) : string :=
  match s with
  | CIRCLE => "circle"
  | POLYGON => "polygon"
  | BOUNDING_BOX => "bbox"
  | ADMINISTRATIVE => "admin"
  end.

(** [RegionShape(value)]: the member with that value, else [ValueError]. *)
Definition RegionShape_of_value (v : string) : result RegionShape :=
  if String.eqb v "circle" then Ok CIRCLE
  else if String.eqb v "polygon" then Ok POLYGON
  else if String.eqb v "bbox" then Ok BOUNDING_BOX
  else if String.eqb v "admin" then Ok ADMINISTRATIVE
  else Raise (ValueError "not a valid RegionShape").

(** [class GeoRegion]; timestamps are integers. *)
Record GeoRegion : Type := {
  id : option Z;
  name : option string;
  shape_type : option RegionShape;
  center_lat : option Q;
  center_lon : option Q;
  radius_m : option Q;
  coordinates : option (list (Q * Q));
  osm_relation_id : option Z;
  admin_level : option Z;
  address : option string;
  description : option string;
  created_at : option Z;
  created_by : option string;
  is_active : bool;
  last_checked : option Z
}.

(** The great-circle distance as [contains_point] and
    [RegionMonitor._calculate_distance] write it (with [atan2]). *)
Definition haversine_atan2 (M : libm) (lat1 lon1 lat2 lon2 : Q) : Q :=
  let R := 6371000 in
  let lat1_rad := radians M lat1 in
  let lat2_rad := radians M lat2 in
  let delta_lat := radians M (lat2 - lat1) in
  let delta_lon := radians M (lon2 - lon1) in
  let a := sin M (delta_lat / 2) * sin M (delta_lat / 2)
           + cos M lat1_rad * cos M lat2_rad
             * (sin M (delta_lon / 2) * sin M (delta_lon / 2)) in
  let c := 2 * atan2 M (sqrt M a) (sqrt M (1 - a)) in
  R * c.

(** [GeoRegion.contains_point]; arithmetic on [None] raises. *)
Definition contains_point (M : libm) (self : GeoRegion) (lat lon : Q)
    : result bool :=
  match shape_type self with
  | Some CIRCLE =>
      match center_lat self, center_lon self, radius_m self with
      | Some clat, Some clon, Some radius =>
          let distance := haversine_atan2 M clat clon lat lon in
          Ok (Qle_bool distance radius)
      | _, _, _ => Raise TypeError
      end
  | _ =>
      (* Para POLYGON y BBOX, mejor usar PostGIS en produccion;
         aqui implementacion simplificada *)
      Ok false
  end.

(** Module models.py imports nothing from [math]: in [get_bounding_box]
    the names [cos] and [radians] are free and resolved in the module's
    globals ([contains_point] imports its own inside the method). *)
Record globals : Type := {
  g_cos : option (Q -> Q);
  g_radians : option (Q -> Q)
}.

(** models.py as shipped. *)
Definition shipped : globals := {| g_cos := None; g_radians := None |}.

(** models.py with [from math import cos, radians] at module level. *)
Definition with_math (M : libm) : globals :=
  {| g_cos := Some (cos M); g_radians := Some (radians M) |}.

Definition load_name {A} (name : string) (binding : option A) : result A :=
  match binding with
  | Some a => Ok a
  | None => Raise (NameError name)
  end.

Definition arg {A} (o : option A) : result A :=
  match o with
  | Some a => Ok a
  | None => Raise TypeError
  end.

(** [min(l)] and [max(l)] of a list of numbers. *)
Definition list_min (l : list Q) : result Q :=
  match l with
  | [] => Raise (ValueError "min() arg is an empty sequence")
  | x :: l' => Ok (fold_left Qmin l' x)
  end.

Definition list_max (l : list Q) : result Q :=
  match l with
  | [] => Raise (ValueError "max() arg is an empty sequence")
  | x :: l' => Ok (fold_left Qmax l' x)
  end.

Local Notation "x <- m ;; k" := (Py.bind m (fun x => k))
  (at level 100, m at next level, right associativity).

(** [GeoRegion.get_bounding_box]: (min_lat, min_lon, max_lat, max_lon). *)
Definition get_bounding_box (G : globals) (self : GeoRegion)
    : result (option (Q * Q * Q * Q)) :=
  match shape_type self with
  | Some CIRCLE =>
      radius <- arg (radius_m self) ;;
      let lat_offset := radius / 111000 in
      cos <- load_name "cos" (g_cos G) ;;
      radians <- load_name "radians" (g_radians G) ;;
      clat <- arg (center_lat self) ;;
      let den := 111000 * Qabs (cos (radians clat)) in
      if Qeq_bool den 0 then Raise ZeroDivisionError
      else
        let lon_offset := radius / den in
        clon <- arg (center_lon self) ;;
        Ok (Some (clat - lat_offset, clon - lon_offset,
                  clat + lat_offset, clon + lon_offset))
  | Some POLYGON =>
      coords <- arg (coordinates self) ;;
      let lats := map fst coords in
      let lons := map snd coords in
      min_lat <- list_min lats ;;
      min_lon <- list_min lons ;;
      max_lat <- list_max lats ;;
      max_lon <- list_max lons ;;
      Ok (Some (min_lat, min_lon, max_lat, max_lon))
  | Some BOUNDING_BOX =>
      coords <- arg (coordinates self) ;;
      match coords with
      | (sw_lat, sw_lon) :: (ne_lat, ne_lon) :: _ =>
          Ok (Some (sw_lat, sw_lon, ne_lat, ne_lon))
      | _ => Raise IndexError
      end
  | _ => Ok None
  end.

(** [class RegionAlert] *)
Record RegionAlert : Type := {
  a_id : option Z;
  a_region_id : Z;
  a_inmueble_id : string;
  a_portal : string;
  a_titulo : option string;
  a_precio : option Q;
  a_score : Q;
  a_status : option string;
  a_lat : Q;
  a_lon : Q;
  a_distance_to_center_m : option Q;
  a_osm_church_id : option Z;
  a_osm_church_name : option string;
  a_osm_distance_m : option Q;
  a_detected_at : option Z;
  a_notified : bool;
  a_notified_at : option Z
}.

End Geo.

(** ** core/geo/region_monitor.py: the scan *)

Module Monitor.
Import Config Scorer.
Import Geo.

(** *** The tables the monitor reads and writes *)

(** A row of [regions.geo_regions] (the columns the monitor names). *)
Record geo_region_row : Type := {
  r_id : Z;
  r_name : option string;
  r_shape_type : string;
  r_center_lat : option Q;
  r_center_lon : option Q;
  r_radius_m : option Q;
  r_address : option string;
  r_description : option string;
  r_is_active : bool;
  r_last_checked : option Z;
  r_created_at : option Z
}.

(** A row of [portals.inmuebles_raw]. *)
Record inmueble_raw : Type := {
  i_id : Z;
  i_portal : string;
  i_id_portal : string;
  i_titulo : option string;
  i_descripcion : option string;
  i_precio : option Q;
  i_lat : option Q;
  i_lon : option Q;
  i_geo_type : option string;
  i_caracteristicas : option (list string);
  i_is_active : bool
}.

(** A row of [portals.detecciones], keyed by [inmueble_id]. *)
Record deteccion : Type := {
  det_score : option Q;
  det_status : option string;
  det_evidences : option (list string);
  det_precio_inicial : option Q;
  det_precio_actual : option Q;
  det_osm_match_id : option Z;
  det_osm_match_type : option string;
  det_last_updated_at : option Z
}.

Record database : Type := {
  geo_regions : list geo_region_row;
  inmuebles_raw : list inmueble_raw;
  detecciones : gmap Z deteccion;
  region_alerts : list RegionAlert
}.

(** A row of the candidate query of [scan_region].  The query keeps only
    listings whose coordinates lie between the bounds, so they are numbers. *)
Record row : Type := {
  row_id : Z;
  row_portal : string;
  row_id_portal : string;
  row_titulo : option string;
  row_descripcion : option string;
  row_precio : option Q;
  row_lat : Q;
  row_lon : Q;
  row_geo_type : option string;
  row_caracteristicas : option (list string);
  row_score : option Q;
  row_status : option string;
  row_evidences : option (list string);
  row_osm_match_id : option Z;
  row_osm_match_type : option string
}.

Definition between (x lo hi : Q) : bool := (Qle_bool lo x && Qle_bool x hi)%bool.

(** One listing through the SELECT ... LEFT JOIN ... WHERE of [scan_region]. *)
Definition select_candidate (db : database) (bbox : Q * Q * Q * Q)
    (min_score : Q) (i : inmueble_raw) : option row :=
  let '(min_lat, min_lon, max_lat, max_lon) := bbox in
  let d := detecciones db !! i_id i in
  let score := d ≫= det_score in
  match i_lat i, i_lon i with
  | Some lat, Some lon =>
      if (i_is_active i
          && between lat min_lat max_lat
          && between lon min_lon max_lon
          && match score with
             | None => true
             | Some s => Qle_bool min_score s
             end)%bool
      then Some {| row_id := i_id i; row_portal := i_portal i;
                   row_id_portal := i_id_portal i;
                   row_titulo := i_titulo i;
                   row_descripcion := i_descripcion i;
                   row_precio := i_precio i;
                   row_lat := lat; row_lon := lon;
                   row_geo_type := i_geo_type i;
                   row_caracteristicas := i_caracteristicas i;
                   row_score := score;
                   row_status := d ≫= det_status;
                   row_evidences := d ≫= det_evidences;
                   row_osm_match_id := d ≫= det_osm_match_id;
                   row_osm_match_type := d ≫= det_osm_match_type |}
      else None
  | _, _ => None
  end.

Definition query_candidates (db : database) (bbox : Q * Q * Q * Q)
    (min_score : Q) : list row :=
  omap (select_candidate db bbox min_score) (inmuebles_raw db).

(** [RegionMonitor._get_region]: the row is read without coordinates. *)
Definition _get_region (db : database) (region_id : Z)
    : result (option GeoRegion) :=
  match List.find (fun r => Z.eqb (r_id r) region_id) (geo_regions db) with
  | None => Ok None
  | Some r =>
      Py.bind (RegionShape_of_value (r_shape_type r)) (fun shape =>
      Ok (Some {| id := Some (r_id r); name := r_name r;
                  shape_type := Some shape;
                  center_lat := r_center_lat r;
                  center_lon := r_center_lon r;
                  radius_m := r_radius_m r;
                  coordinates := None;
                  osm_relation_id := None; admin_level := None;
                  address := r_address r;
                  description := r_description r;
                  created_at := r_created_at r; created_by := None;
                  is_active := r_is_active r;
                  last_checked := r_last_checked r |}))
  end.

(** [float(precio) if precio else None] *)
Definition precio_or_none (precio : option Q) : option Q :=
  if truthy_opt precio then precio else None.

(** [RegionMonitor._save_detection]: INSERT ... ON CONFLICT (inmueble_id)
    DO UPDATE SET score, status, evidences, last_updated_at. *)
Definition _save_detection (now : Z) (inmueble_row : row) (score : Q)
    (evidences : list string) (status : string) (db : database) : database :=
  let new :=
    match detecciones db !! row_id inmueble_row with
    | None =>
        {| det_score := Some score; det_status := Some status;
           det_evidences := Some evidences;
           det_precio_inicial := precio_or_none (row_precio inmueble_row);
           det_precio_actual := precio_or_none (row_precio inmueble_row);
           det_osm_match_id := None; det_osm_match_type := None;
           det_last_updated_at := None |}
    | Some d =>
        {| det_score := Some score; det_status := Some status;
           det_evidences := Some evidences;
           det_precio_inicial := det_precio_inicial d;
           det_precio_actual := det_precio_actual d;
           det_osm_match_id := det_osm_match_id d;
           det_osm_match_type := det_osm_match_type d;
           det_last_updated_at := Some now |}
    end in
  {| geo_regions := geo_regions db;
     inmuebles_raw := inmuebles_raw db;
     detecciones := <[row_id inmueble_row := new]> (detecciones db);
     region_alerts := region_alerts db |}.

(** The uniqueness key of [regions.region_alerts]. *)
Definition same_key (a b : RegionAlert) : bool :=
  (Z.eqb (a_region_id a) (a_region_id b)
   && String.eqb (a_portal a) (a_portal b)
   && String.eqb (a_inmueble_id a) (a_inmueble_id b))%bool.

(** INSERT ... ON CONFLICT (region_id, portal, inmueble_id) DO NOTHING *)
Definition insert_alert (table : list RegionAlert) (a : RegionAlert)
    : list RegionAlert :=
  if existsb (same_key a) table then table else (table ++ [a])%list.

(** [RegionMonitor._save_alerts] *)
Definition _save_alerts (alerts : list RegionAlert) (db : database)
    : database :=
  {| geo_regions := geo_regions db;
     inmuebles_raw := inmuebles_raw db;
     detecciones := detecciones db;
     region_alerts := fold_left insert_alert alerts (region_alerts db) |}.

(** [RegionMonitor._update_region_last_checked] *)
Definition _update_region_last_checked (now : Z) (region_id : Z)
    (db : database) : database :=
  {| geo_regions :=
       map (fun r =>
              if Z.eqb (r_id r) region_id
              then {| r_id := r_id r; r_name := r_name r;
                      r_shape_type := r_shape_type r;
                      r_center_lat := r_center_lat r;
                      r_center_lon := r_center_lon r;
                      r_radius_m := r_radius_m r;
                      r_address := r_address r;
                      r_description := r_description r;
                      r_is_active := r_is_active r;
                      r_last_checked := Some now;
                      r_created_at := r_created_at r |}
              else r)
           (geo_regions db);
     inmuebles_raw := inmuebles_raw db;
     detecciones := detecciones db;
     region_alerts := region_alerts db |}.

(** [RegionMonitor._calculate_distance] *)
Definition _calculate_distance (L : libm) (lat1 lon1 lat2 lon2 : Q) : Q :=
  haversine_atan2 L lat1 lon1 lat2 lon2.

(** The conditional expression assigned to [distance_to_center]:
    [self._calculate_distance(...) if region.center_lat else None]. *)
Definition distance_to_center (L : libm) (region : GeoRegion)
    (lat lon : Q) : result (option Q) :=
  if truthy_opt (center_lat region)
  then match center_lat region, center_lon region with
       | Some clat, Some clon => Ok (Some (_calculate_distance L clat clon lat lon))
       | _, _ => Raise TypeError
       end
  else Ok None.

(** [RegionMonitor._get_status_for_score] *)
Definition _get_status_for_score (cfg : common_config) (score : Q) : string :=
  if Qeq_bool score 100 then statuses_confirmed cfg
  else if Qle_bool (detection_threshold cfg) score then statuses_detected cfg
  else if negb (Qle_bool score 0) then statuses_monitoring cfg
  else "no_detectado".

(** *** The scan

    [self.scorer] is any object with a [score] method; its state (and that
    of its module) is [ScorerState].  [self.overpass] is the client of
    overpass_queries.py. *)

Section Scan.
Variable L : libm.
Variable net : Overpass.network.
Variable cfg : common_config.
Variable G : Geo.globals.
Variable ScorerState : Type.
Variable scorer_score :
  inmueble_dict -> ScorerState -> result (Q * list string) * ScorerState.
Variable overpass : Overpass.OverpassClient.
Variable now : Z.

Definition state : Type := (database * ScorerState)%type.

(** [RegionMonitor._score_inmueble] *)
Definition _score_inmueble (inmueble_row : row)
    : ScorerState -> result (Q * list string) * ScorerState :=
  let inmueble_data :=
    {| titulo_completo := None;
       caracteristicas_extras := Some [];
       latitud := None; longitud := None; m2_construidos := None;
       titulo := Some (get_default (row_titulo inmueble_row) "");
       descripcion := Some (get_default (row_descripcion inmueble_row) "");
       caracteristicas_basicas :=
         Some (get_default (row_caracteristicas inmueble_row) []);
       d_lat := Some (row_lat inmueble_row);
       d_lon := Some (row_lon inmueble_row);
       geo_type := row_geo_type inmueble_row |} in
  scorer_score inmueble_data.

(** Score, evidence and status of a candidate: computed (and saved when
    the score reaches the threshold) if the row has no score, else the
    stored ones. *)
Definition score_of_row (min_score : Q) (r : row) (st : state)
    : result (Q * option (list string) * option string) * state :=
  match row_score r with
  | None =>
      match _score_inmueble r (snd st) with
      | (Raise e, s') => (Raise e, (fst st, s'))
      | (Ok (score, evidences), s') =>
          let status := _get_status_for_score cfg score in
          let db' :=
            (* Guardar deteccion si supera umbral *)
            if Qle_bool min_score score
            then _save_detection now r score evidences status (fst st)
            else fst st in
          (Ok (score, Some evidences, Some status), (db', s'))
      end
  | Some score => (Ok (score, row_evidences r, row_status r), st)
  end.

(** The closest OSM church attached to the alert. *)
Definition osm_of_row (r : row)
    : option Z * option string * option Q :=
  if (truthy (row_lat r) && truthy (row_lon r))%bool
  then match Overpass.find_churches_nearby L net overpass
               (row_lat r) (row_lon r) (Some 150) with
       | closest :: _ =>
           (Overpass.osm_id closest, Some (Overpass.name closest),
            Some (Overpass.distance closest))
       | [] => (row_osm_match_id r, None, None)
       end
  else (row_osm_match_id r, None, None).

(** The body of [for row in inmuebles]: [None] is [continue]. *)
Definition scan_row (region_id : Z) (region : GeoRegion) (min_score : Q)
    (r : row) (st : state) : result (option RegionAlert) * state :=
  match contains_point L region (row_lat r) (row_lon r) with
  | Raise e => (Raise e, st)
  | Ok false => (Ok None, st)
  | Ok true =>
      match distance_to_center L region (row_lat r) (row_lon r) with
      | Raise e => (Raise e, st)
      | Ok distance_to_center =>
          match score_of_row min_score r st with
          | (Raise e, st') => (Raise e, st')
          | (Ok (score, evidences, status), st') =>
              let '(osm_church_id, osm_church_name, osm_distance) :=
                osm_of_row r in
              (Ok (Some
                 {| a_id := None;
                    a_region_id := region_id;
                    a_inmueble_id := row_id_portal r;
                    a_portal := row_portal r;
                    a_titulo := row_titulo r;
                    a_precio := precio_or_none (row_precio r);
                    a_score := score;
                    a_status := status;
                    a_lat := row_lat r;
                    a_lon := row_lon r;
                    a_distance_to_center_m := distance_to_center;
                    a_osm_church_id := osm_church_id;
                    a_osm_church_name := osm_church_name;
                    a_osm_distance_m := osm_distance;
                    a_detected_at := Some now;
                    a_notified := false;
                    a_notified_at := None |}), st')
          end
      end
  end.

(** [for row in inmuebles: ...], accumulating [alerts]. *)
Fixpoint scan_loop (region_id : Z) (region : GeoRegion) (min_score : Q)
    (rows : list row) (alerts : list RegionAlert) (st : state)
    : result (list RegionAlert) * state :=
  match rows with
  | [] => (Ok alerts, st)
  | r :: rows' =>
      match scan_row region_id region min_score r st with
      | (Raise e, st') => (Raise e, st')
      | (Ok None, st') =>
          scan_loop region_id region min_score rows' alerts st'
      | (Ok (Some alert), st') =>
          scan_loop region_id region min_score rows'
            (alerts ++ [alert]) st'
      end
  end.

(** [RegionMonitor.scan_region] *)
Definition scan_region (region_id : Z) (st : state)
    : result (list RegionAlert) * state :=
  match _get_region (fst st) region_id with
  | Raise e => (Raise e, st)
  | Ok None => (Raise (ValueError "Region not found"), st)
  | Ok (Some region) =>
      match get_bounding_box G region with
      | Raise e => (Raise e, st)
      | Ok None => (Raise (ValueError "Cannot compute bounding box"), st)
      | Ok (Some bbox) =>
          let min_score := detection_threshold cfg in
          let inmuebles := query_candidates (fst st) bbox min_score in
          match scan_loop region_id region min_score inmuebles [] st with
          | (Raise e, st') => (Raise e, st')
          | (Ok alerts, (db, s)) =>
              let db := match alerts with
                        | [] => db
                        | _ => _save_alerts alerts db
                        end in
              let db := _update_region_last_checked now region_id db in
              (Ok alerts, (db, s))
          end
      end
  end.

End Scan.

End Monitor.

(** ** core/geo/region_monitor.py: continuous monitoring *)

Module Scheduler.

(** An [asyncio.Task] running [_monitor_loop(region_id, interval_hours)]. *)
Record task : Type := {
  t_region_id : Z;
  t_interval_hours : Q
}.

(** The part of a [RegionMonitor] and of the event loop that
    [start_monitoring] and [stop_monitoring] touch: the dict
    [self.active_monitors], from region id to task handle, and the tasks
    of the loop that have not finished, by handle. *)
Record monitor : Type := {
  active_monitors : gmap Z nat;
  tasks : gmap nat task;
  next_handle : nat
}.

(** After [RegionMonitor.__init__]. *)
Definition init : monitor :=
  {| active_monitors := ∅; tasks := ∅; next_handle := 0 |}.

(** [RegionMonitor.start_monitoring] *)
Definition start_monitoring (region_id : Z) (interval_hours : Q)
    (m : monitor) : monitor :=
  match active_monitors m !! region_id with
  | Some _ => m      (* already being monitored *)
  | None =>
      let h := next_handle m in
      {| active_monitors := <[region_id := h]> (active_monitors m);
         tasks := <[h := {| t_region_id := region_id;
                            t_interval_hours := interval_hours |}]> (tasks m);
         next_handle := S h |}
  end.

(** [RegionMonitor.stop_monitoring]: the task is cancelled and awaited,
    so it has finished when the entry is deleted. *)
Definition stop_monitoring (region_id : Z) (m : monitor) : monitor :=
  match active_monitors m !! region_id with
  | None => m        (* is not being monitored *)
  | Some h =>
      {| active_monitors := delete region_id (active_monitors m);
         tasks := delete h (tasks m);
         next_handle := next_handle m |}
  end.

(** A call made on the monitor. *)
Inductive call : Type :=
| Start (region_id : Z) (interval_hours : Q)
| Stop (region_id : Z).

Definition step (m : monitor) (c : call) : monitor :=
  match c with
  | Start r i => start_monitoring r i m
  | Stop r => stop_monitoring r m
  end.

(** The monitor after a sequence of calls, oldest first. *)
Definition run (calls : list call) : monitor := fold_left step calls init.

(** The tasks that monitor a region. *)
Definition monitors (m : monitor) (region_id : Z) (h : nat) : Prop :=
  exists t, tasks m !! h = Some t /\ t_region_id t = region_id.

(** The handles of the dict and the live tasks are the same, region by
    region, and handles are never reused. *)
Record consistent (m : monitor) : Prop := {
  dict_task : forall r h, active_monitors m !! r = Some h -> monitors m r h;
  task_dict : forall r h, monitors m r h -> active_monitors m !! r = Some h;
  handle_fresh : forall h t, tasks m !! h = Some t -> (h < next_handle m)%nat
}.

End Scheduler.

(** ** Rational stand-ins for the [math] functions

    Truncated series, adequate for the small angles of the examples below;
    they make the examples computable. *)

Module Approx.

Definition pi : Q := 355 # 113.

Definition radians (x : Q) : Q := Qred (x * pi / 180).

Definition sin (x : Q) : Q :=
  Qred (x - x * x * x / 6 + x * x * x * x * x / 120).

Definition cos (x : Q) : Q :=
  Qred (1 - x * x / 2 + x * x * x * x / 24 - x * x * x * x * x * x / 720).

Definition asin (x : Q) : Q :=
  Qred (x + x * x * x / 6 + 3 * x * x * x * x * x / 40).

Definition atan (t : Q) : Q :=
  Qred (t - t * t * t / 3 + t * t * t * t * t / 5).

(** Twelve decimals of the square root. *)
Definition sqrt (x : Q) : Q :=
  Qred (inject_Z (Z.sqrt (Qfloor (x * inject_Z (10 ^ 24)))) / inject_Z (10 ^ 12)).

Definition atan2 (y x : Q) : Q :=
  if negb (Qle_bool x 0) then atan (y / x)
  else if negb (Qle_bool 0 x)
  then if Qle_bool 0 y then atan (y / x) + pi else atan (y / x) - pi
  else if negb (Qle_bool y 0) then pi / 2
  else if negb (Qle_bool 0 y) then - (pi / 2)
  else 0.

Definition math : libm := Build_libm radians sin cos asin sqrt atan2.

End Approx.

(** ** The containment test of the specification

    Section 4.1 asks, for polygon and bounding-box regions, for a
    point-in-polygon test by ray casting against the vertex ring.  This is
    that test, written from the specification and not from the code, to
    compare [GeoRegion.contains_point] with. *)

Module Reference.
Import Geo.





End Reference.

(** ** Inputs of the examples *)

Module Examples.
Import Config Overpass Scorer.

Definition no_keys : inmueble_dict :=
  {| titulo_completo := None; caracteristicas_extras := None;
     latitud := None; longitud := None; m2_construidos := None;
     titulo := None; descripcion := None; caracteristicas_basicas := None;
     d_lat := None; d_lon := None; geo_type := None |}.

(** A church 2 km away. *)
Definition far_church : OSMChurch :=
  {| osm_id := Some 101%Z; osm_type := Some "way";
     name := "Ermita de San Roque";
     lat := 40; lon := -3; distance := 2000 |}.

Definition client : OverpassClient :=
  {| overpass_url := "https://overpass-api.de/api/interpreter";
     timeout := 30; default_search_radius_m := 150 |}.

(** An answer with a node without tags and a named way, the way closer. *)
Definition untagged_node : element :=
  {| e_type := Some "node"; e_id := Some 7%Z; e_tags := None;
     e_lat := Some (373830 # 10000); e_lon := Some (-59960 # 10000);
     e_center := None |}.

Definition named_way : element :=
  {| e_type := Some "way"; e_id := Some 8%Z;
     e_tags := Some {[ "name" := "Convento de Santa Paula" ]};
     e_lat := None; e_lon := None;
     e_center := Some {| c_lat := Some (373827 # 10000);
                         c_lon := Some (-59962 # 10000) |} |}.

(** The candidate built from the untagged node for a query at the centre
    of Sevilla. *)
Definition nameless_church : OSMChurch :=
  {| osm_id := Some 7%Z; osm_type := Some "node"; name := "Sin nombre";
     lat := 373830 # 10000; lon := -59960 # 10000;
     distance := _haversine_distance Approx.math (373826 # 10000)
                   (-59963 # 10000) (373830 # 10000) (-59960 # 10000) |}.


Definition net_down : network := fun _ _ _ => RequestFails.

(** Keyword lists for the examples; the explicit tier is the spec's. *)
Definition K1 : keywords :=
  {| POSITIVE := ["antiguo"]; NEGATIVE := ["garaje"];
     EXPLICIT := spec_EXPLICIT |}.

(** A listing that matches one negative keyword and nothing else. *)
Definition garaje : inmueble_dict :=
  {| titulo_completo := Some "Garaje en venta";
     caracteristicas_extras := Some [];
     latitud := None; longitud := None; m2_construidos := None;
     titulo := None; descripcion := None; caracteristicas_basicas := None;
     d_lat := None; d_lon := None; geo_type := None |}.

(** A large listing with an explicit keyword in its title. *)
Definition convento_grande : inmueble_dict :=
  {| titulo_completo := Some "Antiguo convento reformado";
     caracteristicas_extras := Some [];
     latitud := None; longitud := None; m2_construidos := Some 400;
     titulo := None; descripcion := None; caracteristicas_basicas := None;
     d_lat := None; d_lon := None; geo_type := None |}.

(** A listing whose title contains the placeholder. *)
Definition local_sin_nombre : inmueble_dict :=
  {| titulo_completo := None; caracteristicas_extras := None;
     latitud := None; longitud := None; m2_construidos := None;
     titulo := Some "Local SIN NOMBRE en el centro";
     descripcion := None; caracteristicas_basicas := None;
     d_lat := None; d_lon := None; geo_type := None |}.

Definition region (shape : Geo.RegionShape) (clat clon radius : option Q)
    (coords : option (list (Q * Q))) : Geo.GeoRegion :=
  {| Geo.id := Some 1%Z; Geo.name := Some "zona"; Geo.shape_type := Some shape;
     Geo.center_lat := clat; Geo.center_lon := clon; Geo.radius_m := radius;
     Geo.coordinates := coords;
     Geo.osm_relation_id := None; Geo.admin_level := None;
     Geo.address := None; Geo.description := None;
     Geo.created_at := Some 0%Z; Geo.created_by := None;
     Geo.is_active := true; Geo.last_checked := None |}.

(** The square with corners (0,0) and (2,2), as a polygon. *)
Definition square : Geo.GeoRegion :=
  region Geo.POLYGON None None None (Some [(0, 0); (0, 2); (2, 2); (2, 0)]).

(** The bounding box of the spec's scenario. *)
Definition madrid_bbox : Geo.GeoRegion :=
  region Geo.BOUNDING_BOX None None None (Some [(40, -4); (41, -3)]).

(** The circle of the spec's scenario: 500 m around the centre of Sevilla. *)
Definition sevilla_circle : Geo.GeoRegion :=
  region Geo.CIRCLE (Some (373826 # 10000)) (Some (-59963 # 10000))
    (Some 500) None.


(** The regions table: a circle in Sevilla, the bounding box, the circle on
    the equator. *)
Definition region_row (id : Z) (shape : string) (clat clon radius : option Q)
    : Monitor.geo_region_row :=
  {| Monitor.r_id := id; Monitor.r_name := Some "zona";
     Monitor.r_shape_type := shape;
     Monitor.r_center_lat := clat; Monitor.r_center_lon := clon;
     Monitor.r_radius_m := radius;
     Monitor.r_address := None; Monitor.r_description := None;
     Monitor.r_is_active := true; Monitor.r_last_checked := None;
     Monitor.r_created_at := Some 0%Z |}.

Definition regions : list Monitor.geo_region_row :=
  [ region_row 1 "circle" (Some (373826 # 10000)) (Some (-59963 # 10000))
      (Some 500);
    region_row 2 "bbox" None None None;
    region_row 3 "circle" (Some 0) (Some 10) (Some 500) ].

Definition listing (id : Z) (id_portal titulo : string) (lat lon : Q)
    : Monitor.inmueble_raw :=
  {| Monitor.i_id := id; Monitor.i_portal := "idealista";
     Monitor.i_id_portal := id_portal;
     Monitor.i_titulo := Some titulo; Monitor.i_descripcion := None;
     Monitor.i_precio := Some 250000;
     Monitor.i_lat := Some lat; Monitor.i_lon := Some lon;
     Monitor.i_geo_type := Some "exacta";
     Monitor.i_caracteristicas := None; Monitor.i_is_active := true |}.

(** Two listings some 30 m from the centre of the Sevilla circle. *)
Definition casa_rectoral : Monitor.inmueble_raw :=
  listing 10 "A55" "Casa rectoral" (373828 # 10000) (-59960 # 10000).

Definition piso_moderno : Monitor.inmueble_raw :=
  listing 11 "A30" "Piso moderno" (373825 # 10000) (-59965 # 10000).

(** A listing some 150 m from the centre of the equator circle. *)
Definition casa_ecuador : Monitor.inmueble_raw :=
  listing 20 "E80" "Casa parroquial" (1 # 1000) (10001 # 1000).

Definition stored (score : Q) (status : string) : Monitor.deteccion :=
  {| Monitor.det_score := Some score; Monitor.det_status := Some status;
     Monitor.det_evidences := Some [];
     Monitor.det_precio_inicial := Some 250000;
     Monitor.det_precio_actual := Some 250000;
     Monitor.det_osm_match_id := None; Monitor.det_osm_match_type := None;
     Monitor.det_last_updated_at := None |}.

(** Every listing has its detection record: scores 55, 30 and 80. *)
Definition db_scored : Monitor.database :=
  {| Monitor.geo_regions := regions;
     Monitor.inmuebles_raw := [casa_rectoral; piso_moderno; casa_ecuador];
     Monitor.detecciones :=
       {[ 10%Z := stored 55 "detected"; 11%Z := stored 30 "monitoring";
          20%Z := stored 80 "detected" ]};
     Monitor.region_alerts := [] |}.

(** No listing has a detection record. *)
Definition db_unscored : Monitor.database :=
  {| Monitor.geo_regions := regions;
     Monitor.inmuebles_raw := [casa_rectoral; piso_moderno; casa_ecuador];
     Monitor.detecciones := ∅;
     Monitor.region_alerts := [] |}.

Definition cfg50 : common_config := spec_config 50.

(** [self.scorer] as [RegionMonitor.__init__] builds it. *)
Definition real_scorer
    : inmueble_dict -> Scorer.globals
      -> result (Q * list string) * Scorer.globals :=
  Scorer.score K1 Approx.math net_down ReligiousPropertyScorer_init.

(** A stand-in for [self.scorer] that rates "Casa rectoral" 55 and any
    other listing 30. *)
Definition stub_scorer (d : inmueble_dict) (st : unit)
    : result (Q * list string) * unit :=
  (Ok (if String.eqb (get_default (titulo d) "") "Casa rectoral"
       then 55 else 30, ["stub"]), st).

End Examples.

(** ** core/geo/models.py: the WKT form *)

Module Wkt.
Import Geo.

(** [a != b] on two (lat, lon) tuples. *)
Definition point_eqb (a b : Q * Q) : bool :=
  (Qeq_bool (fst a) (fst b) && Qeq_bool (snd a) (snd b))%bool.

(** [coords = self.coordinates.copy()] followed by
    [if coords[0] != coords[-1]: coords.append(coords[0])], on a list that
    the guard before it has found non-empty. *)
Definition close_ring (coords : list (Q * Q)) : list (Q * Q) :=
  match coords with
  | [] => []
  | first :: _ =>
      if point_eqb first (List.last coords first) then coords
      else (coords ++ [first])%list
  end.

(** [f"{lon} {lat}"]; [str_num] is Python's [str] of a number. *)
Definition point_text (str_num : Q -> string) (p : Q * Q) : string :=
  str_num (snd p) ++ " " ++ str_num (fst p).

(** [f"{x}"] of an optional number. *)
Definition str_opt (str_num : Q -> string) (o : option Q) : string :=
  match o with Some q => str_num q | None => "None" end.

(** [GeoRegion.to_wkt] *)
Definition to_wkt (str_num : Q -> string) (self : GeoRegion)
    : result (option string) :=
  match shape_type self with
  | Some CIRCLE =>
      Ok (Some ("POINT(" ++ str_opt str_num (center_lon self) ++ " "
                ++ str_opt str_num (center_lat self) ++ ")"))
  | Some POLYGON =>
      match coordinates self with
      | Some coords =>
          if (length coords <? 3)%nat
          then Raise (ValueError "Polygon needs at least 3 coordinates")
          else
            let coords := close_ring coords in
            let coords_str := join ", " (map (point_text str_num) coords) in
            Ok (Some ("POLYGON((" ++ coords_str ++ "))"))
      | None => Raise (ValueError "Polygon needs at least 3 coordinates")
      end
  | Some BOUNDING_BOX =>
      match coordinates self with
      | Some [(sw_lat, sw_lon); (ne_lat, ne_lon)] =>
          let coords_str :=
            join ", "
              [ str_num sw_lon ++ " " ++ str_num sw_lat;
                str_num ne_lon ++ " " ++ str_num sw_lat;
                str_num ne_lon ++ " " ++ str_num ne_lat;
                str_num sw_lon ++ " " ++ str_num ne_lat;
                str_num sw_lon ++ " " ++ str_num sw_lat ] in
          Ok (Some ("POLYGON((" ++ coords_str ++ "))"))
      | _ =>
          Raise (ValueError "Bounding box needs exactly 2 coordinates (SW, NE)")
      end
  | _ => Ok None
  end.

End Wkt.

(** ** core/geo/region_builder.py *)

Module Builder.
Import Geo.

(** [class GeocodingResult] (the fields the builder reads). *)
Record GeocodingResult : Type := {
  g_display_name : string;
  g_lat : Q;
  g_lon : Q;
  g_place_type : option string
}.

(** [name or default]: an absent or empty name gives the default. *)
Definition name_or (name : option string) (default : string) : string :=
  match name with
  | Some n => if String.eqb n "" then default else n
  | None => default
  end.

(** A [GeoRegion(...)] call: the fields not given keep their defaults. *)
Definition new_region (name : string) (shape : RegionShape)
    (clat clon radius : option Q) (coords : option (list (Q * Q)))
    (address description : option string) : GeoRegion :=
  {| id := None; name := Some name; shape_type := Some shape;
     center_lat := clat; center_lon := clon; radius_m := radius;
     coordinates := coords;
     osm_relation_id := None; admin_level := None;
     address := address; description := description;
     created_at := None; created_by := None;
     is_active := true; last_checked := None |}.

(** [RegionBuilder.from_address]; [results] is what
    [self.geocoder.geocode(address, limit=1)] returned ([None] or a list). *)
Definition from_address (str_num : Q -> string)
    (results : option (list GeocodingResult)) (address : string)
    (radius_m : Q) (name : option string) : option GeoRegion :=
  match results with
  | Some (result :: _) =>
      Some (new_region
              (name_or name ("Región: " ++ g_display_name result))
              CIRCLE (Some (g_lat result)) (Some (g_lon result))
              (Some radius_m) None (Some address)
              (Some ("Radio de " ++ str_num radius_m ++ "m alrededor de "
                     ++ g_display_name result)))
  | _ => None
  end.

(** [RegionBuilder.from_bounding_box] *)
Definition from_bounding_box (str_num : Q -> string)
    (sw_lat sw_lon ne_lat ne_lon : Q) (name : option string) : GeoRegion :=
  new_region (name_or name "Región rectangular") BOUNDING_BOX
    None None None (Some [(sw_lat, sw_lon); (ne_lat, ne_lon)]) None
    (Some ("Bounding box: SW(" ++ str_num sw_lat ++ ", " ++ str_num sw_lon
           ++ ") NE(" ++ str_num ne_lat ++ ", " ++ str_num ne_lon ++ ")")).

(** [RegionBuilder.from_polygon] *)
Definition from_polygon (coordinates : list (Q * Q)) (name : option string)
    : result GeoRegion :=
  if (length coordinates <? 3)%nat
  then Raise (ValueError "Polygon needs at least 3 points")
  else Ok (new_region (name_or name "Región poligonal") POLYGON
             None None None (Some coordinates) None
             (Some ("Polígono con "
                    ++ str_of_Z (Z.of_nat (length coordinates))
                    ++ " vértices"))).

(** The test of the loop of [from_church]. *)
Definition is_worship (r : GeocodingResult) : bool :=
  match g_place_type r with
  | Some t => existsb (String.eqb t) ["place_of_worship"; "church"; "cathedral"]
  | None => false
  end.

(** [RegionBuilder.from_church]; [results] is what
    [self.geocoder.geocode(query, limit=5)] returned. *)
Definition from_church (str_num : Q -> string)
    (results : option (list GeocodingResult)) (radius_m : Q)
    : option GeoRegion :=
  match results with
  | Some (first :: rest) =>
      let church_result :=
        match List.find is_worship (first :: rest) with
        | Some r => r
        | None => first
        end in
      Some (new_region ("Monitoreo: " ++ g_display_name church_result)
              CIRCLE (Some (g_lat church_result)) (Some (g_lon church_result))
              (Some radius_m) None (Some (g_display_name church_result))
              (Some ("Radio de " ++ str_num radius_m ++ "m alrededor de "
                     ++ g_display_name church_result)))
  | _ => None
  end.

End Builder.

(** ** core/geo/region_monitor.py: regions and their lifecycle *)

Module Regions.
Import Config Scorer.
Import Geo Monitor.

(** [RegionMonitor._save_region].  [new_id] and [created] are the values the
    INSERT returns ([RETURNING id, created_at]).  The row has no column for
    the vertices; the region object keeps them and receives the id. *)
Definition _save_region (new_id : Z) (created : option Z)
    (region : GeoRegion) (db : database) : result (GeoRegion * database) :=
  match shape_type region with
  | None => Raise (AttributeError "value")
  | Some shape =>
      let row :=
        {| r_id := new_id; r_name := name region;
           r_shape_type := RegionShape_value shape;
           r_center_lat := center_lat region;
           r_center_lon := center_lon region;
           r_radius_m := radius_m region;
           r_address := address region;
           r_description := description region;
           r_is_active := true; r_last_checked := None;
           r_created_at := created |} in
      Ok ({| id := Some new_id; name := name region;
             shape_type := shape_type region;
             center_lat := center_lat region;
             center_lon := center_lon region;
             radius_m := radius_m region;
             coordinates := coordinates region;
             osm_relation_id := osm_relation_id region;
             admin_level := admin_level region;
             address := address region;
             description := description region;
             created_at := created; created_by := created_by region;
             is_active := is_active region;
             last_checked := last_checked region |},
          {| geo_regions := (geo_regions db ++ [row])%list;
             inmuebles_raw := inmuebles_raw db;
             detecciones := detecciones db;
             region_alerts := region_alerts db |})
  end.

(** [region.description = description] *)
Definition set_description (region : GeoRegion) (d : option string)
    : GeoRegion :=
  {| id := id region; name := name region;
     shape_type := shape_type region;
     center_lat := center_lat region; center_lon := center_lon region;
     radius_m := radius_m region; coordinates := coordinates region;
     osm_relation_id := osm_relation_id region;
     admin_level := admin_level region;
     address := address region; description := d;
     created_at := created_at region; created_by := created_by region;
     is_active := is_active region; last_checked := last_checked region |}.

(** UPDATE regions.geo_regions SET is_active = FALSE WHERE id = :region_id *)
Definition set_inactive (region_id : Z) (db : database) : database :=
  {| geo_regions :=
       map (fun r =>
              if Z.eqb (r_id r) region_id
              then {| r_id := r_id r; r_name := r_name r;
                      r_shape_type := r_shape_type r;
                      r_center_lat := r_center_lat r;
                      r_center_lon := r_center_lon r;
                      r_radius_m := r_radius_m r;
                      r_address := r_address r;
                      r_description := r_description r;
                      r_is_active := false;
                      r_last_checked := r_last_checked r;
                      r_created_at := r_created_at r |}
              else r)
           (geo_regions db);
     inmuebles_raw := inmuebles_raw db;
     detecciones := detecciones db;
     region_alerts := region_alerts db |}.

(** [RegionMonitor.deactivate_region] *)
Definition deactivate_region (region_id : Z)
    (w : database * Scheduler.monitor) : database * Scheduler.monitor :=
  let m :=
    match Scheduler.active_monitors (snd w) !! region_id with
    | Some _ => Scheduler.stop_monitoring region_id (snd w)
    | None => snd w
    end in
  (set_inactive region_id (fst w), m).

(** [RegionMonitor.stop_all_monitoring]; [keys] is the list
    [list(self.active_monitors.keys())] taken when the loop starts. *)
Definition stop_all_monitoring (keys : list Z) (m : Scheduler.monitor)
    : Scheduler.monitor :=
  fold_left (fun m region_id => Scheduler.stop_monitoring region_id m) keys m.

(** The rows of [list_regions(active_only)], before the ORDER BY. *)
Definition listed (active_only : bool) (db : database)
    : list geo_region_row :=
  List.filter (fun r => (negb active_only || r_is_active r)%bool)
    (geo_regions db).

Section Create.
Variable L : libm.
Variable net : Overpass.network.
Variable cfg : common_config.
Variable G : Geo.globals.
Variable ScorerState : Type.
Variable scorer_score :
  inmueble_dict -> ScorerState -> result (Q * list string) * ScorerState.
Variable overpass : Overpass.OverpassClient.
Variable now : Z.

(** The monitor's world: the database, the scorer, the monitoring tasks. *)
Definition world : Type := (state ScorerState * Scheduler.monitor)%type.

(** The common end of the [create_region_from_...] methods: save, scan
    once, start monitoring if asked (every 24 hours). *)
Definition save_scan_start (new_id : Z) (created : option Z)
    (region : GeoRegion) (auto_start : bool) (w : world)
    : result GeoRegion * world :=
  let '((db, sc), m) := w in
  match _save_region new_id created region db with
  | Raise e => (Raise e, w)
  | Ok (region_saved, db) =>
      match scan_region L net cfg G ScorerState scorer_score overpass now
              new_id (db, sc) with
      | (Raise e, st) => (Raise e, (st, m))
      | (Ok _, st) =>
          let m := if auto_start
                   then Scheduler.start_monitoring new_id 24 m
                   else m in
          (Ok region_saved, (st, m))
      end
  end.

(** [RegionMonitor.create_region_from_address]; [results] is the
    geocoder's answer. *)
Definition create_region_from_address (str_num : Q -> string)
    (results : option (list Builder.GeocodingResult))
    (new_id : Z) (created : option Z)
    (address : string) (radius_m : Q) (name description : option string)
    (auto_start : bool) (w : world) : result (option GeoRegion) * world :=
  match Builder.from_address str_num results address radius_m name with
  | None => (Ok None, w)
  | Some region =>
      let region :=
        match description with
        | Some d => if String.eqb d "" then region
                    else set_description region description
        | None => region
        end in
      match save_scan_start new_id created region auto_start w with
      | (Ok r, w') => (Ok (Some r), w')
      | (Raise e, w') => (Raise e, w')
      end
  end.

(** [RegionMonitor.create_region_from_polygon] *)
Definition create_region_from_polygon (new_id : Z) (created : option Z)
    (coordinates : list (Q * Q)) (name : string)
    (description : option string) (auto_start : bool) (w : world)
    : result GeoRegion * world :=
  match Builder.from_polygon coordinates (Some name) with
  | Raise e => (Raise e, w)
  | Ok region =>
      save_scan_start new_id created (set_description region description)
        auto_start w
  end.

(** [RegionMonitor.create_region_from_bounding_box] *)
Definition create_region_from_bounding_box (str_num : Q -> string)
    (new_id : Z) (created : option Z)
    (sw_lat sw_lon ne_lat ne_lon : Q) (name : string)
    (description : option string) (auto_start : bool) (w : world)
    : result GeoRegion * world :=
  let region :=
    Builder.from_bounding_box str_num sw_lat sw_lon ne_lat ne_lon
      (Some name) in
  save_scan_start new_id created (set_description region description)
    auto_start w.

End Create.

End Regions.

(** ** Vocabulary of the further properties *)

Module Terms.

(** Some keyword of the pool occurs in the text: the test of the loops over
    [POSITIVE] and [NEGATIVE] succeeds at least once. *)
Definition pool_matches (pool : list string) (text : string) : bool :=
  existsb (fun kw => str_in (lower kw) text) pool.

(** The listing has both coordinates. *)
Definition has_coords (inmueble : Scorer.inmueble_dict) : bool :=
  match Scorer.latitud inmueble, Scorer.longitud inmueble with
  | Some _, Some _ => true
  | _, _ => false
  end.

(** The candidate that [find_churches_nearby] builds from an element; [None]
    for an element it skips (neither a node nor with a center). *)
Definition church_of (M : libm) (lat lon : Q) (e : Overpass.element)
    : option Overpass.OSMChurch :=
  match Overpass.element_coords e with
  | Some (Some elem_lat, Some elem_lon) =>
      Some {| Overpass.osm_id := Overpass.e_id e;
              Overpass.osm_type := Overpass.e_type e;
              Overpass.name := Overpass.element_name e;
              Overpass.lat := elem_lat; Overpass.lon := elem_lon;
              Overpass.distance :=
                Overpass._haversine_distance M lat lon elem_lat elem_lon |}
  | _ => None
  end.

(** The element is kept by the loop but lacks a coordinate. *)
Definition lacks_coordinate (e : Overpass.element) : bool :=
  match Overpass.element_coords e with
  | Some (Some _, Some _) => false
  | Some _ => true
  | None => false
  end.

(** The uniqueness key of an alert. *)
Definition alert_key (a : Geo.RegionAlert) : Z * string * string :=
  (Geo.a_region_id a, Geo.a_portal a, Geo.a_inmueble_id a).

(** The key of the alert that a scan of [region_id] builds for a row. *)
Definition row_key (region_id : Z) (r : Monitor.row) : Z * string * string :=
  (region_id, Monitor.row_portal r, Monitor.row_id_portal r).

(** A detection record as the scan writes them: a score that reaches
    [min_score], with the status derived from it. *)
Definition written_by_scan (cfg : Config.common_config) (min_score : Q)
    (d : Monitor.deteccion) : Prop :=
  exists score,
    Monitor.det_score d = Some score /\ min_score <= score
    /\ Monitor.det_status d = Some (Monitor._get_status_for_score cfg score).

(** What one turn of the scan loop may do to the database: nothing, or one
    detection record saved for a row without score. *)
Definition turn (cfg : Config.common_config) (now : Z) (min_score : Q)
    (r : Monitor.row) (db db' : Monitor.database) : Prop :=
  db' = db
  \/ (Monitor.row_score r = None
      /\ exists score evidences,
           min_score <= score
           /\ db' = Monitor._save_detection now r score evidences
                      (Monitor._get_status_for_score cfg score) db).

(** Two regions with the same geometry. *)
Definition same_geometry (r r' : Geo.GeoRegion) : Prop :=
  Geo.shape_type r' = Geo.shape_type r
  /\ Geo.center_lat r' = Geo.center_lat r
  /\ Geo.center_lon r' = Geo.center_lon r
  /\ Geo.radius_m r' = Geo.radius_m r
  /\ Geo.coordinates r' = Geo.coordinates r.

(** Two rows of the regions table that differ at most in [last_checked]. *)
Definition same_region_row (r r' : Monitor.geo_region_row) : Prop :=
  Monitor.r_id r' = Monitor.r_id r
  /\ Monitor.r_name r' = Monitor.r_name r
  /\ Monitor.r_shape_type r' = Monitor.r_shape_type r
  /\ Monitor.r_center_lat r' = Monitor.r_center_lat r
  /\ Monitor.r_center_lon r' = Monitor.r_center_lon r
  /\ Monitor.r_radius_m r' = Monitor.r_radius_m r
  /\ Monitor.r_address r' = Monitor.r_address r
  /\ Monitor.r_description r' = Monitor.r_description r
  /\ Monitor.r_is_active r' = Monitor.r_is_active r
  /\ Monitor.r_created_at r' = Monitor.r_created_at r.

(** The regions that [RegionBuilder] builds. *)
Inductive built (str_num : Q -> string) : Geo.GeoRegion -> Prop :=
| built_from_address results address radius_m name region :
    Builder.from_address str_num results address radius_m name = Some region ->
    built str_num region
| built_from_church results radius_m region :
    Builder.from_church str_num results radius_m = Some region ->
    built str_num region
| built_from_bounding_box sw_lat sw_lon ne_lat ne_lon name :
    built str_num
      (Builder.from_bounding_box str_num sw_lat sw_lon ne_lat ne_lon name)
| built_from_polygon coordinates name region :
    Builder.from_polygon coordinates name = Ok region ->
    built str_num region.

End Terms.

(** ** Inputs of the further examples *)

Module Examples2.
Import Config Overpass.

(** A node that carries no longitude. *)
Definition node_without_lon : element :=
  {| e_type := Some "node"; e_id := Some 9%Z; e_tags := None;
     e_lat := Some (373829 # 10000); e_lon := None; e_center := None |}.

(** A relation delivered without [center]: the loop skips it. *)
Definition bare_relation : element :=
  {| e_type := Some "relation"; e_id := Some 12%Z; e_tags := None;
     e_lat := None; e_lon := None; e_center := None |}.

Definition net_incomplete : network :=
  fun _ _ _ =>
    JsonObject (Some [Examples.named_way; node_without_lon;
                      Examples.untagged_node]).

Definition net_three : network :=
  fun _ _ _ =>
    JsonObject (Some [Examples.untagged_node; bare_relation;
                      Examples.named_way]).

(** Stand-in for Python's [str] of a number: the integer part. *)
Definition str_int (q : Q) : string := str_of_Z (Qfloor q).

Definition triangle : list (Q * Q) := [(0, 0); (0, 2); (2, 2)].

(** Answers of the geocoder: a street first, then a church. *)
Definition calle : Builder.GeocodingResult :=
  {| Builder.g_display_name := "Calle Sierpes, Sevilla";
     Builder.g_lat := 373900 # 10000; Builder.g_lon := -59950 # 10000;
     Builder.g_place_type := Some "residential" |}.

Definition iglesia : Builder.GeocodingResult :=
  {| Builder.g_display_name := "Iglesia del Salvador, Sevilla";
     Builder.g_lat := 373897 # 10000; Builder.g_lon := -59931 # 10000;
     Builder.g_place_type := Some "place_of_worship" |}.

End Examples2.

(** * Properties *)

Import Config.

(** ** Strings and sorting *)

Lemma prefix_empty (s : string) : String.prefix "" s = true.
Proof. destruct s; reflexivity. Qed.

Lemma str_in_empty (s : string) : str_in "" s = true.
Proof. destruct s; reflexivity. Qed.

Section Sorting.
Context {A : Type} (key : A -> Q).

Lemma In_insert_by (x y : A) (l : list A) :
  In y (insert_by key x l) <-> y = x \/ In y l.
Proof.
  induction l as [|z l IH]; simpl.
  - intuition.
  - destruct (Qle_bool (key x) (key z)); simpl; rewrite ?IH; intuition.
Qed.

Lemma In_sorted (y : A) (l : list A) : In y (Py.sorted key l) <-> In y l.
Proof.
  induction l as [|x l IH]; simpl; [reflexivity|].
  rewrite In_insert_by, IH. intuition.
Qed.

Lemma insert_by_sorted (x : A) (l : list A) :
  StronglySorted (key_le key) l ->
  StronglySorted (key_le key) (insert_by key x l).
Proof.
  induction 1 as [|z l Hl IH Hz]; simpl.
  - repeat constructor.
  - destruct (Qle_bool (key x) (key z)) eqn:E.
    + apply Qle_bool_iff in E.
      constructor; [constructor; assumption|].
      constructor; [exact E|].
      rewrite List.Forall_forall in Hz |- *. intros w Hw.
      unfold key_le in *. eapply Qle_trans; [exact E|]. apply Hz, Hw.
    + constructor; [exact IH|].
      rewrite List.Forall_forall in Hz |- *. intros w Hw.
      apply In_insert_by in Hw as [->|Hw]; [|apply Hz, Hw].
      unfold key_le. apply Qlt_le_weak, Qnot_le_lt.
      intros Hle. apply Qle_bool_iff in Hle. congruence.
Qed.

Lemma sorted_sorted (l : list A) :
  StronglySorted (key_le key) (Py.sorted key l).
Proof.
  induction l as [|x l IH]; simpl; [constructor|].
  apply insert_by_sorted, IH.
Qed.

Lemma sorted_Forall (P : A -> Prop) (l : list A) :
  Forall P l -> Forall P (Py.sorted key l).
Proof.
  rewrite !List.Forall_forall. intros H y Hy. apply H, In_sorted, Hy.
Qed.
End Sorting.

(** ** The Overpass client *)

Section OverpassProperties.
Import Overpass.
Variable L : libm.
Variables lat lon : Q.

Lemma from_element_cons e els c :
  from_element L lat lon els c -> from_element L lat lon (e :: els) c.
Proof.
  intros [Hd (e' & Hin & Hid & Hn)]. split; [exact Hd|].
  exists e'. simpl. auto.
Qed.

Lemma elements_loop_from (els all : list element) (acc out : list OSMChurch) :
  (forall e, In e els -> In e all) ->
  Forall (from_element L lat lon all) acc ->
  elements_loop L lat lon els acc = Ok out ->
  Forall (from_element L lat lon all) out.
Proof.
  revert acc. induction els as [|e els IH]; intros acc Hsub Hacc Hrun.
  - simpl in Hrun. congruence.
  - simpl in Hrun.
    assert (Hsub' : forall e', In e' els -> In e' all)
      by (intros e' He'; apply Hsub; right; exact He').
    destruct (element_coords e) as [[[elat|] [elon|]]|] eqn:Hc;
      try discriminate; [|eauto].
    eapply IH; [exact Hsub'| |exact Hrun].
    apply Forall_app. split; [exact Hacc|].
    constructor; [|constructor].
    split; [reflexivity|].
    exists e. simpl. split; [apply Hsub; left; reflexivity|auto].
Qed.

Lemma try_body_from (out : http_outcome) (found : list OSMChurch) :
  try_body L out lat lon = Ok found ->
  exists els, out = JsonObject els
    /\ Forall (from_element L lat lon (get_default els [])) found
    /\ StronglySorted (key_le Overpass.distance) found.
Proof.
  destruct out as [| | | |els]; simpl; try discriminate.
  destruct (elements_loop L lat lon (get_default els []) []) as [cs|] eqn:E;
    simpl; [|discriminate].
  intros [= <-]. exists els. split; [reflexivity|]. split.
  - apply sorted_Forall.
    eapply elements_loop_from; [|constructor|exact E]. auto.
  - apply sorted_sorted.
Qed.
End OverpassProperties.

(** C6.  [find_churches_nearby] returns the empty list whenever the request,
    the HTTP status or the decoding of the answer fails, and more generally
    whenever anything raises inside its [try] block: no error reaches the
    caller.  What it returns is always sorted by ascending distance, and the
    distance of each candidate is the haversine distance from the query
    point to the candidate's coordinates. *)
Theorem find_churches_nearby_best_effort
    (L : libm) (net : Overpass.network) (self : Overpass.OverpassClient)
    (lat lon : Q) (radius_m : option Q) :
  let out :=
    net (get_default radius_m (Overpass.default_search_radius_m self)) lat lon in
  let found := Overpass.find_churches_nearby L net self lat lon radius_m in
  (out = Overpass.RequestFails \/ (exists code, out = Overpass.BadStatus code)
   \/ out = Overpass.BodyNotJson \/ out = Overpass.JsonNotObject
   -> found = [])
  /\ (forall e, Overpass.try_body L out lat lon = Raise e -> found = [])
  /\ StronglySorted
       (fun a b => Overpass.distance a <= Overpass.distance b) found
  /\ Forall
       (fun c => Overpass.distance c
                 = Overpass._haversine_distance L lat lon
                     (Overpass.lat c) (Overpass.lon c)) found.
Proof.
  intros out found. unfold found, Overpass.find_churches_nearby. fold out.
  repeat split.
  - intros [H|[[code H]|[H|H]]]; rewrite H; reflexivity.
  - intros e H. rewrite H. reflexivity.
  - destruct (Overpass.try_body L out lat lon) as [cs|e] eqn:E; [|constructor].
    apply try_body_from in E as (els & _ & _ & Hs). exact Hs.
  - destruct (Overpass.try_body L out lat lon) as [cs|e] eqn:E; [|constructor].
    apply try_body_from in E as (els & _ & Hf & _).
    eapply List.Forall_impl; [|exact Hf]. intros c [Hd _]. exact Hd.
Qed.

(** ** The match resolver *)

Lemma lower_empty : lower "" = "".
Proof. reflexivity. Qed.

Lemma find_first {A} (f : A -> bool) (x : A) (l : list A) :
  f x = true -> List.find f (x :: l) = Some x.
Proof. intros H. simpl. rewrite H. reflexivity. Qed.


(** C9.  With a non-empty candidate list and a listing whose title is absent
    or empty, [find_match] returns the first candidate with confidence 95,
    whatever its distance: the empty title is a substring of every name. *)
Theorem find_match_empty_title
    (inmueble : Scorer.inmueble_dict) (c : Overpass.OSMChurch)
    (cs : list Overpass.OSMChurch) :
  Scorer.titulo inmueble = None \/ Scorer.titulo inmueble = Some "" ->
  Matcher.find_match inmueble (c :: cs)
  = Some {| Matcher.osm_church := c; Matcher.confidence := 95 |}.
Proof.
  intros H. unfold Matcher.find_match.
  assert (Ht : lower (get_default (Scorer.titulo inmueble) "") = "")
    by (destruct H as [-> | ->]; reflexivity).
  rewrite Ht, find_first; [reflexivity|].
  unfold Matcher.name_matches. rewrite str_in_empty.
  apply orb_true_r.
Qed.

Lemma find_match_empty_title_witness :
  Scorer.titulo Examples.no_keys = None
  /\ Matcher.find_match Examples.no_keys [Examples.far_church]
     = Some {| Matcher.osm_church := Examples.far_church;
               Matcher.confidence := 95 |}.
Proof.
  split; [reflexivity|].
  apply find_match_empty_title. left. reflexivity.
Defined.



(** ** The monitor scheduler *)

Section SchedulerProperties.
Import Scheduler.

Lemma consistent_init : consistent init.
Proof.
  split; unfold monitors; simpl.
  - intros r h H. rewrite lookup_empty in H. discriminate.
  - intros r h (t & H & _). rewrite lookup_empty in H. discriminate.
  - intros h t H. rewrite lookup_empty in H. discriminate.
Qed.

Lemma consistent_start (r : Z) (i : Q) (m : monitor) :
  consistent m -> consistent (start_monitoring r i m).
Proof.
  intros [Hdt Htd Hfr]. unfold start_monitoring.
  destruct (active_monitors m !! r) as [h0|] eqn:E; [split; assumption|].
  assert (Hnew : tasks m !! next_handle m = None).
  { destruct (tasks m !! next_handle m) as [t|] eqn:Et; [|reflexivity].
    apply Hfr in Et. lia. }
  split; unfold monitors; simpl.
  - intros r' h H. destruct (decide (r = r')) as [<-|Hne].
    + rewrite lookup_insert_eq in H. injection H as <-.
      rewrite lookup_insert_eq. eexists. split; reflexivity.
    + rewrite lookup_insert_ne in H by exact Hne.
      destruct (Hdt _ _ H) as (t & Ht & Hr).
      exists t. split; [|exact Hr].
      rewrite lookup_insert_ne; [exact Ht|]. intros <-. congruence.
  - intros r' h (t & Ht & Hr).
    destruct (decide (next_handle m = h)) as [<-|Hne].
    + rewrite lookup_insert_eq in Ht. injection Ht as <-. simpl in Hr.
      subst r'. apply lookup_insert_eq.
    + rewrite lookup_insert_ne in Ht by exact Hne.
      assert (Hd : active_monitors m !! r' = Some h)
        by (apply Htd; exists t; auto).
      rewrite lookup_insert_ne; [exact Hd|]. intros <-. congruence.
  - intros h t Ht. destruct (decide (next_handle m = h)) as [<-|Hne]; [lia|].
    rewrite lookup_insert_ne in Ht by exact Hne. apply Hfr in Ht. lia.
Qed.

Lemma consistent_stop (r : Z) (m : monitor) :
  consistent m -> consistent (stop_monitoring r m).
Proof.
  intros [Hdt Htd Hfr]. unfold stop_monitoring.
  destruct (active_monitors m !! r) as [h0|] eqn:E; [|split; assumption].
  split; unfold monitors; simpl.
  - intros r' h H. destruct (decide (r = r')) as [<-|Hne].
    + rewrite lookup_delete_eq in H. discriminate.
    + rewrite lookup_delete_ne in H by exact Hne.
      destruct (Hdt _ _ H) as (t & Ht & Hr).
      exists t. split; [|exact Hr].
      rewrite lookup_delete_ne; [exact Ht|]. intros <-.
      assert (active_monitors m !! r' = Some h0)
        by (apply Htd; exists t; auto).
      destruct (Hdt _ _ E) as (t0 & Ht0 & Hr0). congruence.
  - intros r' h (t & Ht & Hr).
    destruct (decide (h0 = h)) as [<-|Hne].
    + rewrite lookup_delete_eq in Ht. discriminate.
    + rewrite lookup_delete_ne in Ht by exact Hne.
      assert (Hd : active_monitors m !! r' = Some h)
        by (apply Htd; exists t; auto).
      rewrite lookup_delete_ne; [exact Hd|]. intros <-. congruence.
  - intros h t Ht. destruct (decide (h0 = h)) as [<-|Hne].
    + rewrite lookup_delete_eq in Ht. discriminate.
    + rewrite lookup_delete_ne in Ht by exact Hne. eapply Hfr, Ht.
Qed.

Lemma consistent_fold (calls : list call) (m : monitor) :
  consistent m -> consistent (fold_left step calls m).
Proof.
  revert m. induction calls as [|c calls IH]; intros m Hm; [exact Hm|].
  simpl. apply IH. destruct c; [apply consistent_start|apply consistent_stop];
    exact Hm.
Qed.

Lemma consistent_run (calls : list call) : consistent (run calls).
Proof. apply consistent_fold, consistent_init. Qed.

Lemma start_lookup (r : Z) (i : Q) (m : monitor) :
  is_Some (active_monitors (start_monitoring r i m) !! r).
Proof.
  unfold start_monitoring.
  destruct (active_monitors m !! r) as [h|] eqn:E; simpl.
  - rewrite E. eauto.
  - rewrite lookup_insert_eq. eauto.
Qed.

Lemma start_present (r : Z) (i : Q) (m : monitor) :
  is_Some (active_monitors m !! r) -> start_monitoring r i m = m.
Proof. intros [h H]. unfold start_monitoring. rewrite H. reflexivity. Qed.
End SchedulerProperties.

(** C7.  After any sequence of [start_monitoring] and [stop_monitoring]
    calls the dict and the live tasks agree, so that a region is monitored by
    at most one task.  Starting a region that already has a task changes
    nothing; two starts in a row leave exactly one task for the region;
    stopping removes the entry and the task, and changes nothing when the
    region has none. *)
Theorem at_most_one_task_per_region
    (calls : list Scheduler.call) (r : Z) (i i' : Q) :
  let m := Scheduler.run calls in
  let twice := Scheduler.start_monitoring r i' (Scheduler.start_monitoring r i m) in
  Scheduler.consistent m
  /\ (forall h1 h2,
        Scheduler.monitors m r h1 -> Scheduler.monitors m r h2 -> h1 = h2)
  /\ (is_Some (Scheduler.active_monitors m !! r) ->
      Scheduler.start_monitoring r i m = m)
  /\ twice = Scheduler.start_monitoring r i m
  /\ (exists h, forall h', Scheduler.monitors twice r h' <-> h' = h)
  /\ Scheduler.active_monitors (Scheduler.stop_monitoring r m) !! r = None
  /\ (forall h, ~ Scheduler.monitors (Scheduler.stop_monitoring r m) r h)
  /\ (Scheduler.active_monitors m !! r = None ->
      Scheduler.stop_monitoring r m = m).
Proof.
  intros m twice.
  pose proof (consistent_run calls) as Hm. fold m in Hm.
  assert (Htwice : twice = Scheduler.start_monitoring r i m)
    by (apply start_present, start_lookup).
  assert (Hstop :
    Scheduler.active_monitors (Scheduler.stop_monitoring r m) !! r = None).
  { unfold Scheduler.stop_monitoring.
    destruct (Scheduler.active_monitors m !! r) as [h|] eqn:E; simpl;
      [apply lookup_delete_eq|exact E]. }
  repeat split.
  - apply Hm.
  - apply Hm.
  - apply Hm.
  - intros h1 h2 H1 H2.
    apply (Scheduler.task_dict m Hm) in H1, H2. congruence.
  - apply start_present.
  - exact Htwice.
  - rewrite Htwice.
    pose proof (consistent_start r i m Hm) as Hs.
    destruct (start_lookup r i m) as [h Hh]. exists h. intros h'. split.
    + intros H. apply (Scheduler.task_dict _ Hs) in H. congruence.
    + intros ->. apply (Scheduler.dict_task _ Hs), Hh.
  - exact Hstop.
  - intros h H.
    apply (Scheduler.task_dict _ (consistent_stop r m Hm)) in H. congruence.
  - intros H. unfold Scheduler.stop_monitoring. rewrite H. reflexivity.
Qed.

(** ** The scoring engine *)

Section ScorerProperties.
Import Scorer.








Lemma keeps_unbound_ret {A} (a : A) : keeps_unbound (ret a).
Proof. intros r g' [= _ <-]. reflexivity. Qed.

Lemma keeps_unbound_raise {A} (e : exn) : keeps_unbound (@raise A e).
Proof. intros r g' [= _ <-]. reflexivity. Qed.

Lemma keeps_unbound_append note : keeps_unbound (evidencias_append note).
Proof. intros r g' [= _ <-]. reflexivity. Qed.

Lemma keeps_unbound_bind {A B} (m : M A) (k : A -> M B) :
  keeps_unbound m -> (forall a, keeps_unbound (k a)) ->
  keeps_unbound (mbind m k).
Proof.
  intros Hm Hk r g'. unfold mbind.
  destruct (m None) as [[a|e] g1] eqn:E; pose proof (Hm _ _ E) as ->.
  - apply Hk.
  - intros [= _ <-]. reflexivity.
Qed.

Create HintDb unbound.

#[local] Hint Resolve keeps_unbound_ret keeps_unbound_raise
  keeps_unbound_append keeps_unbound_bind : unbound.

Lemma keeps_unbound_positive per text kws s :
  keeps_unbound (positive_loop per text kws s).
Proof.
  revert s. induction kws as [|kw kws IH]; intros s; simpl.
  - auto with unbound.
  - destruct (str_in (lower kw) text); auto with unbound.
Qed.

Lemma keeps_unbound_negative per text kws s :
  keeps_unbound (negative_loop per text kws s).
Proof.
  revert s. induction kws as [|kw kws IH]; intros s; simpl.
  - auto with unbound.
  - destruct (str_in (lower kw) text); auto with unbound.
Qed.

#[local] Hint Resolve keeps_unbound_positive keeps_unbound_negative
  : unbound.

Lemma keeps_unbound_keywords K inmueble :
  keeps_unbound (keywords_part K inmueble).
Proof.
  unfold keywords_part. destruct (has_explicit K inmueble);
    auto with unbound.
Qed.

Lemma keeps_unbound_proximity L net self inmueble s :
  keeps_unbound (proximity_part L net self inmueble s).
Proof.
  unfold proximity_part.
  destruct (latitud inmueble), (longitud inmueble), (overpass self);
    auto with unbound.
  destruct (Overpass.find_churches_nearby _ _ _ _ _ _); auto with unbound.
Qed.

Lemma keeps_unbound_surface inmueble s :
  keeps_unbound (surface_part inmueble s).
Proof.
  unfold surface_part.
  repeat (apply keeps_unbound_bind; [|intros ?]);
    repeat match goal with
           | |- context [if ?b then _ else _] => destruct b
           end; auto with unbound.
Qed.

(** In scorer.py as shipped every call of [score] raises: at a statement
    that appends a note, at the call through the attribute [overpass],
    or at the latest at the [return]. *)
Lemma score_shipped_raises K L net self inmueble :
  exists e, score K L net self inmueble shipped = (Raise e, None).
Proof.
  unfold score, shipped.
  assert (H : keeps_unbound
    (mbind (keywords_part K inmueble) (fun s =>
     mbind (proximity_part L net self inmueble s) (fun s =>
     surface_part inmueble s)))).
  { auto using keeps_unbound_keywords, keeps_unbound_proximity,
      keeps_unbound_surface with unbound. }
  revert H. unfold keeps_unbound, mbind.
  destruct (keywords_part K inmueble None) as [[s1|e1] g1].
  - destruct (proximity_part L net self inmueble s1 g1) as [[s2|e2] g2].
    + destruct (surface_part inmueble s2 g2) as [[s3|e3] g3];
        intros H; rewrite (H _ _ eq_refl); simpl; eauto.
    + intros H; rewrite (H _ _ eq_refl); eauto.
  - intros H; rewrite (H _ _ eq_refl); eauto.
Qed.

(** The keyword part of a listing with an explicit keyword. *)
Lemma keywords_part_explicit K inmueble :
  has_explicit K inmueble = true ->
  keywords_part K inmueble
  = mbind (evidencias_append "Keyword explícita (100 %)") (fun _ => ret 100).
Proof. intros H. unfold keywords_part. rewrite H. reflexivity. Qed.
End ScorerProperties.

(** C1 fails on the code.  The claim has [score] return a score between 0
    and 100 for every listing.  In scorer.py as shipped the evidence list is
    created under the name [evidences] and every later statement names
    [evidencias]: for every keyword configuration, scorer and listing the
    call raises and returns no score, leaving the module as it was. *)
Theorem score_returns_no_score
    (K : keywords) (L : libm) (net : Overpass.network)
    (self : Scorer.ReligiousPropertyScorer)
    (inmueble : Scorer.inmueble_dict) :
  (exists e,
      Scorer.score K L net self inmueble Scorer.shipped
      = (Raise e, Scorer.shipped))
  /\ forall (s : Q) (ev : list string) (g' : Scorer.globals),
       Scorer.score K L net self inmueble Scorer.shipped <> (Ok (s, ev), g').
Proof.
  destruct (score_shipped_raises K L net self inmueble) as [e He].
  split; [exists e; exact He|].
  intros s ev g' H. rewrite He in H. discriminate.
Qed.

(** The call at a listing titled "Garaje en venta", without coordinates or
    surface: the first statement that names [evidencias] raises. *)
Lemma score_returns_no_score_witness :
  Scorer.score Examples.K1 Approx.math Examples.net_down
    Scorer.ReligiousPropertyScorer_init Examples.garaje Scorer.shipped
  = (Raise (NameError "evidencias"), Scorer.shipped)
  /\ forall (s : Q) (ev : list string) (g' : Scorer.globals),
       Scorer.score Examples.K1 Approx.math Examples.net_down
         Scorer.ReligiousPropertyScorer_init Examples.garaje Scorer.shipped
       <> (Ok (s, ev), g').
Proof.
  split; [reflexivity|].
  exact (proj2 (score_returns_no_score Examples.K1 Approx.math
                  Examples.net_down Scorer.ReligiousPropertyScorer_init
                  Examples.garaje)).
Defined.

(** C4 fails on the code.  The claim has [score] return 100 with the single
    explicit note for a listing with an explicit keyword.  In scorer.py as
    shipped such a call sets [score = 100] and raises [NameError] at the
    next statement, [evidencias.append("Keyword explícita (100 %)")]: no
    score and no evidence are returned. *)
Theorem explicit_keyword_raises
    (K : keywords) (L : libm) (net : Overpass.network)
    (self : Scorer.ReligiousPropertyScorer)
    (inmueble : Scorer.inmueble_dict) :
  Scorer.has_explicit K inmueble = true ->
  Scorer.score K L net self inmueble Scorer.shipped
  = (Raise (NameError "evidencias"), Scorer.shipped).
Proof.
  intros Hex. unfold Scorer.score.
  rewrite (keywords_part_explicit K inmueble Hex). reflexivity.
Qed.

Lemma explicit_keyword_raises_witness :
  Scorer.has_explicit Examples.K1 Examples.convento_grande = true
  /\ Scorer.score Examples.K1 Approx.math Examples.net_down
       Scorer.ReligiousPropertyScorer_init Examples.convento_grande
       Scorer.shipped
     = (Raise (NameError "evidencias"), Scorer.shipped).
Proof.
  split; [reflexivity|].
  apply (explicit_keyword_raises Examples.K1 Approx.math Examples.net_down
           Scorer.ReligiousPropertyScorer_init Examples.convento_grande).
  reflexivity.
Defined.

(** ** Regions *)

Lemma contains_point_true_circle (L : libm) (region : Geo.GeoRegion)
    (lat lon : Q) :
  Geo.contains_point L region lat lon = Ok true ->
  Geo.shape_type region = Some Geo.CIRCLE
  /\ exists clat clon radius,
       Geo.center_lat region = Some clat
       /\ Geo.center_lon region = Some clon
       /\ Geo.radius_m region = Some radius
       /\ Geo.haversine_atan2 L clat clon lat lon <= radius.
Proof.
  unfold Geo.contains_point.
  destruct (Geo.shape_type region) as [[]|]; try discriminate.
  destruct (Geo.center_lat region) as [clat|]; [|discriminate].
  destruct (Geo.center_lon region) as [clon|]; [|discriminate].
  destruct (Geo.radius_m region) as [radius|]; [|discriminate].
  intros [= H]. split; [reflexivity|].
  exists clat, clon, radius. repeat split. apply Qle_bool_iff, H.
Qed.




(** ** The scan *)

(** The scan of a circle with models.py as shipped: [get_bounding_box] is
    the second statement of [scan_region], and its first line for a circle
    divides the radius, then calls [cos]. *)
Lemma scan_circle_as_shipped
    (L : libm) (net : Overpass.network) (cfg : common_config)
    (ScorerState : Type)
    (scorer_score : Scorer.inmueble_dict -> ScorerState ->
                    result (Q * list string) * ScorerState)
    (overpass : Overpass.OverpassClient) (now region_id : Z)
    (db : Monitor.database) (s : ScorerState) (region : Geo.GeoRegion) :
  Monitor._get_region db region_id = Ok (Some region) ->
  Geo.shape_type region = Some Geo.CIRCLE ->
  Monitor.scan_region L net cfg Geo.shipped ScorerState scorer_score
    overpass now region_id (db, s)
  = (Raise match Geo.radius_m region with
           | Some _ => NameError "cos"
           | None => TypeError
           end, (db, s)).
Proof.
  intros Hget Hshape. unfold Monitor.scan_region. cbn [fst].
  rewrite Hget. unfold Geo.get_bounding_box. rewrite Hshape.
  destruct (Geo.radius_m region); reflexivity.
Qed.

(** C2 fails on the code.  The claim has one scan of the region persist one
    alert, for the listing scored 55.  With models.py as shipped the scan of
    a circle with a radius raises [NameError] for [cos] at
    [region.get_bounding_box()], before the candidates are queried, whatever
    the listings and their scores: it returns no alert and the alert table
    is left as it was. *)
Theorem scan_persists_no_alert
    (L : libm) (net : Overpass.network) (cfg : common_config)
    (ScorerState : Type)
    (scorer_score : Scorer.inmueble_dict -> ScorerState ->
                    result (Q * list string) * ScorerState)
    (overpass : Overpass.OverpassClient) (now region_id : Z)
    (db : Monitor.database) (s : ScorerState) (region : Geo.GeoRegion)
    (radius : Q) :
  Monitor._get_region db region_id = Ok (Some region) ->
  Geo.shape_type region = Some Geo.CIRCLE ->
  Geo.radius_m region = Some radius ->
  let out := Monitor.scan_region L net cfg Geo.shipped ScorerState
               scorer_score overpass now region_id (db, s) in
  fst out = Raise (NameError "cos")
  /\ Monitor.region_alerts (fst (snd out)) = Monitor.region_alerts db.
Proof.
  intros Hget Hshape Hradius out. subst out.
  rewrite (scan_circle_as_shipped L net cfg ScorerState scorer_score overpass
             now region_id db s region Hget Hshape), Hradius.
  split; reflexivity.
Qed.

(** The scenario of the claim: the Sevilla circle, two listings inside it
    with stored scores 55 ("detected") and 30, threshold 50, the scorer that
    [RegionMonitor.__init__] builds. *)
Lemma scan_persists_no_alert_witness :
  let out := Monitor.scan_region Approx.math Examples.net_down Examples.cfg50
               Geo.shipped Scorer.globals Examples.real_scorer
               Examples.client 1000 1 (Examples.db_scored, Scorer.shipped) in
  Monitor._get_region Examples.db_scored 1 = Ok (Some Examples.sevilla_circle)
  /\ fst out = Raise (NameError "cos")
  /\ Monitor.region_alerts (fst (snd out)) = [].
Proof.
  split; [reflexivity|].
  apply (scan_persists_no_alert Approx.math Examples.net_down Examples.cfg50
           Scorer.globals Examples.real_scorer Examples.client 1000 1
           Examples.db_scored Scorer.shipped Examples.sevilla_circle 500);
    reflexivity.
Defined.

(** C5 fails on the code.  The claim has the scan score every unscored
    candidate and persist the result.  With models.py as shipped the scan of
    any region raises before the loop over the candidates is entered: the
    exception raised is the same whatever the scorer, which is never called,
    and the database, with its detection records, is left as it was. *)
Theorem scan_never_scores
    (L : libm) (net : Overpass.network) (cfg : common_config)
    (overpass : Overpass.OverpassClient) (now region_id : Z)
    (db : Monitor.database) :
  exists e,
    forall (ScorerState : Type)
           (scorer_score : Scorer.inmueble_dict -> ScorerState ->
                           result (Q * list string) * ScorerState)
           (s : ScorerState),
      Monitor.scan_region L net cfg Geo.shipped ScorerState scorer_score
        overpass now region_id (db, s) = (Raise e, (db, s)).
Proof.
  unfold Monitor.scan_region, Monitor._get_region. cbn [fst].
  destruct (List.find _ _) as [r|]; [|eexists; intros; reflexivity].
  destruct (Geo.RegionShape_of_value (Monitor.r_shape_type r)) as [shape|e];
    simpl; [|eexists; intros; reflexivity].
  unfold Geo.get_bounding_box. simpl.
  destruct shape; simpl; try (eexists; intros; reflexivity).
  destruct (Monitor.r_radius_m r); simpl; eexists; intros; reflexivity.
Qed.

(** The Sevilla circle over two listings without detection record, with
    the scorer that [RegionMonitor.__init__] builds and with a stand-in that
    would rate the listings 55 and 30: the same exception, and no detection
    record. *)
Lemma scan_never_scores_witness :
  Monitor.scan_region Approx.math Examples.net_down Examples.cfg50
    Geo.shipped Scorer.globals Examples.real_scorer Examples.client 1000 1
    (Examples.db_unscored, Scorer.shipped)
  = (Raise (NameError "cos"), (Examples.db_unscored, Scorer.shipped))
  /\ Monitor.scan_region Approx.math Examples.net_down Examples.cfg50
       Geo.shipped unit Examples.stub_scorer Examples.client 1000 1
       (Examples.db_unscored, tt)
     = (Raise (NameError "cos"), (Examples.db_unscored, tt))
  /\ Monitor.detecciones Examples.db_unscored = ∅.
Proof.
  destruct (scan_never_scores Approx.math Examples.net_down Examples.cfg50
              Examples.client 1000 1 Examples.db_unscored) as [e He].
  assert (E : e = NameError "cos").
  { pose proof (He Scorer.globals Examples.real_scorer Scorer.shipped) as H.
    vm_compute in H. congruence. }
  subst e. split; [apply He|]. split; [apply He|reflexivity].
Defined.

(** C8 fails on the code.  The claim has the alert of every candidate inside
    a circle carry the haversine distance to the centre.  With models.py as
    shipped the scan of a circle that has a centre raises at
    [region.get_bounding_box()], so no candidate is tested for containment,
    no distance is computed and no alert is built: the scan returns no
    alert list, whatever the listings. *)
Theorem scan_builds_no_distance
    (L : libm) (net : Overpass.network) (cfg : common_config)
    (ScorerState : Type)
    (scorer_score : Scorer.inmueble_dict -> ScorerState ->
                    result (Q * list string) * ScorerState)
    (overpass : Overpass.OverpassClient) (now region_id : Z)
    (db : Monitor.database) (s : ScorerState) (region : Geo.GeoRegion)
    (clat clon : Q) :
  Monitor._get_region db region_id = Ok (Some region) ->
  Geo.shape_type region = Some Geo.CIRCLE ->
  Geo.center_lat region = Some clat ->
  Geo.center_lon region = Some clon ->
  let out := Monitor.scan_region L net cfg Geo.shipped ScorerState
               scorer_score overpass now region_id (db, s) in
  (fst out = Raise (NameError "cos")
   \/ (Geo.radius_m region = None /\ fst out = Raise TypeError))
  /\ (forall alerts, fst out <> Ok alerts)
  /\ snd out = (db, s).
Proof.
  intros Hget Hshape _ _ out. subst out.
  rewrite (scan_circle_as_shipped L net cfg ScorerState scorer_score overpass
             now region_id db s region Hget Hshape).
  cbn [fst snd]. split; [|split; [discriminate|reflexivity]].
  destruct (Geo.radius_m region); [left|right]; auto.
Qed.

(** The Sevilla circle (centre 37.3826, -5.9963, radius 500 m), with a
    listing some 30 m from its centre. *)
Lemma scan_builds_no_distance_witness :
  let out := Monitor.scan_region Approx.math Examples.net_down Examples.cfg50
               Geo.shipped Scorer.globals Examples.real_scorer
               Examples.client 1000 1 (Examples.db_scored, Scorer.shipped) in
  Geo.contains_point Approx.math Examples.sevilla_circle
    (373828 # 10000) (-59960 # 10000) = Ok true
  /\ fst out = Raise (NameError "cos")
  /\ forall alerts, fst out <> Ok alerts.
Proof.
  split; [vm_compute; reflexivity|].
  destruct (scan_builds_no_distance Approx.math Examples.net_down
              Examples.cfg50 Scorer.globals Examples.real_scorer
              Examples.client 1000 1 Examples.db_scored Scorer.shipped
              Examples.sevilla_circle (373826 # 10000) (-59963 # 10000)
              eq_refl eq_refl eq_refl eq_refl) as ([H|[H _]] & Hnone & _).
  - split; [exact H|exact Hnone].
  - discriminate H.
Defined.

(** * Further properties of the same code *)

(** ** scorer.py *)

Section ScorerBounds.
Import Scorer.






End ScorerBounds.




Lemma positive_loop_unbound per text kws s :
  Scorer.positive_loop per text kws s None
  = if Terms.pool_matches kws text
    then (Raise (NameError "evidencias"), None)
    else (Ok s, None).
Proof.
  revert s. induction kws as [|kw kws IH]; intros s; simpl; [reflexivity|].
  destruct (str_in (lower kw) text); simpl; [reflexivity|apply IH].
Qed.

Lemma negative_loop_unbound per text kws s :
  Scorer.negative_loop per text kws s None
  = if Terms.pool_matches kws text
    then (Raise (NameError "evidencias"), None)
    else (Ok s, None).
Proof.
  revert s. induction kws as [|kw kws IH]; intros s; simpl; [reflexivity|].
  destruct (str_in (lower kw) text); simpl; [reflexivity|apply IH].
Qed.

Lemma surface_part_unbound inmueble s :
  exists r, Scorer.surface_part inmueble s None = (r, None)
    /\ (r = Raise (NameError "evidencias") \/ exists s', r = Ok s').
Proof.
  unfold Scorer.surface_part, Scorer.mbind, Scorer.evidencias_append, Scorer.ret.
  repeat match goal with
         | |- context [if ?b then _ else _] => destruct b
         end; simpl; eauto.
Qed.

Lemma keywords_part_unbound K inmueble :
  Scorer.keywords_part K inmueble None
  = if (negb (Scorer.has_explicit K inmueble)
        && negb (Terms.pool_matches (POSITIVE K) (Scorer.text_lower inmueble))
        && negb (Terms.pool_matches (NEGATIVE K) (Scorer.text_lower inmueble)))%bool
    then (Ok 0, None)
    else (Raise (NameError "evidencias"), None).
Proof.
  unfold Scorer.keywords_part.
  destruct (Scorer.has_explicit K inmueble); [reflexivity|].
  unfold Scorer.mbind. rewrite positive_loop_unbound.
  destruct (Terms.pool_matches (POSITIVE K) _); [reflexivity|].
  rewrite negative_loop_unbound.
  destruct (Terms.pool_matches (NEGATIVE K) _); reflexivity.
Qed.

Lemma proximity_part_unbound L net self inmueble s :
  Terms.has_coords inmueble = false
  \/ (exists client, Scorer.overpass self = Some client) ->
  exists r, Scorer.proximity_part L net self inmueble s None = (r, None)
    /\ (r = Raise (NameError "evidencias") \/ r = Ok s).
Proof.
  unfold Scorer.proximity_part, Terms.has_coords.
  destruct (Scorer.latitud inmueble) as [lat|]; [|eauto].
  destruct (Scorer.longitud inmueble) as [lon|]; [|eauto].
  intros [H|[client ->]]; [discriminate|].
  destruct (Overpass.find_churches_nearby _ _ _ _ _ _); eauto.
Qed.

Lemma proximity_part_without_client L net self inmueble s g :
  Terms.has_coords inmueble = true -> Scorer.overpass self = None ->
  Scorer.proximity_part L net self inmueble s g
  = (Raise (AttributeError "overpass"), g).
Proof.
  unfold Scorer.proximity_part, Terms.has_coords.
  destruct (Scorer.latitud inmueble) as [lat|]; [|discriminate].
  destruct (Scorer.longitud inmueble) as [lon|]; [|discriminate].
  intros _ ->. reflexivity.
Qed.

(** X3.  In scorer.py as shipped every call of [score] raises, and which
    exception is decided by the listing: [AttributeError] (the scorer has no
    [overpass]) when the listing has both coordinates and matches no
    explicit, positive or negative keyword, unless a caller gave the scorer
    an [overpass] attribute; [NameError] ([evidencias]) in every other
    case. *)
Theorem score_shipped_exception
    (K : keywords) (L : libm) (net : Overpass.network)
    (self : Scorer.ReligiousPropertyScorer)
    (inmueble : Scorer.inmueble_dict) :
  fst (Scorer.score K L net self inmueble Scorer.shipped)
  = if (negb (Scorer.has_explicit K inmueble)
        && negb (Terms.pool_matches (POSITIVE K) (Scorer.text_lower inmueble))
        && negb (Terms.pool_matches (NEGATIVE K) (Scorer.text_lower inmueble))
        && Terms.has_coords inmueble
        && match Scorer.overpass self with Some _ => false | None => true end)%bool
    then Raise (AttributeError "overpass")
    else Raise (NameError "evidencias").
Proof.
  unfold Scorer.score, Scorer.shipped, Scorer.mbind at 1.
  rewrite keywords_part_unbound.
  destruct (negb (Scorer.has_explicit K inmueble)
            && negb (Terms.pool_matches (POSITIVE K) _)
            && negb (Terms.pool_matches (NEGATIVE K) _))%bool;
    [|reflexivity].
  simpl andb. unfold Scorer.mbind at 1.
  destruct (Terms.has_coords inmueble) eqn:Hc;
    [destruct (Scorer.overpass self) as [client|] eqn:Ho|].
  - destruct (proximity_part_unbound L net self inmueble 0)
      as (r & -> & [-> | ->]); [eauto|reflexivity|].
    unfold Scorer.mbind.
    destruct (surface_part_unbound inmueble 0)
      as (r & -> & [-> | [s' ->]]); reflexivity.
  - rewrite proximity_part_without_client by assumption. reflexivity.
  - destruct (proximity_part_unbound L net self inmueble 0)
      as (r & -> & [-> | ->]); [eauto|reflexivity|].
    unfold Scorer.mbind.
    destruct (surface_part_unbound inmueble 0)
      as (r & -> & [-> | [s' ->]]); reflexivity.
Qed.

(** ** osm_matcher.py *)

(** X4.  A match returned by [find_match] is a candidate of the list, with
    confidence 95, 80 or 60.  It is 95 exactly for a name match (the first
    candidate whose name contains the title or is contained in it); below
    95 no name matches, the match is the first candidate of the list, at
    less than 50 m for 80 and between 50 m and 150 m for 60. *)
Theorem find_match_tiers
    (inmueble : Scorer.inmueble_dict) (cs : list Overpass.OSMChurch)
    (m : Matcher.OSMMatchResult) :
  let t := lower (get_default (Scorer.titulo inmueble) "") in
  Matcher.find_match inmueble cs = Some m ->
  In (Matcher.osm_church m) cs
  /\ ((Matcher.confidence m = 95
       /\ Matcher.name_matches t (Matcher.osm_church m) = true)
      \/ ((forall c, In c cs -> Matcher.name_matches t c = false)
          /\ List.hd_error cs = Some (Matcher.osm_church m)
          /\ ((Matcher.confidence m = 80
               /\ Overpass.distance (Matcher.osm_church m) < 50)
              \/ (Matcher.confidence m = 60
                  /\ 50 <= Overpass.distance (Matcher.osm_church m) < 150)))).
Proof.
  intros t. unfold Matcher.find_match. fold t.
  destruct cs as [|closest rest]; [discriminate|].
  destruct (List.find (Matcher.name_matches t) (closest :: rest))
    as [c|] eqn:Hfind.
  - intros [= <-]. apply List.find_some in Hfind as [Hin Hm]. simpl.
    split; [exact Hin|]. left. auto.
  - pose proof (List.find_none _ _ Hfind) as Hnone.
    destruct (Qle_bool 50 (Overpass.distance closest)) eqn:E50; simpl.
    + destruct (Qle_bool 150 (Overpass.distance closest)) eqn:E150; simpl;
        [discriminate|].
      intros [= <-]. simpl. split; [left; reflexivity|]. right.
      split; [exact Hnone|]. split; [reflexivity|]. right.
      split; [reflexivity|]. split; [apply Qle_bool_iff, E50|].
      apply Qnot_le_lt. intros H. apply Qle_bool_iff in H. congruence.
    + intros [= <-]. simpl. split; [left; reflexivity|]. right.
      split; [exact Hnone|]. split; [reflexivity|]. left.
      split; [reflexivity|].
      apply Qnot_le_lt. intros H. apply Qle_bool_iff in H. congruence.
Qed.

Lemma find_match_tiers_witness :
  exists m,
    Matcher.find_match Examples.local_sin_nombre [Examples.far_church] = None
    /\ Matcher.find_match Examples.local_sin_nombre [Examples.nameless_church]
       = Some m
    /\ In (Matcher.osm_church m) [Examples.nameless_church].
Proof.
  destruct (Matcher.find_match Examples.local_sin_nombre
              [Examples.nameless_church]) as [m|] eqn:E;
    [|vm_compute in E; discriminate].
  exists m. split; [reflexivity|]. split; [reflexivity|].
  exact (proj1 (find_match_tiers _ _ _ E)).
Defined.

(** X5.  [find_match] returns no match exactly when the candidate list is
    empty, or when no candidate name matches the title and the first
    candidate is 150 m away or more. *)
Theorem find_match_none_iff
    (inmueble : Scorer.inmueble_dict) (cs : list Overpass.OSMChurch) :
  let t := lower (get_default (Scorer.titulo inmueble) "") in
  Matcher.find_match inmueble cs = None
  <-> cs = []
      \/ ((forall c, In c cs -> Matcher.name_matches t c = false)
          /\ exists closest rest,
               cs = closest :: rest /\ 150 <= Overpass.distance closest).
Proof.
  intros t. unfold Matcher.find_match. fold t.
  destruct cs as [|closest rest]; [tauto|].
  destruct (List.find (Matcher.name_matches t) (closest :: rest))
    as [c|] eqn:Hfind.
  - split; [discriminate|]. intros [H|[Hnone _]]; [discriminate|].
    apply List.find_some in Hfind as [Hin Hm].
    rewrite (Hnone c Hin) in Hm. discriminate.
  - pose proof (List.find_none _ _ Hfind) as Hnone.
    destruct (Qle_bool 50 (Overpass.distance closest)) eqn:E50; simpl.
    + destruct (Qle_bool 150 (Overpass.distance closest)) eqn:E150; simpl.
      * split; [|reflexivity]. intros _. right. split; [exact Hnone|].
        exists closest, rest. split; [reflexivity|apply Qle_bool_iff, E150].
      * split; [discriminate|]. intros [H|[_ (c & r & [= <- <-] & H)]];
          [discriminate|].
        apply Qle_bool_iff in H. congruence.
    + split; [discriminate|]. intros [H|[_ (c & r & [= <- <-] & H)]];
        [discriminate|].
      assert (H50 : 50 <= Overpass.distance closest) by lra.
      apply Qle_bool_iff in H50. congruence.
Qed.

(** ** overpass_queries.py *)

Section OverpassAnswers.
Import Overpass.
Variable L : libm.
Variables lat lon : Q.

Lemma elements_loop_lacking (els : list element) (acc : list OSMChurch)
    (e : element) :
  In e els -> Terms.lacks_coordinate e = true ->
  elements_loop L lat lon els acc = Raise TypeError.
Proof.
  revert acc. induction els as [|e0 els IH]; intros acc Hin Hbad;
    [destruct Hin|].
  simpl. destruct Hin as [->|Hin].
  - unfold Terms.lacks_coordinate in Hbad.
    destruct (element_coords e) as [[[?|] [?|]]|]; try discriminate;
      reflexivity.
  - destruct (element_coords e0) as [[[?|] [?|]]|]; try reflexivity;
      apply IH; assumption.
Qed.

Lemma elements_loop_complete (els : list element) (acc : list OSMChurch) :
  (forall e, In e els -> Terms.lacks_coordinate e = false) ->
  elements_loop L lat lon els acc
  = Ok (acc ++ omap (Terms.church_of L lat lon) els)%list.
Proof.
  revert acc. induction els as [|e els IH]; intros acc Hall.
  - simpl. rewrite app_nil_r. reflexivity.
  - assert (He : Terms.lacks_coordinate e = false)
      by (apply Hall; left; reflexivity).
    assert (Hrest : forall e', In e' els -> Terms.lacks_coordinate e' = false)
      by (intros e' H; apply Hall; right; exact H).
    simpl. unfold Terms.lacks_coordinate in He. unfold Terms.church_of.
    destruct (element_coords e) as [[[elat|] [elon|]]|]; try discriminate.
    + rewrite IH by exact Hrest. rewrite <- app_assoc. reflexivity.
    + apply IH, Hrest.
Qed.

Lemma sorted_permutation {A} (key : A -> Q) (l : list A) :
  Permutation (Py.sorted key l) l.
Proof.
  induction l as [|x l IH]; simpl; [constructor|].
  transitivity (x :: Py.sorted key l); [|constructor; exact IH].
  generalize (Py.sorted key l). clear. intros l.
  induction l as [|y l IH]; simpl; [reflexivity|].
  destruct (Qle_bool (key x) (key y)); [reflexivity|].
  rewrite IH. apply perm_swap.
Qed.
End OverpassAnswers.

(** X6.  One incomplete element spoils the whole answer: when the answer
    holds a node without [lat] or [lon], or an element whose [center] lacks
    one of them, [find_churches_nearby] returns the empty list, whatever
    the other elements are. *)
Theorem find_churches_nearby_incomplete_element
    (L : libm) (net : Overpass.network) (self : Overpass.OverpassClient)
    (lat lon : Q) (radius_m : option Q)
    (els : list Overpass.element) (e : Overpass.element) :
  net (get_default radius_m (Overpass.default_search_radius_m self)) lat lon
  = Overpass.JsonObject (Some els) ->
  In e els -> Terms.lacks_coordinate e = true ->
  Overpass.find_churches_nearby L net self lat lon radius_m = [].
Proof.
  intros Hnet Hin Hbad. unfold Overpass.find_churches_nearby.
  rewrite Hnet. simpl.
  rewrite (elements_loop_lacking L lat lon els [] e Hin Hbad). reflexivity.
Qed.

(** X7.  When every element that the loop keeps has both coordinates, the
    answer of [find_churches_nearby] holds exactly one candidate per element
    that is a node or has a [center], elements of neither kind being
    skipped: it is a permutation of those candidates (so none is lost or
    repeated), ordered by distance. *)
Theorem find_churches_nearby_complete_answer
    (L : libm) (net : Overpass.network) (self : Overpass.OverpassClient)
    (lat lon : Q) (radius_m : option Q) (els : list Overpass.element) :
  net (get_default radius_m (Overpass.default_search_radius_m self)) lat lon
  = Overpass.JsonObject (Some els) ->
  (forall e, In e els -> Terms.lacks_coordinate e = false) ->
  Permutation (Overpass.find_churches_nearby L net self lat lon radius_m)
    (omap (Terms.church_of L lat lon) els)
  /\ length (Overpass.find_churches_nearby L net self lat lon radius_m)
     = length (List.filter
                 (fun e => match Overpass.element_coords e with
                           | Some _ => true
                           | None => false
                           end) els).
Proof.
  intros Hnet Hall.
  assert (Hperm :
    Permutation (Overpass.find_churches_nearby L net self lat lon radius_m)
      (omap (Terms.church_of L lat lon) els)).
  { unfold Overpass.find_churches_nearby. rewrite Hnet. simpl.
    rewrite (elements_loop_complete L lat lon els [] Hall). simpl.
    apply sorted_permutation. }
  split; [exact Hperm|].
  rewrite (Permutation_length Hperm). clear Hperm Hnet.
  induction els as [|e els IH]; [reflexivity|].
  assert (He : Terms.lacks_coordinate e = false)
    by (apply Hall; left; reflexivity).
  assert (IH' := IH (fun e' H => Hall e' (or_intror H))). clear IH.
  change (omap (Terms.church_of L lat lon) (e :: els))
    with (match Terms.church_of L lat lon e with
          | Some c => c :: omap (Terms.church_of L lat lon) els
          | None => omap (Terms.church_of L lat lon) els
          end).
  cbn [List.filter].
  destruct (Terms.church_of L lat lon e) as [c|] eqn:Hc;
    unfold Terms.church_of, Terms.lacks_coordinate in Hc, He;
    destruct (Overpass.element_coords e) as [[[?|] [?|]]|];
    try discriminate; cbn [length]; rewrite IH'; reflexivity.
Qed.

Lemma find_churches_nearby_incomplete_element_witness :
  In Examples2.node_without_lon
    [Examples.named_way; Examples2.node_without_lon; Examples.untagged_node]
  /\ Overpass.find_churches_nearby Approx.math Examples2.net_incomplete
       Examples.client (373826 # 10000) (-59963 # 10000) None = [].
Proof.
  assert (Hin : In Examples2.node_without_lon
                  [Examples.named_way; Examples2.node_without_lon;
                   Examples.untagged_node])
    by (right; left; reflexivity).
  split; [exact Hin|].
  exact (find_churches_nearby_incomplete_element Approx.math
           Examples2.net_incomplete Examples.client
           (373826 # 10000) (-59963 # 10000) None _ _ eq_refl Hin eq_refl).
Defined.

Lemma find_churches_nearby_complete_answer_witness :
  length (Overpass.find_churches_nearby Approx.math Examples2.net_three
            Examples.client (373826 # 10000) (-59963 # 10000) None) = 2%nat.
Proof.
  refine (eq_trans
            (proj2 (find_churches_nearby_complete_answer Approx.math
                      Examples2.net_three Examples.client
                      (373826 # 10000) (-59963 # 10000) None _ eq_refl _))
            eq_refl).
  intros e [<-|[<-|[<-|[]]]]; reflexivity.
Defined.

(** ** models.py: bounding boxes *)

Lemma fold_left_Qmin_spec (l : list Q) (x : Q) :
  fold_left Qmin l x <= x
  /\ (forall y, In y l -> fold_left Qmin l x <= y)
  /\ In (fold_left Qmin l x) (x :: l).
Proof.
  revert x. induction l as [|y l IH]; intros x; simpl.
  - split; [apply Qle_refl|]. split; [intros ? []|left; reflexivity].
  - destruct (IH (Qmin x y)) as (H1 & H2 & H3).
    split; [eapply Qle_trans; [exact H1|apply Q.le_min_l]|].
    split.
    + intros z [<-|Hz]; [eapply Qle_trans; [exact H1|apply Q.le_min_r]|].
      apply H2, Hz.
    + destruct H3 as [H3|H3]; [|right; right; exact H3].
      rewrite <- H3. unfold Qmin, GenericMinMax.gmin.
      destruct (x ?= y); auto.
Qed.

Lemma fold_left_Qmax_spec (l : list Q) (x : Q) :
  x <= fold_left Qmax l x
  /\ (forall y, In y l -> y <= fold_left Qmax l x)
  /\ In (fold_left Qmax l x) (x :: l).
Proof.
  revert x. induction l as [|y l IH]; intros x; simpl.
  - split; [apply Qle_refl|]. split; [intros ? []|left; reflexivity].
  - destruct (IH (Qmax x y)) as (H1 & H2 & H3).
    split; [eapply Qle_trans; [apply Q.le_max_l|exact H1]|].
    split.
    + intros z [<-|Hz]; [eapply Qle_trans; [apply Q.le_max_r|exact H1]|].
      apply H2, Hz.
    + destruct H3 as [H3|H3]; [|right; right; exact H3].
      rewrite <- H3. unfold Qmax, GenericMinMax.gmax.
      destruct (x ?= y); auto.
Qed.

Lemma list_min_spec (x : Q) (l : list Q) :
  exists m, Geo.list_min (x :: l) = Ok m
    /\ (forall y, In y (x :: l) -> m <= y) /\ In m (x :: l).
Proof.
  destruct (fold_left_Qmin_spec l x) as (H1 & H2 & H3).
  eexists. split; [reflexivity|]. split; [|exact H3].
  intros y [<-|Hy]; auto.
Qed.

Lemma list_max_spec (x : Q) (l : list Q) :
  exists m, Geo.list_max (x :: l) = Ok m
    /\ (forall y, In y (x :: l) -> y <= m) /\ In m (x :: l).
Proof.
  destruct (fold_left_Qmax_spec l x) as (H1 & H2 & H3).
  eexists. split; [reflexivity|]. split; [|exact H3].
  intros y [<-|Hy]; auto.
Qed.

(** X8.  The bounding box of a polygon with at least one vertex exists and
    is the tightest one: every vertex lies within it, and each of its four
    bounds is the latitude or the longitude of some vertex. *)
Theorem polygon_bounding_box_tight
    (G : Geo.globals) (region : Geo.GeoRegion) (p : Q * Q) (ps : list (Q * Q)) :
  Geo.shape_type region = Some Geo.POLYGON ->
  Geo.coordinates region = Some (p :: ps) ->
  exists min_lat min_lon max_lat max_lon,
    Geo.get_bounding_box G region
    = Ok (Some (min_lat, min_lon, max_lat, max_lon))
    /\ (forall q, In q (p :: ps) ->
          min_lat <= fst q <= max_lat /\ min_lon <= snd q <= max_lon)
    /\ (exists q, In q (p :: ps) /\ fst q = min_lat)
    /\ (exists q, In q (p :: ps) /\ snd q = min_lon)
    /\ (exists q, In q (p :: ps) /\ fst q = max_lat)
    /\ (exists q, In q (p :: ps) /\ snd q = max_lon).
Proof.
  intros Hshape Hcoords. unfold Geo.get_bounding_box.
  rewrite Hshape, Hcoords. simpl Geo.arg. cbn [Py.bind map].
  destruct (list_min_spec (fst p) (map fst ps)) as (a & -> & Ha & Ha').
  destruct (list_min_spec (snd p) (map snd ps)) as (b & -> & Hb & Hb').
  destruct (list_max_spec (fst p) (map fst ps)) as (c & -> & Hc & Hc').
  destruct (list_max_spec (snd p) (map snd ps)) as (d & -> & Hd & Hd').
  exists a, b, c, d. cbn [Py.bind]. split; [reflexivity|].
  change (fst p :: map fst ps) with (map fst (p :: ps)) in *.
  change (snd p :: map snd ps) with (map snd (p :: ps)) in *.
  split.
  - intros q Hq.
    pose proof (in_map fst _ _ Hq). pose proof (in_map snd _ _ Hq).
    repeat split; auto.
  - repeat split;
      match goal with
      | H : In ?m (map ?f (p :: ps)) |- exists q, _ /\ ?f q = ?m =>
          apply in_map_iff in H as (q & <- & Hq); exists q; auto
      end.
Qed.

Lemma polygon_bounding_box_tight_witness :
  exists min_lat min_lon max_lat max_lon,
    Geo.get_bounding_box Geo.shipped Examples.square
    = Ok (Some (min_lat, min_lon, max_lat, max_lon))
    /\ min_lat <= 0 <= max_lat /\ min_lon <= 2 <= max_lon.
Proof.
  destruct (polygon_bounding_box_tight Geo.shipped Examples.square
              (0, 0) [(0, 2); (2, 2); (2, 0)] eq_refl eq_refl)
    as (a & b & c & d & H & Hin & _).
  exists a, b, c, d. split; [exact H|].
  apply (Hin (0, 2)). right. left. reflexivity.
Defined.



(** ** models.py: the WKT form, and region_builder.py *)

Lemma point_eqb_refl (p : Q * Q) : Wkt.point_eqb p p = true.
Proof. unfold Wkt.point_eqb. rewrite !Qeq_bool_refl. reflexivity. Qed.

Lemma close_ring_cases (first : Q * Q) (rest : list (Q * Q)) :
  (Wkt.point_eqb first (List.last (first :: rest) first) = true
   /\ Wkt.close_ring (first :: rest) = first :: rest)
  \/ (Wkt.point_eqb first (List.last (first :: rest) first) = false
      /\ Wkt.close_ring (first :: rest) = first :: (rest ++ [first])%list).
Proof.
  unfold Wkt.close_ring.
  destruct (Wkt.point_eqb first (List.last (first :: rest) first)); auto.
Qed.

Lemma close_ring_closed (first : Q * Q) (rest : list (Q * Q)) :
  let ring := Wkt.close_ring (first :: rest) in
  List.hd_error ring = Some first
  /\ Wkt.point_eqb first (List.last ring first) = true
  /\ (ring = first :: rest \/ ring = ((first :: rest) ++ [first])%list)
  /\ Wkt.close_ring ring = ring.
Proof.
  intros ring. subst ring.
  destruct (close_ring_cases first rest) as [[E ->]|[E ->]].
  - split; [reflexivity|]. split; [exact E|]. split; [left; reflexivity|].
    destruct (close_ring_cases first rest) as [[_ H]|[E' _]];
      [exact H|congruence].
  - assert (Hlast : List.last (first :: (rest ++ [first]))%list first = first)
      by apply (List.last_last (first :: rest)).
    split; [reflexivity|]. split; [rewrite Hlast; apply point_eqb_refl|].
    split; [right; reflexivity|].
    destruct (close_ring_cases first (rest ++ [first])%list)
      as [[_ H]|[E' _]]; [exact H|].
    rewrite Hlast, point_eqb_refl in E'. discriminate.
Qed.

(** X10.  For a polygon with at least three vertices [to_wkt] returns a
    POLYGON text whose ring is closed.  The ring is the vertex list as it is
    when its last vertex equals its first, and the vertex list with the
    first vertex appended otherwise; either way its first and last points
    are equal, and closing it again changes nothing. *)
Theorem to_wkt_polygon_ring_closed
    (str_num : Q -> string) (region : Geo.GeoRegion)
    (coords : list (Q * Q)) :
  Geo.shape_type region = Some Geo.POLYGON ->
  Geo.coordinates region = Some coords ->
  (3 <= length coords)%nat ->
  exists ring first,
    Wkt.to_wkt str_num region
    = Ok (Some ("POLYGON(("
                ++ join ", " (map (Wkt.point_text str_num) ring) ++ "))"))
    /\ List.hd_error coords = Some first
    /\ List.hd_error ring = Some first
    /\ Wkt.point_eqb first (List.last ring first) = true
    /\ ring = (if Wkt.point_eqb first (List.last coords first)
               then coords else (coords ++ [first])%list)
    /\ Wkt.close_ring ring = ring.
Proof.
  intros Hshape Hcoords Hlen. unfold Wkt.to_wkt. rewrite Hshape, Hcoords.
  destruct (length coords <? 3)%nat eqn:E;
    [apply Nat.ltb_lt in E; lia|].
  destruct coords as [|first rest]; [simpl in Hlen; lia|].
  destruct (close_ring_closed first rest) as (H1 & H2 & _ & H4).
  exists (Wkt.close_ring (first :: rest)), first.
  split; [reflexivity|]. split; [reflexivity|]. split; [exact H1|].
  split; [exact H2|]. split; [reflexivity|exact H4].
Qed.

Lemma to_wkt_polygon_ring_closed_witness :
  exists ring,
    Wkt.to_wkt (fun q => str_of_Z (Qfloor q)) Examples.square
    = Ok (Some ("POLYGON(("
                ++ join ", "
                     (map (Wkt.point_text (fun q => str_of_Z (Qfloor q))) ring)
                ++ "))"))
    /\ List.hd_error ring = Some (0, 0)
    /\ ring = [(0, 0); (0, 2); (2, 2); (2, 0); (0, 0)].
Proof.
  destruct (to_wkt_polygon_ring_closed (fun q => str_of_Z (Qfloor q))
              Examples.square [(0, 0); (0, 2); (2, 2); (2, 0)]
              eq_refl eq_refl)
    as (ring & first & Hwkt & Hfirst & Hhd & _ & Hring & _);
    [simpl; lia|].
  injection Hfirst as <-.
  exists ring. split; [exact Hwkt|]. split; [exact Hhd|].
  rewrite Hring. reflexivity.
Defined.

(** X11.  A bounding box serialises like the polygon of its four corners
    taken SW, SE, NE, NW: [to_wkt] gives the same text for both, as long as
    the two corners do not have the same latitude. *)
Theorem to_wkt_bounding_box_as_polygon
    (str_num : Q -> string) (box poly : Geo.GeoRegion)
    (sw_lat sw_lon ne_lat ne_lon : Q) :
  Geo.shape_type box = Some Geo.BOUNDING_BOX ->
  Geo.coordinates box = Some [(sw_lat, sw_lon); (ne_lat, ne_lon)] ->
  Geo.shape_type poly = Some Geo.POLYGON ->
  Geo.coordinates poly
  = Some [(sw_lat, sw_lon); (sw_lat, ne_lon); (ne_lat, ne_lon);
          (ne_lat, sw_lon)] ->
  ~ sw_lat == ne_lat ->
  Wkt.to_wkt str_num box = Wkt.to_wkt str_num poly.
Proof.
  intros Hb1 Hb2 Hp1 Hp2 Hne. unfold Wkt.to_wkt.
  rewrite Hb1, Hb2, Hp1, Hp2. cbn [length Nat.ltb Nat.leb].
  unfold Wkt.close_ring. cbn [List.last]. unfold Wkt.point_eqb. cbn [fst snd].
  destruct (Qeq_bool sw_lat ne_lat) eqn:E;
    [apply Qeq_bool_iff in E; contradiction|].
  reflexivity.
Qed.

Lemma to_wkt_bounding_box_as_polygon_witness :
  Wkt.to_wkt (fun q => str_of_Z (Qfloor q)) Examples.madrid_bbox
  = Ok (Some "POLYGON((-4 40, -3 40, -3 41, -4 41, -4 40))")
  /\ Wkt.to_wkt (fun q => str_of_Z (Qfloor q)) Examples.madrid_bbox
     = Wkt.to_wkt (fun q => str_of_Z (Qfloor q))
         (Examples.region Geo.POLYGON None None None
            (Some [(40, -4); (40, -3); (41, -3); (41, -4)])).
Proof.
  split; [reflexivity|].
  apply (to_wkt_bounding_box_as_polygon _ _ _ 40 (-4) 41 (-3));
    try reflexivity.
  discriminate.
Defined.

Lemma polygon_bounding_box_core (G : Geo.globals) (p : Q * Q)
    (ps : list (Q * Q)) :
  forall name description,
  exists box,
    Geo.get_bounding_box G
      (Builder.new_region name Geo.POLYGON None None None (Some (p :: ps))
         None description)
    = Ok (Some box).
Proof.
  intros name description. unfold Geo.get_bounding_box. simpl.
  eexists. reflexivity.
Qed.

(** X12.  Every region that [RegionBuilder] builds can be used as it is:
    [to_wkt] returns a text for it and never raises, and for the polygons
    and bounding boxes it builds [get_bounding_box] returns a box whatever
    the globals of models.py; such a region is new (no id) and active. *)
Theorem built_regions_serialise
    (str_num str_num' : Q -> string) (G : Geo.globals)
    (region : Geo.GeoRegion) :
  Terms.built str_num region ->
  (exists text, Wkt.to_wkt str_num' region = Ok (Some text))
  /\ (Geo.shape_type region <> Some Geo.CIRCLE ->
      exists box, Geo.get_bounding_box G region = Ok (Some box))
  /\ Geo.id region = None /\ Geo.is_active region = true.
Proof.
  intros [results address radius_m name r H
         |results radius_m r H
         |sw_lat sw_lon ne_lat ne_lon name
         |coordinates name r H].
  - unfold Builder.from_address in H.
    destruct results as [[|result rest]|]; try discriminate.
    injection H as <-. repeat split; [eexists; reflexivity|].
    simpl. congruence.
  - unfold Builder.from_church in H.
    destruct results as [[|first rest]|]; try discriminate.
    injection H as <-. repeat split; [eexists; reflexivity|].
    simpl. congruence.
  - repeat split; eexists; reflexivity.
  - unfold Builder.from_polygon in H.
    destruct (length coordinates <? 3)%nat eqn:E; [discriminate|].
    injection H as <-. split; [|split; [|split; reflexivity]].
    + unfold Wkt.to_wkt. simpl. rewrite E. eexists. reflexivity.
    + intros _. apply Nat.ltb_ge in E.
      destruct coordinates as [|p ps]; [simpl in E; lia|].
      apply polygon_bounding_box_core.
Qed.

Lemma built_regions_serialise_witness :
  exists region text,
    Builder.from_polygon Examples2.triangle None = Ok region
    /\ Wkt.to_wkt Examples2.str_int region = Ok (Some text).
Proof.
  destruct (Builder.from_polygon Examples2.triangle None) as [region|e] eqn:E;
    [|discriminate].
  destruct (built_regions_serialise Examples2.str_int Examples2.str_int
              Geo.shipped region
              (Terms.built_from_polygon _ _ _ _ E)) as [[text Htext] _].
  exists region, text. split; [reflexivity|exact Htext].
Defined.

(** X13.  [from_church] centres the circle on a result of the geocoder: on
    the first result that is a place of worship, a church or a cathedral
    when there is one, and otherwise on the first result; it returns no
    region only when the geocoder returned nothing. *)
Theorem from_church_prefers_worship
    (str_num : Q -> string) (results : option (list Builder.GeocodingResult))
    (radius_m : Q) :
  match Builder.from_church str_num results radius_m with
  | None => results = None \/ results = Some []
  | Some region =>
      exists all res,
        results = Some all /\ In res all
        /\ Geo.shape_type region = Some Geo.CIRCLE
        /\ Geo.center_lat region = Some (Builder.g_lat res)
        /\ Geo.center_lon region = Some (Builder.g_lon res)
        /\ Geo.radius_m region = Some radius_m
        /\ (List.find Builder.is_worship all = Some res
            \/ ((forall r, In r all -> Builder.is_worship r = false)
                /\ List.hd_error all = Some res))
  end.
Proof.
  unfold Builder.from_church.
  destruct results as [[|first rest]|]; auto.
  destruct (List.find Builder.is_worship (first :: rest)) as [r|] eqn:E.
  - exists (first :: rest), r. pose proof (List.find_some _ _ E) as [Hin _].
    repeat split; auto.
  - pose proof (List.find_none _ _ E) as Hnone.
    exists (first :: rest), first. repeat split; auto. left. reflexivity.
Qed.

(** ** region_monitor.py: the alert table *)

Lemma same_key_iff (a b : Geo.RegionAlert) :
  Monitor.same_key a b = true <-> Terms.alert_key a = Terms.alert_key b.
Proof.
  unfold Monitor.same_key, Terms.alert_key.
  rewrite !andb_true_iff, Z.eqb_eq, !String.eqb_eq.
  split; [intros [[-> ->] ->]; reflexivity|intros [= -> -> ->]; auto].
Qed.

Lemma has_key_iff (a : Geo.RegionAlert) (table : list Geo.RegionAlert) :
  existsb (Monitor.same_key a) table = true
  <-> In (Terms.alert_key a) (map Terms.alert_key table).
Proof.
  rewrite existsb_exists, in_map_iff. split.
  - intros (b & Hb & Hk). exists b. apply same_key_iff in Hk. auto.
  - intros (b & Hk & Hb). exists b. split; [exact Hb|].
    apply same_key_iff. auto.
Qed.

Lemma insert_alert_spec (table : list Geo.RegionAlert) (a : Geo.RegionAlert) :
  (exists added, Monitor.insert_alert table a = (table ++ added)%list
                 /\ (added = [] \/ added = [a]))
  /\ In (Terms.alert_key a)
       (map Terms.alert_key (Monitor.insert_alert table a))
  /\ (NoDup (map Terms.alert_key table) ->
      NoDup (map Terms.alert_key (Monitor.insert_alert table a))).
Proof.
  unfold Monitor.insert_alert.
  destruct (existsb (Monitor.same_key a) table) eqn:E.
  - split; [exists []; rewrite app_nil_r; auto|].
    split; [apply has_key_iff, E|auto].
  - split; [exists [a]; auto|].
    rewrite List.map_app. simpl.
    split; [apply in_or_app; right; left; reflexivity|].
    intros Hnd. apply NoDup_app. split; [exact Hnd|].
    split; [|apply NoDup_singleton].
    intros k Hk Hk'. apply list_elem_of_In in Hk, Hk'.
    destruct Hk' as [<-|[]]. apply has_key_iff in Hk. congruence.
Qed.

Lemma fold_insert_alert_spec (alerts table : list Geo.RegionAlert) :
  (exists added,
      fold_left Monitor.insert_alert alerts table = (table ++ added)%list
      /\ forall a, In a added -> In a alerts)
  /\ (forall k, In k (map Terms.alert_key table)
                \/ In k (map Terms.alert_key alerts) ->
        In k (map Terms.alert_key
                (fold_left Monitor.insert_alert alerts table)))
  /\ (NoDup (map Terms.alert_key table) ->
      NoDup (map Terms.alert_key
               (fold_left Monitor.insert_alert alerts table))).
Proof.
  revert table. induction alerts as [|a alerts IH]; intros table; simpl.
  - split; [exists []; rewrite app_nil_r; split; [reflexivity|intros ? []]|].
    split; [intros k [H|[]]; exact H|auto].
  - destruct (insert_alert_spec table a) as ((add1 & E1 & Hadd1) & Hin1 & Hnd1).
    destruct (IH (Monitor.insert_alert table a))
      as ((add2 & E2 & Hadd2) & Hin2 & Hnd2).
    split; [|split].
    + exists (add1 ++ add2)%list. rewrite E2, E1, app_assoc.
      split; [reflexivity|]. intros b Hb. apply in_app_or in Hb as [Hb|Hb].
      * destruct Hadd1 as [-> | ->]; [destruct Hb|].
        destruct Hb as [<-|[]]. left. reflexivity.
      * right. apply Hadd2, Hb.
    + intros k [Hk|[<-|Hk]]; apply Hin2; auto.
      left. rewrite E1, List.map_app. apply in_or_app. left. exact Hk.
    + intros Hnd. apply Hnd2, Hnd1, Hnd.
Qed.

Lemma fold_insert_alert_present (alerts table : list Geo.RegionAlert) :
  (forall a, In a alerts ->
     In (Terms.alert_key a) (map Terms.alert_key table)) ->
  fold_left Monitor.insert_alert alerts table = table.
Proof.
  induction alerts as [|a alerts IH]; intros H; simpl; [reflexivity|].
  assert (Ha : Monitor.insert_alert table a = table).
  { unfold Monitor.insert_alert.
    destruct (existsb (Monitor.same_key a) table) eqn:E; [reflexivity|].
    assert (Hk : existsb (Monitor.same_key a) table = true)
      by (apply has_key_iff, H; left; reflexivity).
    congruence. }
  rewrite Ha. apply IH. intros b Hb. apply H. right. exact Hb.
Qed.

(** X14.  [_save_alerts] only appends: the rows already in the alert table
    stay, in their order, and the new rows are alerts of the batch.  It
    keeps the key (region, portal, listing) unique when it was, leaves every
    alert of the batch with a row of its key, and saving the same batch a
    second time changes nothing.  The other tables are untouched. *)
Theorem save_alerts_idempotent_unique
    (alerts : list Geo.RegionAlert) (db : Monitor.database) :
  let db' := Monitor._save_alerts alerts db in
  (exists added,
      Monitor.region_alerts db' = (Monitor.region_alerts db ++ added)%list
      /\ forall a, In a added -> In a alerts)
  /\ (NoDup (map Terms.alert_key (Monitor.region_alerts db)) ->
      NoDup (map Terms.alert_key (Monitor.region_alerts db')))
  /\ (forall a, In a alerts ->
        In (Terms.alert_key a)
          (map Terms.alert_key (Monitor.region_alerts db')))
  /\ Monitor._save_alerts alerts db' = db'
  /\ Monitor.geo_regions db' = Monitor.geo_regions db
  /\ Monitor.inmuebles_raw db' = Monitor.inmuebles_raw db
  /\ Monitor.detecciones db' = Monitor.detecciones db.
Proof.
  intros db'. subst db'. unfold Monitor._save_alerts. simpl.
  destruct (fold_insert_alert_spec alerts (Monitor.region_alerts db))
    as (Hprefix & Hkeys & Hnd).
  split; [exact Hprefix|]. split; [exact Hnd|].
  assert (Hall : forall a, In a alerts ->
            In (Terms.alert_key a)
              (map Terms.alert_key
                 (fold_left Monitor.insert_alert alerts
                    (Monitor.region_alerts db)))).
  { intros a Ha. apply Hkeys. right. apply in_map, Ha. }
  split; [exact Hall|].
  split; [|auto].
  rewrite (fold_insert_alert_present alerts _ Hall). reflexivity.
Qed.

(** ** region_monitor.py: what a scan changes *)

Section ScanFrame.
Import Monitor.
Variable L : libm.
Variable net : Overpass.network.
Variable cfg : common_config.
Variable ScorerState : Type.
Variable scorer_score :
  Scorer.inmueble_dict -> ScorerState -> result (Q * list string) * ScorerState.
Variable overpass : Overpass.OverpassClient.
Variables now region_id : Z.
Variable region : Geo.GeoRegion.
Variable min_score : Q.

Lemma score_of_row_turn (r : row) (db db' : database) (s s' : ScorerState)
    res :
  score_of_row cfg ScorerState scorer_score now min_score r (db, s)
  = (res, (db', s')) ->
  Terms.turn cfg now min_score r db db'.
Proof.
  unfold score_of_row, Terms.turn. destruct (row_score r) as [score|].
  - intros [= _ <- _]. left. reflexivity.
  - simpl. destruct (_score_inmueble _ _ r s) as [[[score ev]|e] s1].
    + destruct (Qle_bool min_score score) eqn:E; intros [= _ <- _].
      * right. split; [reflexivity|]. exists score, ev.
        split; [apply Qle_bool_iff, E|reflexivity].
      * left. reflexivity.
    + intros [= _ <- _]. left. reflexivity.
Qed.

Lemma scan_row_turn (r : row) (db db' : database) (s s' : ScorerState) res :
  scan_row L net cfg ScorerState scorer_score overpass now region_id region
    min_score r (db, s) = (res, (db', s')) ->
  Terms.turn cfg now min_score r db db'.
Proof.
  unfold scan_row.
  destruct (Geo.contains_point L region _ _) as [[|]|e];
    try (intros [= _ <- _]; left; reflexivity).
  destruct (distance_to_center L region _ _) as [d|e];
    [|intros [= _ <- _]; left; reflexivity].
  destruct (score_of_row _ _ _ _ _ r (db, s))
    as [[[[score ev] status]|e] [db1 s1]] eqn:E;
    pose proof (score_of_row_turn _ _ _ _ _ _ E) as Hturn.
  - destruct (osm_of_row _ _ _ _) as [[? ?] ?]. intros [= _ <- _]. exact Hturn.
  - intros [= _ <- _]. exact Hturn.
Qed.

(** A turn keeps the three other tables, and every detection record it
    leaves is the old one or one written by the scan for that row. *)
Lemma turn_frame (r : row) (db db' : database) :
  Terms.turn cfg now min_score r db db' ->
  geo_regions db' = geo_regions db
  /\ inmuebles_raw db' = inmuebles_raw db
  /\ region_alerts db' = region_alerts db
  /\ forall id,
       detecciones db' !! id = detecciones db !! id
       \/ (id = row_id r /\ row_score r = None
           /\ exists d, detecciones db' !! id = Some d
                        /\ Terms.written_by_scan cfg min_score d).
Proof.
  intros [->|(Hnone & score & ev & Hle & ->)]; [auto 10|].
  unfold _save_detection. simpl. repeat split.
  intros id. destruct (decide (row_id r = id)) as [<-|Hne].
  - right. split; [reflexivity|]. split; [exact Hnone|].
    rewrite lookup_insert_eq. eexists. split; [reflexivity|].
    exists score. destruct (detecciones db !! row_id r); simpl; auto.
  - left. apply lookup_insert_ne, Hne.
Qed.

(** The same for the whole loop, together with what it says of the alerts
    returned: one per row inside the region, with the key of the row. *)
Lemma scan_loop_frame (rows : list row) :
  forall acc db s res db' s',
    scan_loop L net cfg ScorerState scorer_score overpass now region_id
      region min_score rows acc (db, s) = (res, (db', s')) ->
    geo_regions db' = geo_regions db
    /\ inmuebles_raw db' = inmuebles_raw db
    /\ region_alerts db' = region_alerts db
    /\ (forall id,
          detecciones db' !! id = detecciones db !! id
          \/ ((exists r, In r rows /\ row_id r = id /\ row_score r = None)
              /\ exists d, detecciones db' !! id = Some d
                           /\ Terms.written_by_scan cfg min_score d))
    /\ (forall alerts, res = Ok alerts ->
          (forall r, In r rows ->
             Geo.contains_point L region (row_lat r) (row_lon r) = Ok true ->
             In (Terms.row_key region_id r) (map Terms.alert_key alerts))
          /\ (forall a, In a acc -> In a alerts)
          /\ (forall a, In a alerts ->
                In a acc
                \/ exists r, In r rows
                     /\ Geo.contains_point L region (row_lat r) (row_lon r)
                        = Ok true
                     /\ Terms.alert_key a = Terms.row_key region_id r)).
Proof.
  induction rows as [|r rows IH]; intros acc db s res db' s'.
  - simpl. intros [= <- <- <-].
    do 3 (split; [reflexivity|]). split; [intros id; left; reflexivity|].
    intros alerts [= <-]. split; [intros ? []|]. split; auto.
  - simpl.
    destruct (scan_row _ _ _ _ _ _ _ _ _ _ r (db, s))
      as [[[alert|]|e] [db1 s1]] eqn:Erow;
      pose proof (turn_frame r db db1 (scan_row_turn _ _ _ _ _ _ Erow))
        as (Hg1 & Hi1 & Ha1 & Hd1).
    + intros Hloop.
      destruct (IH _ _ _ _ _ _ Hloop) as (Hg & Hi & Ha & Hd & Hal).
      split; [congruence|]. split; [congruence|]. split; [congruence|].
      split.
      * intros id. destruct (Hd id) as [Hsame|((r0 & Hr0 & Hid & Hn) & Hw)].
        -- destruct (Hd1 id) as [Hsame1|(Hid & Hn & d & Hd' & Hw)].
           ++ left. congruence.
           ++ right. split; [exists r; simpl; auto|].
              exists d. rewrite Hsame. auto.
        -- right. split; [exists r0; simpl; auto|exact Hw].
      * intros alerts ->. destruct (Hal _ eq_refl) as (Hk & Hacc & Hfrom).
        assert (Hkey : Terms.alert_key alert = Terms.row_key region_id r
                       /\ Geo.contains_point L region (row_lat r) (row_lon r)
                          = Ok true).
        { revert Erow. unfold scan_row.
          destruct (Geo.contains_point L region _ _) as [[|]|?];
            try discriminate.
          destruct (distance_to_center L region _ _); [|discriminate].
          destruct (score_of_row _ _ _ _ _ _ _) as [[[[? ?] ?]|?] ?];
            [|discriminate].
          destruct (osm_of_row _ _ _ _) as [[? ?] ?].
          intros H. apply (f_equal fst) in H. simpl in H.
          injection H as <-. split; reflexivity. }
        destruct Hkey as [Hkey Hin].
        repeat split.
        -- intros r0 [<-|Hr0] Hc; [|apply Hk; assumption].
           rewrite <- Hkey. apply in_map, Hacc, in_or_app. right. left.
           reflexivity.
        -- intros a Ha0. apply Hacc, in_or_app. left. exact Ha0.
        -- intros a Ha0. destruct (Hfrom a Ha0) as [Hin0|(r0 & Hr0 & Hc & Hk0)].
           ++ apply in_app_or in Hin0 as [Hin0|[<-|[]]]; [left; exact Hin0|].
              right. exists r. simpl. auto.
           ++ right. exists r0. simpl. auto.
    + intros Hloop.
      destruct (IH _ _ _ _ _ _ Hloop) as (Hg & Hi & Ha & Hd & Hal).
      split; [congruence|]. split; [congruence|]. split; [congruence|].
      split.
      * intros id. destruct (Hd id) as [Hsame|((r0 & Hr0 & Hid & Hn) & Hw)].
        -- destruct (Hd1 id) as [Hsame1|(Hid & Hn & d & Hd' & Hw)].
           ++ left. congruence.
           ++ right. split; [exists r; simpl; auto|].
              exists d. rewrite Hsame. auto.
        -- right. split; [exists r0; simpl; auto|exact Hw].
      * intros alerts ->. destruct (Hal _ eq_refl) as (Hk & Hacc & Hfrom).
        assert (Hout : Geo.contains_point L region (row_lat r) (row_lon r)
                       <> Ok true).
        { revert Erow. unfold scan_row.
          destruct (Geo.contains_point L region _ _) as [[|]|?];
            try discriminate.
          destruct (distance_to_center L region _ _); [|discriminate].
          destruct (score_of_row _ _ _ _ _ _ _) as [[[[? ?] ?]|?] ?];
            [|discriminate].
          destruct (osm_of_row _ _ _ _) as [[? ?] ?]. discriminate. }
        repeat split.
        -- intros r0 [<-|Hr0] Hc; [contradiction|apply Hk; assumption].
        -- exact Hacc.
        -- intros a Ha0. destruct (Hfrom a Ha0) as [Hin0|(r0 & Hr0 & Hc & Hk0)];
             [left; exact Hin0|].
           right. exists r0. simpl. auto.
    + intros [= <- <- <-].
      split; [exact Hg1|]. split; [exact Hi1|]. split; [exact Ha1|].
      split; [|discriminate].
      intros id. destruct (Hd1 id) as [Hsame1|(Hid & Hn & d & Hd' & Hw)];
        [left; exact Hsame1|].
      right. split; [exists r; simpl; auto|]. exists d. auto.
Qed.
End ScanFrame.

Lemma save_alerts_if_any (alerts : list Geo.RegionAlert)
    (db : Monitor.database) :
  match alerts with
  | [] => db
  | _ => Monitor._save_alerts alerts db
  end = Monitor._save_alerts alerts db.
Proof. destruct alerts; [destruct db|]; reflexivity. Qed.

Lemma status_from_threshold (cfg : Config.common_config) (score : Q) :
  Config.detection_threshold cfg <= score ->
  Monitor._get_status_for_score cfg score = Config.statuses_confirmed cfg
  \/ Monitor._get_status_for_score cfg score = Config.statuses_detected cfg.
Proof.
  intros H. unfold Monitor._get_status_for_score.
  destruct (Qeq_bool score 100); [left; reflexivity|].
  apply Qle_bool_iff in H. rewrite H. right. reflexivity.
Qed.



Lemma same_geometry_functions (L : libm) (G : Geo.globals)
    (region region' : Geo.GeoRegion) :
  Terms.same_geometry region region' ->
  Geo.get_bounding_box G region' = Geo.get_bounding_box G region
  /\ forall lat lon,
       Geo.contains_point L region' lat lon
       = Geo.contains_point L region lat lon.
Proof.
  intros (Hs & Hlat & Hlon & Hr & Hc).
  unfold Geo.get_bounding_box, Geo.contains_point.
  rewrite Hs, Hlat, Hlon, Hr, Hc. split; reflexivity.
Qed.

Lemma last_checked_same_rows (now region_id : Z) (db : Monitor.database) :
  Forall2 Terms.same_region_row (Monitor.geo_regions db)
    (Monitor.geo_regions
       (Monitor._update_region_last_checked now region_id db)).
Proof.
  unfold Monitor._update_region_last_checked. simpl.
  induction (Monitor.geo_regions db) as [|r l IH]; constructor; [|exact IH].
  destruct (Z.eqb (Monitor.r_id r) region_id); repeat split.
Qed.

Lemma same_rows_refl (l : list Monitor.geo_region_row) :
  Forall2 Terms.same_region_row l l.
Proof. induction l; constructor; [repeat split|assumption]. Qed.

Section ScanRegion.
Import Monitor.
Variable L : libm.
Variable net : Overpass.network.
Variable cfg : common_config.
Variable G : Geo.globals.
Variable ScorerState : Type.
Variable scorer_score :
  Scorer.inmueble_dict -> ScorerState -> result (Q * list string) * ScorerState.
Variable overpass : Overpass.OverpassClient.
Variables now region_id : Z.

(** The outcome of a scan, case by case: what it leaves in each table, and
    when it completes, which rows its alerts stand for. *)
Lemma scan_region_cases (db : database) (s : ScorerState) :
  let out := scan_region L net cfg G ScorerState scorer_score overpass now
               region_id (db, s) in
  let db' := fst (snd out) in
  let min_score := detection_threshold cfg in
  inmuebles_raw db' = inmuebles_raw db
  /\ (forall id,
        detecciones db' !! id = detecciones db !! id
        \/ (detecciones db !! id ≫= det_score = None
            /\ exists d, detecciones db' !! id = Some d
                         /\ Terms.written_by_scan cfg min_score d))
  /\ ((exists e, fst out = Raise e
                 /\ geo_regions db' = geo_regions db
                 /\ region_alerts db' = region_alerts db)
      \/ (exists region bbox alerts,
            _get_region db region_id = Ok (Some region)
            /\ Geo.get_bounding_box G region = Ok (Some bbox)
            /\ fst out = Ok alerts
            /\ geo_regions db'
               = geo_regions (_update_region_last_checked now region_id db)
            /\ region_alerts db'
               = fold_left insert_alert alerts (region_alerts db)
            /\ (forall i r,
                  In i (inmuebles_raw db) ->
                  select_candidate db bbox min_score i = Some r ->
                  Geo.contains_point L region (row_lat r) (row_lon r)
                  = Ok true ->
                  In (Terms.row_key region_id r)
                     (map Terms.alert_key alerts))
            /\ (forall a, In a alerts ->
                  exists i r,
                    In i (inmuebles_raw db)
                    /\ select_candidate db bbox min_score i = Some r
                    /\ Geo.contains_point L region (row_lat r) (row_lon r)
                       = Ok true
                    /\ Terms.alert_key a = Terms.row_key region_id r))).
Proof.
  cbv zeta. unfold scan_region. cbn [fst snd].
  destruct (_get_region db region_id) as [[region|]|e] eqn:Hregion;
    try (cbn [fst snd]; split; [reflexivity|]; split; [left; reflexivity|];
         left; eexists; repeat split).
  destruct (Geo.get_bounding_box G region) as [[bbox|]|e] eqn:Hbox;
    try (cbn [fst snd]; split; [reflexivity|]; split; [left; reflexivity|];
         left; eexists; repeat split).
  destruct (scan_loop _ _ _ _ _ _ _ _ _ _ _ _ (db, s))
    as [[alerts|e] [dbL sL]] eqn:Hloop;
    destruct (scan_loop_frame _ _ _ _ _ _ _ _ _ _ _ _ _ _ _ _ _ Hloop)
      as (Hg & Hi & Ha & Hd & Hal).
  - rewrite save_alerts_if_any. cbn [fst snd]. split; [exact Hi|].
    assert (Hrows : forall r,
              In r (query_candidates db bbox (detection_threshold cfg)) ->
              exists i, In i (inmuebles_raw db)
                /\ select_candidate db bbox (detection_threshold cfg) i
                   = Some r).
    { intros r Hr. apply list_elem_of_In in Hr.
      unfold query_candidates in Hr. apply list_elem_of_omap in Hr.
      destruct Hr as (i & Hi0 & Hsel). exists i.
      split; [apply list_elem_of_In, Hi0|exact Hsel]. }
    split.
    + intros id. destruct (Hd id) as [Hsame|((r & Hr & Hid & Hn) & Hw)];
        [left; exact Hsame|].
      right. split; [|exact Hw].
      destruct (Hrows r Hr) as (i & _ & Hsel).
      revert Hsel Hid Hn. unfold select_candidate.
      destruct bbox as [[[? ?] ?] ?].
      destruct (i_lat i); [|discriminate].
      destruct (i_lon i); [|discriminate].
      match goal with |- context [if ?c then _ else _] => destruct c end;
        [|discriminate].
      intros [= <-]. cbn [row_id row_score]. intros <-. auto.
    + right. destruct (Hal alerts eq_refl) as (Hk & _ & Hfrom).
      exists region, bbox, alerts.
      split; [reflexivity|]. split; [exact Hbox|]. split; [reflexivity|].
      split; [unfold _update_region_last_checked; simpl; congruence|].
      split; [simpl; congruence|]. split.
      * intros i r Hi0 Hsel Hc. apply Hk; [|exact Hc].
        apply list_elem_of_In. unfold query_candidates.
        apply list_elem_of_omap. exists i.
        split; [apply list_elem_of_In, Hi0|exact Hsel].
      * intros a Ha0. destruct (Hfrom a Ha0) as [[]|(r & Hr & Hc & Hkey)].
        destruct (Hrows r Hr) as (i & Hi0 & Hsel). exists i, r. auto.
  - cbn [fst snd]. split; [exact Hi|].
    assert (Hrows : forall r,
              In r (query_candidates db bbox (detection_threshold cfg)) ->
              exists i, In i (inmuebles_raw db)
                /\ select_candidate db bbox (detection_threshold cfg) i
                   = Some r).
    { intros r Hr. apply list_elem_of_In in Hr.
      unfold query_candidates in Hr. apply list_elem_of_omap in Hr.
      destruct Hr as (i & Hi0 & Hsel). exists i.
      split; [apply list_elem_of_In, Hi0|exact Hsel]. }
    split.
    + intros id. destruct (Hd id) as [Hsame|((r & Hr & Hid & Hn) & Hw)];
        [left; exact Hsame|].
      right. split; [|exact Hw].
      destruct (Hrows r Hr) as (i & _ & Hsel).
      revert Hsel Hid Hn. unfold select_candidate.
      destruct bbox as [[[? ?] ?] ?].
      destruct (i_lat i); [|discriminate].
      destruct (i_lon i); [|discriminate].
      match goal with |- context [if ?c then _ else _] => destruct c end;
        [|discriminate].
      intros [= <-]. cbn [row_id row_score]. intros <-. auto.
    + left. exists e. auto.
Qed.
End ScanRegion.


(** A scan leaves every row of the regions table, up to [last_checked]. *)
Lemma scan_region_rows
    (L : libm) (net : Overpass.network) (cfg : common_config)
    (G : Geo.globals) (ScorerState : Type)
    (scorer_score : Scorer.inmueble_dict -> ScorerState ->
                    result (Q * list string) * ScorerState)
    (overpass : Overpass.OverpassClient) (now region_id : Z)
    (db : Monitor.database) (s : ScorerState) :
  Forall2 Terms.same_region_row (Monitor.geo_regions db)
    (Monitor.geo_regions
       (fst (snd (Monitor.scan_region L net cfg G ScorerState scorer_score
                    overpass now region_id (db, s))))).
Proof.
  pose proof (scan_region_cases L net cfg G ScorerState scorer_score overpass
                now region_id db s) as C.
  cbv zeta in C.
  destruct C as (_ & _ & [(e & _ & Hg & _)
                         |(region & bbox & alerts & _ & _ & _ & Hg & _)]);
    rewrite Hg; [apply same_rows_refl|apply last_checked_same_rows].
Qed.

(** X15.  Whatever a scan of a region does, returning or raising: the
    listings table is left as it was; the rows of the regions table keep
    every column but [last_checked]; the alert table is only appended to,
    with alerts of the region scanned; no detection record is deleted. *)
Theorem scan_region_frame
    (L : libm) (net : Overpass.network) (cfg : common_config)
    (G : Geo.globals) (ScorerState : Type)
    (scorer_score : Scorer.inmueble_dict -> ScorerState ->
                    result (Q * list string) * ScorerState)
    (overpass : Overpass.OverpassClient) (now region_id : Z)
    (db : Monitor.database) (s : ScorerState) :
  let out := Monitor.scan_region L net cfg G ScorerState scorer_score
               overpass now region_id (db, s) in
  let db' := fst (snd out) in
  Monitor.inmuebles_raw db' = Monitor.inmuebles_raw db
  /\ Forall2 Terms.same_region_row
       (Monitor.geo_regions db) (Monitor.geo_regions db')
  /\ (exists added,
        Monitor.region_alerts db' = (Monitor.region_alerts db ++ added)%list
        /\ forall a, In a added -> Geo.a_region_id a = region_id)
  /\ (forall id, is_Some (Monitor.detecciones db !! id) ->
                 is_Some (Monitor.detecciones db' !! id)).
Proof.
  pose proof (scan_region_cases L net cfg G ScorerState scorer_score overpass
                now region_id db s) as C.
  cbv zeta in *.
  destruct C as (Hi & Hd & [(e & He & Hg & Ha)
                           |(region & bbox & alerts & _ & _ & Hout & Hg & Ha
                             & _ & Hfrom)]).
  - split; [exact Hi|]. split; [rewrite Hg; apply same_rows_refl|].
    split; [exists []; rewrite Ha, app_nil_r; split; [reflexivity|intros ? []]|].
    intros id Hsome. destruct (Hd id) as [->|(_ & d & -> & _)]; eauto.
  - split; [exact Hi|].
    split; [rewrite Hg; apply last_checked_same_rows|].
    split.
    + destruct (fold_insert_alert_spec alerts (Monitor.region_alerts db))
        as ((added & Hadd & Hin) & _).
      exists added. split; [congruence|].
      intros a Ha0. destruct (Hfrom a (Hin a Ha0)) as (i & r & _ & _ & _ & Hk).
      unfold Terms.alert_key, Terms.row_key in Hk. congruence.
    + intros id Hsome. destruct (Hd id) as [->|(_ & d & -> & _)]; eauto.
Qed.



(** X17.  A scan changes a detection record only for a listing that had no
    stored score, and the record it leaves has a score at or above the
    detection threshold and the status "confirmed" or "detected" of the
    configuration; every other record is as it was. *)
Theorem scan_region_detections
    (L : libm) (net : Overpass.network) (cfg : common_config)
    (G : Geo.globals) (ScorerState : Type)
    (scorer_score : Scorer.inmueble_dict -> ScorerState ->
                    result (Q * list string) * ScorerState)
    (overpass : Overpass.OverpassClient) (now region_id : Z)
    (db : Monitor.database) (s : ScorerState) (id : Z) :
  let db' := fst (snd (Monitor.scan_region L net cfg G ScorerState
                         scorer_score overpass now region_id (db, s))) in
  Monitor.detecciones db' !! id = Monitor.detecciones db !! id
  \/ (Monitor.detecciones db !! id ≫= Monitor.det_score = None
      /\ exists d score,
           Monitor.detecciones db' !! id = Some d
           /\ Monitor.det_score d = Some score
           /\ detection_threshold cfg <= score
           /\ (Monitor.det_status d = Some (statuses_confirmed cfg)
               \/ Monitor.det_status d = Some (statuses_detected cfg))).
Proof.
  pose proof (scan_region_cases L net cfg G ScorerState scorer_score overpass
                now region_id db s) as C.
  cbv zeta in *. destruct C as (_ & Hd & _).
  destruct (Hd id) as [Hsame|(Hnone & d & Hd' & score & Hs & Hle & Hst)];
    [left; exact Hsame|].
  right. split; [exact Hnone|]. exists d, score.
  split; [exact Hd'|]. split; [exact Hs|]. split; [exact Hle|].
  rewrite Hst. destruct (status_from_threshold cfg score Hle) as [->| ->]; auto.
Qed.

(** ** region_monitor.py: saving, creating and deactivating regions *)

Lemma RegionShape_round_trip (shape : Geo.RegionShape) :
  Geo.RegionShape_of_value (Geo.RegionShape_value shape) = Ok shape.
Proof. destruct shape; reflexivity. Qed.

Lemma find_after {A} (f : A -> bool) (l : list A) (x : A) :
  List.find f l = None ->
  List.find f (l ++ [x])%list = if f x then Some x else None.
Proof.
  induction l as [|a l IH]; simpl; [reflexivity|].
  destruct (f a); [discriminate|exact IH].
Qed.

Lemma find_before {A} (f : A -> bool) (l : list A) (x : A) :
  f x = false -> List.find f (l ++ [x])%list = List.find f l.
Proof.
  intros Hx. induction l as [|a l IH]; simpl; [rewrite Hx; reflexivity|].
  destruct (f a); [reflexivity|exact IH].
Qed.

Lemma get_region_None (db : Monitor.database) (region_id : Z) :
  Monitor._get_region db region_id = Ok None ->
  List.find (fun r => Z.eqb (Monitor.r_id r) region_id)
    (Monitor.geo_regions db) = None.
Proof.
  unfold Monitor._get_region.
  destruct (List.find _ _) as [r|]; [|reflexivity].
  destruct (Geo.RegionShape_of_value _); discriminate.
Qed.

(** What [_get_region] reads after [_save_region], for an id that no row
    had. *)
Lemma save_region_read_back
    (new_id : Z) (created : option Z) (region : Geo.GeoRegion)
    (shape : Geo.RegionShape) (db : Monitor.database) :
  Geo.shape_type region = Some shape ->
  Monitor._get_region db new_id = Ok None ->
  exists saved db' back,
    Regions._save_region new_id created region db = Ok (saved, db')
    /\ Monitor._get_region db' new_id = Ok (Some back)
    /\ Geo.shape_type back = Some shape
    /\ Geo.radius_m back = Geo.radius_m region
    /\ Geo.coordinates back = None.
Proof.
  intros Hshape Hfresh. apply get_region_None in Hfresh.
  unfold Regions._save_region. rewrite Hshape.
  eexists _, _, _. split; [reflexivity|].
  unfold Monitor._get_region. cbn [Monitor.geo_regions].
  rewrite (find_after _ _ _ Hfresh). cbn [Monitor.r_id].
  rewrite Z.eqb_refl. cbn [Monitor.r_shape_type].
  rewrite RegionShape_round_trip. cbn [Py.bind].
  split; [reflexivity|]. repeat split.
Qed.

(** X18.  A region saved under an id that no row has yet is read back by
    [_get_region] with the same name, shape, centre, radius, address and
    description, active and never checked, but without its vertices; the
    object returned by [_save_region] keeps them.  The other regions read
    back as before. *)
Theorem save_region_round_trip
    (new_id : Z) (created : option Z) (region : Geo.GeoRegion)
    (shape : Geo.RegionShape) (db : Monitor.database) :
  Geo.shape_type region = Some shape ->
  Monitor._get_region db new_id = Ok None ->
  exists saved db' back,
    Regions._save_region new_id created region db = Ok (saved, db')
    /\ Geo.id saved = Some new_id
    /\ Geo.coordinates saved = Geo.coordinates region
    /\ Monitor._get_region db' new_id = Ok (Some back)
    /\ Geo.id back = Some new_id
    /\ Geo.name back = Geo.name region
    /\ Geo.shape_type back = Some shape
    /\ Geo.center_lat back = Geo.center_lat region
    /\ Geo.center_lon back = Geo.center_lon region
    /\ Geo.radius_m back = Geo.radius_m region
    /\ Geo.address back = Geo.address region
    /\ Geo.description back = Geo.description region
    /\ Geo.coordinates back = None
    /\ Geo.is_active back = true
    /\ Geo.last_checked back = None
    /\ (forall id, id <> new_id ->
          Monitor._get_region db' id = Monitor._get_region db id).
Proof.
  intros Hshape Hfresh. apply get_region_None in Hfresh.
  unfold Regions._save_region. rewrite Hshape.
  eexists _, _, _. split; [reflexivity|].
  split; [reflexivity|]. split; [reflexivity|].
  unfold Monitor._get_region. cbn [Monitor.geo_regions].
  rewrite (find_after _ _ _ Hfresh). cbn [Monitor.r_id].
  rewrite Z.eqb_refl. cbn [Monitor.r_shape_type].
  rewrite RegionShape_round_trip. cbn [Py.bind].
  split; [reflexivity|]. do 11 (split; [reflexivity|]).
  intros id Hid. rewrite find_before; [reflexivity|].
  cbn [Monitor.r_id]. apply Z.eqb_neq. congruence.
Qed.

Lemma save_region_round_trip_witness :
  exists saved db' back,
    Regions._save_region 4 (Some 1000%Z)
      (Builder.from_bounding_box Examples2.str_int 40 (-4) 41 (-3) None)
      Examples.db_scored = Ok (saved, db')
    /\ Geo.coordinates saved = Some [(40, -4); (41, -3)]
    /\ Monitor._get_region db' 4 = Ok (Some back)
    /\ Geo.shape_type back = Some Geo.BOUNDING_BOX
    /\ Geo.coordinates back = None.
Proof.
  destruct (save_region_round_trip 4 (Some 1000%Z)
              (Builder.from_bounding_box Examples2.str_int 40 (-4) 41 (-3)
                 None)
              Geo.BOUNDING_BOX Examples.db_scored)
    as (saved & db' & back & Hsave & _ & Hc & Hget & _ & _ & Hs & _ & _ & _
        & _ & _ & Hnone & _).
  - reflexivity.
  - reflexivity.
  - exists saved, db', back. repeat split; assumption.
Defined.

(** A region without centre whose shape is a polygon or a bounding box is
    saved, and the scan that follows raises: the row read back has no
    vertices. *)
Lemma save_scan_start_without_vertices
    (L : libm) (net : Overpass.network) (cfg : common_config)
    (G : Geo.globals) (ScorerState : Type)
    (scorer_score : Scorer.inmueble_dict -> ScorerState ->
                    result (Q * list string) * ScorerState)
    (overpass : Overpass.OverpassClient) (now new_id : Z)
    (created : option Z) (region : Geo.GeoRegion) (auto_start : bool)
    (db : Monitor.database) (sc : ScorerState) (m : Scheduler.monitor) :
  Geo.shape_type region = Some Geo.POLYGON
  \/ Geo.shape_type region = Some Geo.BOUNDING_BOX ->
  Monitor._get_region db new_id = Ok None ->
  exists saved db',
    Regions._save_region new_id created region db = Ok (saved, db')
    /\ Regions.save_scan_start L net cfg G ScorerState scorer_score overpass
         now new_id created region auto_start ((db, sc), m)
       = (Raise TypeError, ((db', sc), m)).
Proof.
  intros Hshape Hfresh.
  assert (exists shape, Geo.shape_type region = Some shape
                        /\ (shape = Geo.POLYGON \/ shape = Geo.BOUNDING_BOX))
    as (shape & Hs & Hcases) by (destruct Hshape; eauto).
  destruct (save_region_read_back new_id created region shape db Hs Hfresh)
    as (saved & db' & back & Hsave & Hget & Hbs & _ & Hnone).
  exists saved, db'. split; [exact Hsave|].
  unfold Regions.save_scan_start. rewrite Hsave.
  unfold Monitor.scan_region. cbn [fst snd]. rewrite Hget.
  unfold Geo.get_bounding_box. rewrite Hbs, Hnone.
  destruct Hcases as [-> | ->]; reflexivity.
Qed.

(** X19.  [create_region_from_polygon] never returns a region.  With fewer
    than three points the builder raises [ValueError] and nothing is
    written.  With three or more, the region is saved as an active row
    "polygon" under the new id, then the first scan raises [TypeError]
    (the row is read back without vertices): the row stays, the other
    tables are untouched and monitoring is not started, even with
    [auto_start]. *)
Theorem create_region_from_polygon_raises
    (L : libm) (net : Overpass.network) (cfg : common_config)
    (G : Geo.globals) (ScorerState : Type)
    (scorer_score : Scorer.inmueble_dict -> ScorerState ->
                    result (Q * list string) * ScorerState)
    (overpass : Overpass.OverpassClient) (now new_id : Z)
    (created : option Z) (coordinates : list (Q * Q)) (name : string)
    (description : option string) (auto_start : bool)
    (db : Monitor.database) (sc : ScorerState) (m : Scheduler.monitor) :
  Monitor._get_region db new_id = Ok None ->
  let out := Regions.create_region_from_polygon L net cfg G ScorerState
               scorer_score overpass now new_id created coordinates name
               description auto_start ((db, sc), m) in
  ((length coordinates < 3)%nat ->
   out = (Raise (ValueError "Polygon needs at least 3 points"),
          ((db, sc), m)))
  /\ ((3 <= length coordinates)%nat ->
      exists row,
        out = (Raise TypeError,
               (({| Monitor.geo_regions := (Monitor.geo_regions db ++ [row])%list;
                    Monitor.inmuebles_raw := Monitor.inmuebles_raw db;
                    Monitor.detecciones := Monitor.detecciones db;
                    Monitor.region_alerts := Monitor.region_alerts db |}, sc),
                m))
        /\ Monitor.r_id row = new_id
        /\ Monitor.r_shape_type row = "polygon"
        /\ Monitor.r_description row = description
        /\ Monitor.r_is_active row = true).
Proof.
  intros Hfresh out. subst out.
  unfold Regions.create_region_from_polygon, Builder.from_polygon. split.
  - intros Hlen. apply Nat.ltb_lt in Hlen. rewrite Hlen. reflexivity.
  - intros Hlen. apply Nat.ltb_ge in Hlen. rewrite Hlen.
    match goal with
    | |- context [Regions.save_scan_start _ _ _ _ _ _ _ _ _ _ ?region _ _] =>
        destruct (save_scan_start_without_vertices L net cfg G ScorerState
                    scorer_score overpass now new_id created region
                    auto_start db sc m) as (saved & db' & Hsave & Hrun);
          [left; reflexivity|exact Hfresh|]
    end.
    rewrite Hrun. revert Hsave. unfold Regions._save_region.
    cbn [Regions.set_description Geo.shape_type Builder.new_region].
    intros [= _ <-]. eexists. split; [reflexivity|]. repeat split.
Qed.

Lemma create_region_from_polygon_raises_witness :
  let out :=
    Regions.create_region_from_polygon Approx.math Examples.net_down
      Examples.cfg50 (Geo.with_math Approx.math) unit Examples.stub_scorer
      Examples.client 1000 4 (Some 1000%Z) Examples2.triangle "triangulo"
      None true ((Examples.db_unscored, tt), Scheduler.init) in
  fst out = Raise TypeError
  /\ length (Monitor.geo_regions (fst (fst (snd out)))) = 4%nat
  /\ Scheduler.active_monitors (snd (snd out)) = ∅.
Proof.
  destruct (create_region_from_polygon_raises Approx.math Examples.net_down
              Examples.cfg50 (Geo.with_math Approx.math) unit
              Examples.stub_scorer Examples.client 1000 4 (Some 1000%Z)
              Examples2.triangle "triangulo" None true Examples.db_unscored
              tt Scheduler.init eq_refl) as [_ H].
  destruct H as (row & -> & _); [apply Nat.le_refl|].
  repeat split.
Defined.

(** X20.  [create_region_from_bounding_box] never returns a region either:
    the region is saved as an active row "bbox" under the new id, then the
    first scan raises [TypeError]; the row stays and monitoring is not
    started. *)
Theorem create_region_from_bounding_box_raises
    (L : libm) (net : Overpass.network) (cfg : common_config)
    (G : Geo.globals) (ScorerState : Type)
    (scorer_score : Scorer.inmueble_dict -> ScorerState ->
                    result (Q * list string) * ScorerState)
    (overpass : Overpass.OverpassClient) (now new_id : Z)
    (str_num : Q -> string) (created : option Z)
    (sw_lat sw_lon ne_lat ne_lon : Q) (name : string)
    (description : option string) (auto_start : bool)
    (db : Monitor.database) (sc : ScorerState) (m : Scheduler.monitor) :
  Monitor._get_region db new_id = Ok None ->
  exists row,
    Regions.create_region_from_bounding_box L net cfg G ScorerState
      scorer_score overpass now str_num new_id created sw_lat sw_lon ne_lat
      ne_lon name description auto_start ((db, sc), m)
    = (Raise TypeError,
       (({| Monitor.geo_regions := (Monitor.geo_regions db ++ [row])%list;
            Monitor.inmuebles_raw := Monitor.inmuebles_raw db;
            Monitor.detecciones := Monitor.detecciones db;
            Monitor.region_alerts := Monitor.region_alerts db |}, sc), m))
    /\ Monitor.r_id row = new_id
    /\ Monitor.r_shape_type row = "bbox"
    /\ Monitor.r_center_lat row = None
    /\ Monitor.r_radius_m row = None
    /\ Monitor.r_description row = description
    /\ Monitor.r_is_active row = true.
Proof.
  intros Hfresh. unfold Regions.create_region_from_bounding_box.
  match goal with
  | |- context [Regions.save_scan_start _ _ _ _ _ _ _ _ _ _ ?region _ _] =>
      destruct (save_scan_start_without_vertices L net cfg G ScorerState
                  scorer_score overpass now new_id created region
                  auto_start db sc m) as (saved & db' & Hsave & Hrun);
        [right; reflexivity|exact Hfresh|]
  end.
  rewrite Hrun. revert Hsave. unfold Regions._save_region.
  cbn [Regions.set_description Geo.shape_type Builder.from_bounding_box
       Builder.new_region].
  intros [= _ <-]. eexists. split; [reflexivity|]. repeat split.
Qed.

Lemma create_region_from_bounding_box_raises_witness :
  let out :=
    Regions.create_region_from_bounding_box Approx.math Examples.net_down
      Examples.cfg50 (Geo.with_math Approx.math) unit Examples.stub_scorer
      Examples.client 1000 Examples2.str_int 4 (Some 1000%Z) 40 (-4) 41 (-3)
      "Madrid" None true ((Examples.db_unscored, tt), Scheduler.init) in
  fst out = Raise TypeError
  /\ length (Monitor.geo_regions (fst (fst (snd out)))) = 4%nat
  /\ Scheduler.active_monitors (snd (snd out)) = ∅.
Proof.
  destruct (create_region_from_bounding_box_raises Approx.math
              Examples.net_down Examples.cfg50 (Geo.with_math Approx.math)
              unit Examples.stub_scorer Examples.client 1000 4
              Examples2.str_int (Some 1000%Z) 40 (-4) 41 (-3) "Madrid" None
              true Examples.db_unscored tt Scheduler.init eq_refl)
    as (row & -> & _).
  repeat split.
Defined.

Lemma stop_lookup (r0 r : Z) (m : Scheduler.monitor) :
  Scheduler.active_monitors (Scheduler.stop_monitoring r0 m) !! r
  = if decide (r = r0) then None else Scheduler.active_monitors m !! r.
Proof.
  unfold Scheduler.stop_monitoring.
  destruct (Scheduler.active_monitors m !! r0) as [h|] eqn:E;
    cbn [Scheduler.active_monitors]; destruct (decide (r = r0)) as [->|Hne].
  - apply lookup_delete_eq.
  - apply lookup_delete_ne. congruence.
  - exact E.
  - reflexivity.
Qed.

Lemma stop_all_spec (keys : list Z) :
  forall m,
    Scheduler.consistent m ->
    Scheduler.consistent (Regions.stop_all_monitoring keys m)
    /\ Scheduler.next_handle (Regions.stop_all_monitoring keys m)
       = Scheduler.next_handle m
    /\ forall r,
         (In r keys ->
          Scheduler.active_monitors (Regions.stop_all_monitoring keys m) !! r
          = None)
         /\ (~ In r keys ->
             Scheduler.active_monitors (Regions.stop_all_monitoring keys m)
               !! r
             = Scheduler.active_monitors m !! r).
Proof.
  unfold Regions.stop_all_monitoring.
  induction keys as [|k keys IH]; intros m Hm; cbn [fold_left].
  - split; [exact Hm|]. split; [reflexivity|]. intros r.
    split; [intros []|reflexivity].
  - destruct (IH _ (consistent_stop k m Hm)) as (Hc & Hn & Hl).
    split; [exact Hc|]. split.
    + rewrite Hn. unfold Scheduler.stop_monitoring.
      destruct (Scheduler.active_monitors m !! k); reflexivity.
    + intros r. destruct (Hl r) as [Hin Hout].
      destruct (in_dec Z.eq_dec r keys) as [Hk|Hk].
      * split; [intros _; apply Hin, Hk|]. intros Hn'. exfalso.
        apply Hn'. right. exact Hk.
      * rewrite (Hout Hk), stop_lookup. split.
        -- intros [<-|Hk']; [|contradiction].
           destruct (decide (k = k)); [reflexivity|congruence].
        -- intros Hn'. destruct (decide (r = k)) as [->|]; [|reflexivity].
           exfalso. apply Hn'. left. reflexivity.
Qed.

(** X21.  After any sequence of start and stop calls, [stop_all_monitoring]
    run over a list that holds every key of [active_monitors] leaves the
    dict empty and no monitoring task alive. *)
Theorem stop_all_monitoring_stops_all
    (calls : list Scheduler.call) (keys : list Z) :
  let m := Scheduler.run calls in
  (forall r, is_Some (Scheduler.active_monitors m !! r) -> In r keys) ->
  let m' := Regions.stop_all_monitoring keys m in
  Scheduler.active_monitors m' = ∅
  /\ Scheduler.tasks m' = ∅
  /\ Scheduler.next_handle m' = Scheduler.next_handle m.
Proof.
  intros m Hkeys m'.
  destruct (stop_all_spec keys m (consistent_run calls)) as (Hc & Hn & Hl).
  fold m' in Hc, Hn, Hl.
  assert (Hdict : Scheduler.active_monitors m' = ∅).
  { apply map_eq. intros r. rewrite lookup_empty.
    destruct (Hl r) as [Hin Hout].
    destruct (in_dec Z.eq_dec r keys) as [Hk|Hk]; [apply Hin, Hk|].
    rewrite (Hout Hk).
    destruct (Scheduler.active_monitors m !! r) as [h|] eqn:E;
      [|reflexivity].
    exfalso. apply Hk, Hkeys. eauto. }
  split; [exact Hdict|]. split; [|exact Hn].
  apply map_eq. intros h. rewrite lookup_empty.
  destruct (Scheduler.tasks m' !! h) as [t|] eqn:E; [|reflexivity].
  assert (Hmon : Scheduler.monitors m' (Scheduler.t_region_id t) h)
    by (exists t; auto).
  apply (Scheduler.task_dict m' Hc) in Hmon.
  rewrite Hdict, lookup_empty in Hmon. discriminate.
Qed.

Lemma stop_all_monitoring_stops_all_witness :
  let m := Scheduler.run
             [Scheduler.Start 1 24; Scheduler.Start 2 12; Scheduler.Stop 1;
              Scheduler.Start 3 24] in
  let keys := map fst (map_to_list (Scheduler.active_monitors m)) in
  length keys = 2%nat
  /\ Scheduler.active_monitors (Regions.stop_all_monitoring keys m) = ∅
  /\ Scheduler.tasks (Regions.stop_all_monitoring keys m) = ∅.
Proof.
  intros m keys. split; [vm_compute; reflexivity|].
  destruct (stop_all_monitoring_stops_all
              [Scheduler.Start 1 24; Scheduler.Start 2 12; Scheduler.Stop 1;
               Scheduler.Start 3 24] keys) as (Hd & Ht & _).
  - intros r [h Hh]. apply list_elem_of_In, list_elem_of_fmap.
    exists (r, h). split; [reflexivity|]. apply elem_of_map_to_list, Hh.
  - split; assumption.
Defined.

Lemma deactivate_stops (region_id : Z) (db : Monitor.database)
    (m : Scheduler.monitor) :
  snd (Regions.deactivate_region region_id (db, m))
  = Scheduler.stop_monitoring region_id m.
Proof.
  unfold Regions.deactivate_region, Scheduler.stop_monitoring. cbn [fst snd].
  destruct (Scheduler.active_monitors m !! region_id); reflexivity.
Qed.

(** X22.  [deactivate_region], after any sequence of start and stop calls:
    the region has no entry in [active_monitors] and no task left, the
    monitoring of the other regions is untouched; no row of the regions
    table is deleted, the active regions listed afterwards are those listed
    before without that region, and the other tables are unchanged. *)
Theorem deactivate_region_effect
    (calls : list Scheduler.call) (region_id : Z) (db : Monitor.database) :
  let m := Scheduler.run calls in
  let out := Regions.deactivate_region region_id (db, m) in
  let db' := fst out in
  let m' := snd out in
  Scheduler.active_monitors m' !! region_id = None
  /\ (forall h, ~ Scheduler.monitors m' region_id h)
  /\ (forall r, r <> region_id ->
        Scheduler.active_monitors m' !! r = Scheduler.active_monitors m !! r)
  /\ map Monitor.r_id (Monitor.geo_regions db')
     = map Monitor.r_id (Monitor.geo_regions db)
  /\ (forall r, In r (Regions.listed true db') <->
                In r (Regions.listed true db) /\ Monitor.r_id r <> region_id)
  /\ Monitor.inmuebles_raw db' = Monitor.inmuebles_raw db
  /\ Monitor.detecciones db' = Monitor.detecciones db
  /\ Monitor.region_alerts db' = Monitor.region_alerts db.
Proof.
  intros m out db' m'.
  assert (Hm' : m' = Scheduler.stop_monitoring region_id m)
    by apply deactivate_stops.
  assert (Hnone : Scheduler.active_monitors m' !! region_id = None).
  { rewrite Hm', stop_lookup.
    destruct (decide (region_id = region_id)); [reflexivity|congruence]. }
  split; [exact Hnone|]. split.
  { intros h Hmon.
    assert (Hc : Scheduler.consistent m')
      by (rewrite Hm'; apply consistent_stop, consistent_run).
    apply (Scheduler.task_dict m' Hc) in Hmon. congruence. }
  split.
  { intros r Hr. rewrite Hm', stop_lookup.
    destruct (decide (r = region_id)); [congruence|reflexivity]. }
  subst db' out. unfold Regions.deactivate_region, Regions.set_inactive.
  cbn [fst snd Monitor.geo_regions Monitor.inmuebles_raw Monitor.detecciones
       Monitor.region_alerts].
  split.
  { rewrite List.map_map. apply map_ext. intros r.
    destruct (Z.eqb (Monitor.r_id r) region_id); reflexivity. }
  split; [|repeat split].
  intros r. unfold Regions.listed.
  cbn [Monitor.geo_regions negb orb]. rewrite !filter_In, in_map_iff. split.
  - intros [(r0 & Hr0 & Hin) Hact]. revert Hr0.
    destruct (Z.eqb (Monitor.r_id r0) region_id) eqn:E.
    + intros <-. discriminate.
    + intros <-. apply Z.eqb_neq in E. auto.
  - intros [[Hin Hact] Hid]. split; [|exact Hact].
    exists r. split; [|exact Hin].
    apply Z.eqb_neq in Hid. rewrite Hid. reflexivity.
Qed.

(** The common end of the [create_region_from_...] methods: the region is
    saved whatever the scan does, and monitoring starts only after a scan
    that completed. *)
Lemma save_scan_start_outcome
    (L : libm) (net : Overpass.network) (cfg : common_config)
    (G : Geo.globals) (ScorerState : Type)
    (scorer_score : Scorer.inmueble_dict -> ScorerState ->
                    result (Q * list string) * ScorerState)
    (overpass : Overpass.OverpassClient) (now new_id : Z)
    (created : option Z) (region : Geo.GeoRegion) (shape : Geo.RegionShape)
    (auto_start : bool)
    (db : Monitor.database) (sc : ScorerState) (m : Scheduler.monitor) :
  Geo.shape_type region = Some shape ->
  let out := Regions.save_scan_start L net cfg G ScorerState scorer_score
               overpass now new_id created region auto_start ((db, sc), m) in
  exists saved db1,
    Regions._save_region new_id created region db = Ok (saved, db1)
    /\ Forall2 Terms.same_region_row (Monitor.geo_regions db1)
         (Monitor.geo_regions (fst (fst (snd out))))
    /\ match fst out with
       | Ok r =>
           r = saved
           /\ snd (snd out)
              = (if auto_start
                 then Scheduler.start_monitoring new_id 24 m else m)
       | Raise _ => snd (snd out) = m
       end
    /\ (G = Geo.shipped -> shape = Geo.CIRCLE ->
        Monitor._get_region db new_id = Ok None ->
        Geo.radius_m region <> None ->
        fst out = Raise (NameError "cos")).
Proof.
  intros Hshape out. subst out. unfold Regions.save_scan_start.
  destruct (Regions._save_region new_id created region db)
    as [[saved db1]|e] eqn:Hsave;
    [|unfold Regions._save_region in Hsave; rewrite Hshape in Hsave;
      discriminate].
  exists saved, db1. split; [reflexivity|].
  pose proof (scan_region_rows L net cfg G ScorerState scorer_score overpass
                now new_id db1 sc) as Hrows.
  split; [|split].
  - destruct (Monitor.scan_region _ _ _ _ _ _ _ _ _ _) as [[alerts|e] st];
      exact Hrows.
  - destruct (Monitor.scan_region _ _ _ _ _ _ _ _ _ _) as [[alerts|e] st];
      cbn [fst snd]; auto.
  - intros -> -> Hfresh Hradius.
    destruct (save_region_read_back new_id created region Geo.CIRCLE db
                Hshape Hfresh)
      as (saved' & db' & back & Hsave' & Hget & Hbs & Hr & _).
    rewrite Hsave in Hsave'. injection Hsave' as <- <-.
    unfold Monitor.scan_region. cbn [fst snd]. rewrite Hget.
    unfold Geo.get_bounding_box. rewrite Hbs, Hr.
    destruct (Geo.radius_m region); [reflexivity|congruence].
Qed.

(** X23.  [create_region_from_address]: when the geocoder finds nothing,
    [None] is returned and nothing is written.  Otherwise a circle around
    the first result is saved as an active row under the new id, and stays
    saved whatever the first scan does; monitoring is started (every 24
    hours) only if that scan completes and [auto_start] is set, and then the
    region returned carries the new id.  With models.py as shipped the
    call raises [NameError] for [cos]. *)
Theorem create_region_from_address_outcome
    (L : libm) (net : Overpass.network) (cfg : common_config)
    (G : Geo.globals) (ScorerState : Type)
    (scorer_score : Scorer.inmueble_dict -> ScorerState ->
                    result (Q * list string) * ScorerState)
    (overpass : Overpass.OverpassClient) (now new_id : Z)
    (str_num : Q -> string)
    (results : option (list Builder.GeocodingResult))
    (created : option Z) (address : string) (radius_m : Q)
    (name description : option string) (auto_start : bool)
    (db : Monitor.database) (sc : ScorerState) (m : Scheduler.monitor) :
  Monitor._get_region db new_id = Ok None ->
  let out := Regions.create_region_from_address L net cfg G ScorerState
               scorer_score overpass now str_num results new_id created
               address radius_m name description auto_start ((db, sc), m) in
  match results with
  | Some (g :: _) =>
      (exists row,
         In row (Monitor.geo_regions (fst (fst (snd out))))
         /\ Monitor.r_id row = new_id
         /\ Monitor.r_shape_type row = "circle"
         /\ Monitor.r_center_lat row = Some (Builder.g_lat g)
         /\ Monitor.r_center_lon row = Some (Builder.g_lon g)
         /\ Monitor.r_radius_m row = Some radius_m
         /\ Monitor.r_address row = Some address
         /\ Monitor.r_is_active row = true)
      /\ match fst out with
         | Ok (Some region) =>
             Geo.id region = Some new_id
             /\ Geo.shape_type region = Some Geo.CIRCLE
             /\ Geo.center_lat region = Some (Builder.g_lat g)
             /\ Geo.center_lon region = Some (Builder.g_lon g)
             /\ Geo.radius_m region = Some radius_m
             /\ snd (snd out)
                = (if auto_start
                   then Scheduler.start_monitoring new_id 24 m else m)
         | Ok None => False
         | Raise _ => snd (snd out) = m
         end
      /\ (G = Geo.shipped -> fst out = Raise (NameError "cos"))
  | _ => out = (Ok None, ((db, sc), m))
  end.
Proof.
  intros Hfresh out. subst out.
  unfold Regions.create_region_from_address, Builder.from_address.
  destruct results as [[|g rest]|]; try reflexivity.
  set (region0 := Builder.new_region _ _ _ _ _ _ _ _).
  set (region := match description with
                 | Some d => if String.eqb d "" then region0
                             else Regions.set_description region0 description
                 | None => region0
                 end).
  assert (Hfields : Geo.shape_type region = Some Geo.CIRCLE
                    /\ Geo.name region = Geo.name region0
                    /\ Geo.center_lat region = Some (Builder.g_lat g)
                    /\ Geo.center_lon region = Some (Builder.g_lon g)
                    /\ Geo.radius_m region = Some radius_m
                    /\ Geo.address region = Some address).
  { subst region. destruct description as [d|]; [|repeat split].
    destruct (String.eqb d ""); repeat split. }
  destruct Hfields as (Hs & Hname & Hlat & Hlon & Hrad & Haddr).
  destruct (save_scan_start_outcome L net cfg G ScorerState scorer_score
              overpass now new_id created region Geo.CIRCLE auto_start db sc
              m Hs) as (saved & db1 & Hsave & Hrows & Hout & Hshipped).
  destruct (Regions.save_scan_start _ _ _ _ _ _ _ _ _ _ _ _ _)
    as [[r|e] w'] eqn:Hrun; cbn [fst snd] in *.
  - split; [|split].
    + revert Hsave Hrows. unfold Regions._save_region. rewrite Hs.
      intros [= _ <-]. cbn [Monitor.geo_regions]. intros Hrows.
      apply Forall2_app_inv_l in Hrows
        as (l1 & l2 & _ & Hlast & ->).
      inversion Hlast as [|row0 row l0 l0' Hrow Hnil]; subst.
      exists row. split; [apply in_or_app; right; left; reflexivity|].
      destruct Hrow as (Hid & _ & Hst & Hcl & Hcn & Hr & Ha & _ & Hact & _).
      cbn in Hid, Hst, Hcl, Hcn, Hr, Ha, Hact.
      rewrite Hid, Hst, Hcl, Hcn, Hr, Ha, Hact, Hlat, Hlon, Hrad, Haddr.
      repeat split.
    + destruct Hout as [-> Hm]. revert Hsave. unfold Regions._save_region.
      rewrite Hs. intros [= <- _].
      cbn [Geo.id Geo.shape_type Geo.center_lat Geo.center_lon Geo.radius_m].
      auto 10.
    + intros HG. specialize (Hshipped HG eq_refl Hfresh).
      rewrite Hrad in Hshipped. discriminate Hshipped. discriminate.
  - split; [|split].
    + revert Hsave Hrows. unfold Regions._save_region. rewrite Hs.
      intros [= _ <-]. cbn [Monitor.geo_regions]. intros Hrows.
      apply Forall2_app_inv_l in Hrows
        as (l1 & l2 & _ & Hlast & ->).
      inversion Hlast as [|row0 row l0 l0' Hrow Hnil]; subst.
      exists row. split; [apply in_or_app; right; left; reflexivity|].
      destruct Hrow as (Hid & _ & Hst & Hcl & Hcn & Hr & Ha & _ & Hact & _).
      cbn in Hid, Hst, Hcl, Hcn, Hr, Ha, Hact.
      rewrite Hid, Hst, Hcl, Hcn, Hr, Ha, Hact, Hlat, Hlon, Hrad, Haddr.
      repeat split.
    + exact Hout.
    + intros HG.
      assert (He : @Raise Geo.GeoRegion e = Raise (NameError "cos"))
        by (apply Hshipped; auto; rewrite Hrad; discriminate).
      injection He as ->. reflexivity.
Qed.

Lemma create_region_from_address_outcome_witness :
  let out :=
    Regions.create_region_from_address Approx.math Examples.net_down
      Examples.cfg50 (Geo.with_math Approx.math) unit Examples.stub_scorer
      Examples.client 1000 Examples2.str_int
      (Some [Examples2.calle; Examples2.iglesia]) 4 (Some 1000%Z)
      "Calle Sierpes" 500 None None true
      ((Examples.db_unscored, tt), Scheduler.init) in
  (exists region, fst out = Ok (Some region))
  /\ is_Some (Scheduler.active_monitors (snd (snd out)) !! 4%Z)
  /\ exists row,
       In row (Monitor.geo_regions (fst (fst (snd out))))
       /\ Monitor.r_id row = 4%Z.
Proof.
  intros out.
  destruct (create_region_from_address_outcome Approx.math Examples.net_down
              Examples.cfg50 (Geo.with_math Approx.math) unit
              Examples.stub_scorer Examples.client 1000 4 Examples2.str_int
              (Some [Examples2.calle; Examples2.iglesia]) (Some 1000%Z)
              "Calle Sierpes" 500 None None true Examples.db_unscored tt
              Scheduler.init eq_refl) as ((row & Hin & Hid & _) & _ & _).
  split; [eexists; vm_compute; reflexivity|].
  split.
  { assert (H : snd (snd out)
                = Scheduler.start_monitoring 4 24 Scheduler.init)
      by (vm_compute; reflexivity).
    rewrite H. apply start_lookup. }
  exists row. split; [exact Hin|exact Hid].
Defined.

(** ** region_monitor.py: scanning a deactivated region *)

Lemma find_set_inactive (region_id id : Z) (db : Monitor.database) :
  List.find (fun r => Z.eqb (Monitor.r_id r) id)
    (Monitor.geo_regions (Regions.set_inactive region_id db))
  = option_map
      (fun r => if Z.eqb (Monitor.r_id r) region_id
                then {| Monitor.r_id := Monitor.r_id r;
                        Monitor.r_name := Monitor.r_name r;
                        Monitor.r_shape_type := Monitor.r_shape_type r;
                        Monitor.r_center_lat := Monitor.r_center_lat r;
                        Monitor.r_center_lon := Monitor.r_center_lon r;
                        Monitor.r_radius_m := Monitor.r_radius_m r;
                        Monitor.r_address := Monitor.r_address r;
                        Monitor.r_description := Monitor.r_description r;
                        Monitor.r_is_active := false;
                        Monitor.r_last_checked := Monitor.r_last_checked r;
                        Monitor.r_created_at := Monitor.r_created_at r |}
                else r)
      (List.find (fun r => Z.eqb (Monitor.r_id r) id)
         (Monitor.geo_regions db)).
Proof.
  unfold Regions.set_inactive. simpl.
  induction (Monitor.geo_regions db) as [|r l IH]; [reflexivity|].
  cbn [map List.find].
  destruct (Z.eqb (Monitor.r_id r) region_id) eqn:E; cbn [Monitor.r_id];
    destruct (Z.eqb (Monitor.r_id r) id); cbn [option_map];
    rewrite ?E; auto.
Qed.

(** [_get_region] after a deactivation: the same outcome, with the same
    geometry when a region is read. *)
Lemma get_region_set_inactive (region_id id : Z) (db : Monitor.database) :
  match Monitor._get_region db id with
  | Ok (Some region) =>
      exists region',
        Monitor._get_region (Regions.set_inactive region_id db) id
        = Ok (Some region')
        /\ Terms.same_geometry region region'
  | other =>
      Monitor._get_region (Regions.set_inactive region_id db) id = other
  end.
Proof.
  unfold Monitor._get_region. rewrite find_set_inactive.
  destruct (List.find _ (Monitor.geo_regions db)) as [r|]; [|reflexivity].
  cbn [option_map].
  destruct (Z.eqb (Monitor.r_id r) region_id); cbn [Monitor.r_shape_type];
    destruct (Geo.RegionShape_of_value (Monitor.r_shape_type r)) as [shape|e];
    simpl; try reflexivity; eexists; split; try reflexivity; repeat split.
Qed.

Lemma last_checked_set_inactive (now region_id id : Z)
    (db : Monitor.database) :
  Monitor._update_region_last_checked now region_id
    (Regions.set_inactive id db)
  = Regions.set_inactive id
      (Monitor._update_region_last_checked now region_id db).
Proof.
  unfold Monitor._update_region_last_checked, Regions.set_inactive.
  cbn [Monitor.geo_regions Monitor.inmuebles_raw Monitor.detecciones
       Monitor.region_alerts].
  f_equal. rewrite !List.map_map. apply map_ext. intros r.
  destruct (Z.eqb (Monitor.r_id r) id) eqn:E1;
    destruct (Z.eqb (Monitor.r_id r) region_id) eqn:E2;
    cbn [Monitor.r_id]; rewrite ?E1, ?E2; reflexivity.
Qed.

Section ScanInactive.
Import Monitor.
Variable L : libm.
Variable net : Overpass.network.
Variable cfg : common_config.
Variable ScorerState : Type.
Variable scorer_score :
  Scorer.inmueble_dict -> ScorerState -> result (Q * list string) * ScorerState.
Variable overpass : Overpass.OverpassClient.
Variables now region_id id : Z.
Variables region region' : Geo.GeoRegion.
Variable min_score : Q.
Hypothesis Hsame : Terms.same_geometry region region'.

Lemma scan_row_set_inactive (r : row) (db : database) (s : ScorerState) :
  scan_row L net cfg ScorerState scorer_score overpass now region_id region'
    min_score r (Regions.set_inactive id db, s)
  = let out := scan_row L net cfg ScorerState scorer_score overpass now
                 region_id region min_score r (db, s) in
    (fst out, (Regions.set_inactive id (fst (snd out)), snd (snd out))).
Proof.
  destruct Hsame as (Hs & Hlat & Hlon & Hr & Hc).
  cbv zeta. unfold scan_row, Geo.contains_point, distance_to_center.
  rewrite Hs, Hlat, Hlon, Hr.
  destruct (match Geo.shape_type region with
            | Some Geo.CIRCLE => _ | _ => _ end) as [[|]|e];
    try reflexivity.
  destruct (if truthy_opt (Geo.center_lat region) then _ else _)
    as [d|e]; [|reflexivity].
  unfold score_of_row. destruct (row_score r) as [score|].
  - destruct (osm_of_row _ _ _ _) as [[? ?] ?]. reflexivity.
  - cbn [fst snd].
    destruct (_score_inmueble _ _ r s) as [[[score ev]|e] s1];
      [|reflexivity].
    destruct (osm_of_row _ _ _ _) as [[? ?] ?].
    destruct (Qle_bool min_score score); reflexivity.
Qed.

Lemma scan_loop_set_inactive (rows : list row) :
  forall acc db s,
    scan_loop L net cfg ScorerState scorer_score overpass now region_id
      region' min_score rows acc (Regions.set_inactive id db, s)
    = let out := scan_loop L net cfg ScorerState scorer_score overpass now
                   region_id region min_score rows acc (db, s) in
      (fst out, (Regions.set_inactive id (fst (snd out)), snd (snd out))).
Proof.
  induction rows as [|r rows IH]; intros acc db s; [reflexivity|].
  cbn [scan_loop]. rewrite scan_row_set_inactive. cbv zeta.
  destruct (scan_row _ _ _ _ _ _ _ _ region _ r (db, s))
    as [[[alert|]|e] [db1 s1]]; cbn [fst snd];
    [apply IH|apply IH|reflexivity].
Qed.
End ScanInactive.

(** X24.  A scan does not look at [is_active] of the region: scanning a
    region of a database in which some region (that one or another) has
    been set inactive gives the same outcome and the same alerts, and leaves
    the database that the scan of the original one leaves, with that region
    set inactive. *)
Theorem scan_region_ignores_is_active
    (L : libm) (net : Overpass.network) (cfg : common_config)
    (G : Geo.globals) (ScorerState : Type)
    (scorer_score : Scorer.inmueble_dict -> ScorerState ->
                    result (Q * list string) * ScorerState)
    (overpass : Overpass.OverpassClient) (now region_id id : Z)
    (db : Monitor.database) (s : ScorerState) :
  let out := Monitor.scan_region L net cfg G ScorerState scorer_score
               overpass now region_id (db, s) in
  Monitor.scan_region L net cfg G ScorerState scorer_score overpass now
    region_id (Regions.set_inactive id db, s)
  = (fst out, (Regions.set_inactive id (fst (snd out)), snd (snd out))).
Proof.
  cbv zeta. unfold Monitor.scan_region. cbn [fst snd].
  pose proof (get_region_set_inactive id region_id db) as Hget.
  destruct (Monitor._get_region db region_id) as [[region|]|e];
    [|rewrite Hget; reflexivity|rewrite Hget; reflexivity].
  destruct Hget as (region' & -> & Hsame).
  destruct (same_geometry_functions L G region region' Hsame) as [-> _].
  destruct (Geo.get_bounding_box G region) as [[bbox|]|e];
    try reflexivity.
  change (Monitor.query_candidates (Regions.set_inactive id db) bbox
            (detection_threshold cfg))
    with (Monitor.query_candidates db bbox (detection_threshold cfg)).
  rewrite (scan_loop_set_inactive L net cfg ScorerState scorer_score overpass
             now region_id id region region' (detection_threshold cfg) Hsame).
  cbv zeta.
  destruct (Monitor.scan_loop _ _ _ _ _ _ _ _ region _ _ _ (db, s))
    as [[alerts|e] [db1 s1]]; cbn [fst snd]; [|reflexivity].
  rewrite !save_alerts_if_any.
  change (Monitor._save_alerts alerts (Regions.set_inactive id db1))
    with (Regions.set_inactive id (Monitor._save_alerts alerts db1)).
  rewrite last_checked_set_inactive. reflexivity.
Qed.
